(** * DBMonitor: telemetry acquisition and classification

    A shallow embedding of the Python sources of DBMonitor
    ([main.py], [reports/cpu_ram.py], [utils/pdf_generator.py] and the
    probe modules) together with the properties of the specification
    that can be settled on it.

    Python values are embedded as an inductive type, Python floats as
    the binary64 instance of the standard library's [spec_float],
    exceptions as an error constructor of a result type, and the
    effects of a run (statements sent to the database, SSH traffic,
    lines printed) as an explicit trace threaded through the program. *)

From Stdlib Require Import ZArith List String Ascii Bool Lia.
From Stdlib Require Import Floats.SpecFloat.
Import ListNotations.

Local Open Scope Z_scope.

(* ================================================================= *)
(** ** Python values, exceptions and numbers *)

Module Py.

(** The exception classes that the modelled code can meet.  All of
    them derive from [Exception], so an [except Exception] clause
    catches each one. *)
Inductive exn : Type :=
| TypeError
| ValueError
| IndexError
| KeyError
| ZeroDivisionError
| OverflowError
| OperationalError      (* psycopg2: connection refused, bad credentials *)
| ProgrammingError      (* psycopg2: failed statement, e.g. missing relation *)
| SSHException          (* paramiko: transport or channel failure *)
| AuthenticationException
| SocketError
| UnicodeDecodeError.

Inductive result (A : Type) : Type :=
| Ok (a : A)
| Raise (e : exn).
Arguments Ok {A} a.
Arguments Raise {A} e.

Definition bind {A B} (c : result A) (k : A -> result B) : result B :=
  match c with
  | Ok a => k a
  | Raise e => Raise e
  end.

(** [try: v = c / except Exception: v = d] *)
Definition try_or {A} (c : result A) (d : A) : A :=
  match c with
  | Ok a => a
  | Raise _ => d
  end.

(** *** Floats: IEEE 754 binary64 *)

Definition float := spec_float.
Definition prec : Z := 53.
Definition emax : Z := 1024.

Definition fzero : float := S754_zero false.
Definition fnan : float := S754_nan.
Definition finf (neg : bool) : float := S754_infinity neg.

(** An integer read as an unnormalised float with exponent 0: the
    operand format of the correctly rounded operations below. *)
Definition raw_of_Z (z : Z) : float :=
  match z with
  | Z0 => S754_zero false
  | Zpos p => S754_finite false p 0
  | Zneg p => S754_finite true p 0
  end.

(** Nearest double to the integer [z] (ties to even). *)
Definition float_of_Z (z : Z) : float := binary_normalize prec emax z 0 false.

(** Nearest double to the rational [a / b], [b <> 0] (ties to even). *)
Definition rn_div (a b : Z) : float := SFdiv prec emax (raw_of_Z a) (raw_of_Z b).

(** The largest double is [2^1024 - 2^971]; a magnitude of at least
    [2^1024 - 2^970] rounds beyond it. *)
Definition overflow_bound : Z := 2 ^ 1024 - 2 ^ 970.

(** [a / b] on Python ints: correctly rounded true division. *)
Definition int_true_div (a b : Z) : result float :=
  if b =? 0 then Raise ZeroDivisionError
  else if overflow_bound * Z.abs b <=? Z.abs a then Raise OverflowError
  else Ok (rn_div a b).

(** [float(z)] on a Python int. *)
Definition float_of_int (z : Z) : result float :=
  if overflow_bound <=? Z.abs z then Raise OverflowError
  else Ok (float_of_Z z).

(** Integer part of [m * 2^e]. *)
Definition trunc_abs (m : positive) (e : Z) : Z :=
  if 0 <=? e then Zpos m * 2 ^ e else Zpos m / 2 ^ (- e).

(** [int(f)] on a Python float: truncation toward zero. *)
Definition int_of_float (f : float) : result Z :=
  match f with
  | S754_nan => Raise ValueError
  | S754_infinity _ => Raise OverflowError
  | S754_zero _ => Ok 0
  | S754_finite s m e =>
      Ok (if s then - trunc_abs m e else trunc_abs m e)
  end.

Definition float_sub (x y : float) : float := SFsub prec emax x y.
Definition float_mul (x y : float) : float := SFmul prec emax x y.

(** Quotient of [p / q] ([0 <= p], [0 < q]) rounded to the nearest
    integer, ties to the even one. *)
Definition div_half_even (p q : Z) : Z :=
  let d := p / q in
  let r := p mod q in
  match 2 * r ?= q with
  | Lt => d
  | Gt => d + 1
  | Eq => if Z.even d then d else d + 1
  end.

(** [round(x, 2)] on a float: the exact binary value is rounded to two
    decimals, ties to even, and the decimal is read back as the
    nearest double.  Non-finite values and zeros are returned as they
    are. *)
Definition round2 (x : float) : float :=
  match x with
  | S754_finite s m e =>
      let n := if 0 <=? e then 100 * Zpos m * 2 ^ e
               else div_half_even (100 * Zpos m) (2 ^ (- e)) in
      if n =? 0 then S754_zero s
      else rn_div (if s then - n else n) 100
  | _ => x
  end.

(** *** Exact comparison of numbers

    Python compares ints and floats by their mathematical value; a NaN
    is unordered with everything.  A number is read as [m * 2^e]. *)

Inductive pynum : Type :=
| NInt (z : Z)
| NFloat (f : float).

Inductive xnum : Type :=
| XNaN
| XInf (neg : bool)
| XFin (m e : Z).

Definition xnum_of (n : pynum) : xnum :=
  match n with
  | NInt z => XFin z 0
  | NFloat S754_nan => XNaN
  | NFloat (S754_infinity s) => XInf s
  | NFloat (S754_zero _) => XFin 0 0
  | NFloat (S754_finite s m e) => XFin (if s then Zneg m else Zpos m) e
  end.

Definition cmp_fin (m1 e1 m2 e2 : Z) : comparison :=
  let e := Z.min e1 e2 in
  (m1 * 2 ^ (e1 - e)) ?= (m2 * 2 ^ (e2 - e)).

Definition xcompare (a b : xnum) : option comparison :=
  match a, b with
  | XNaN, _ | _, XNaN => None
  | XInf s1, XInf s2 =>
      Some (match s1, s2 with
            | true, false => Lt
            | false, true => Gt
            | _, _ => Eq
            end)
  | XInf s, XFin _ _ => Some (if s then Lt else Gt)
  | XFin _ _, XInf s => Some (if s then Gt else Lt)
  | XFin m1 e1, XFin m2 e2 => Some (cmp_fin m1 e1 m2 e2)
  end.

Definition num_compare (a b : pynum) : option comparison :=
  xcompare (xnum_of a) (xnum_of b).

(** [a >= b], [a <= b], [a < b], [a > b], [a == b] *)
Definition num_ge (a b : pynum) : bool :=
  match num_compare a b with Some Gt | Some Eq => true | _ => false end.
Definition num_le (a b : pynum) : bool :=
  match num_compare a b with Some Lt | Some Eq => true | _ => false end.
Definition num_lt (a b : pynum) : bool :=
  match num_compare a b with Some Lt => true | _ => false end.
Definition num_gt (a b : pynum) : bool :=
  match num_compare a b with Some Gt => true | _ => false end.
Definition num_eq (a b : pynum) : bool :=
  match num_compare a b with Some Eq => true | _ => false end.

(** The literal [0.1]: the double nearest to one tenth. *)
Definition f0_1 : float := S754_finite false 7205759403792794 (-56).

(** *** Text

    A [str] is embedded as a [string]; the text handled by the program
    (shell output, host names) is ASCII. *)

Definition code (c : ascii) : Z := Z.of_N (N_of_ascii c).

Definition is_digit (c : ascii) : bool := (48 <=? code c) && (code c <=? 57).
Definition digit_val (c : ascii) : Z := code c - 48.

(** Whitespace for [str.split], [str.isspace] and the regex class [\s]. *)
Definition is_space (c : ascii) : bool :=
  ((9 <=? code c) && (code c <=? 13)) || ((28 <=? code c) && (code c <=? 32)).

(** Whitespace skipped by [int()] and [float()] around a numeral. *)
Definition is_space_num (c : ascii) : bool :=
  ((9 <=? code c) && (code c <=? 13)) || (code c =? 32).

(** Line boundaries of [str.splitlines]. *)
Definition is_linebreak (c : ascii) : bool :=
  ((10 <=? code c) && (code c <=? 13)) || ((28 <=? code c) && (code c <=? 30)).

Fixpoint span (p : ascii -> bool) (l : list ascii) : list ascii * list ascii :=
  match l with
  | c :: t => if p c then let '(a, b) := span p t in (c :: a, b) else ([], l)
  | [] => ([], [])
  end.

Fixpoint lstrip (p : ascii -> bool) (l : list ascii) : list ascii :=
  match l with
  | c :: t => if p c then lstrip p t else l
  | [] => []
  end.

Definition strip (p : ascii -> bool) (l : list ascii) : list ascii :=
  rev (lstrip p (rev (lstrip p l))).

Definition digits_value (l : list ascii) : Z :=
  fold_left (fun acc c => 10 * acc + digit_val c) l 0.

(** Underscores in a numeral stand between two digits; they are then
    dropped.  [prev] tells whether the previous character is a digit. *)
Fixpoint drop_underscores (prev : bool) (l : list ascii) : option (list ascii) :=
  match l with
  | [] => Some []
  | c :: t =>
      if code c =? 95 then
        match t with
        | d :: _ =>
            if prev && is_digit d then drop_underscores false t else None
        | [] => None
        end
      else option_map (cons c) (drop_underscores (is_digit c) t)
  end.

Definition split_sign (l : list ascii) : bool * list ascii :=
  match l with
  | c :: t => if code c =? 45 then (true, t)
              else if code c =? 43 then (false, t) else (false, l)
  | [] => (false, [])
  end.

(** [int(s)] on a [str], base 10. *)
Definition parse_int (s : string) : result Z :=
  match drop_underscores false (strip is_space_num (list_ascii_of_string s)) with
  | None => Raise ValueError
  | Some l =>
      let '(neg, ds) := split_sign l in
      match ds with
      | [] => Raise ValueError
      | _ => if forallb is_digit ds
             then Ok (if neg then - digits_value ds else digits_value ds)
             else Raise ValueError
      end
  end.

Definition lower (c : ascii) : ascii :=
  if (65 <=? code c) && (code c <=? 90)
  then ascii_of_N (N_of_ascii c + 32) else c.

Definition lower_string (s : string) : string :=
  string_of_list_ascii (map lower (list_ascii_of_string s)).

(** The nearest double to [n * 10^e], [0 <= n], with the sign [neg]. *)
Definition float_of_decimal (neg : bool) (n e : Z) : float :=
  let x :=
    if n =? 0 then S754_zero false
    else if 0 <=? e then float_of_Z (n * 10 ^ e)
    else rn_div n (10 ^ (- e)) in
  if neg then SFopp x else x.

(** A decimal literal of the source text, e.g. [87.3] is [lit 873 (-1)]. *)
Definition lit (n e : Z) : float := float_of_decimal false n e.

(** Decimal exponent part [e[+-]ddd] or nothing; the whole rest is read. *)
Definition parse_exponent (l : list ascii) : option Z :=
  match l with
  | [] => Some 0
  | c :: t =>
      if (code c =? 101) || (code c =? 69) then
        let '(neg, ds) := split_sign t in
        match ds with
        | [] => None
        | _ => if forallb is_digit ds
               then Some (if neg then - digits_value ds else digits_value ds)
               else None
        end
      else None
  end.

(** [float(s)] on a [str]. *)
Definition parse_float (s : string) : result float :=
  match drop_underscores false (strip is_space_num (list_ascii_of_string s)) with
  | None => Raise ValueError
  | Some l =>
      let '(neg, body) := split_sign l in
      let word := string_of_list_ascii (map lower body) in
      if (word =? "inf")%string || (word =? "infinity")%string then Ok (finf neg)
      else if (word =? "nan")%string then Ok fnan
      else
        let '(ip, r1) := span is_digit body in
        let '(fp, r2) :=
          match r1 with
          | c :: t => if code c =? 46 then span is_digit t else ([], r1)
          | [] => ([], [])
          end in
        match ip ++ fp with
        | [] => Raise ValueError
        | ds =>
            match parse_exponent r2 with
            | None => Raise ValueError
            | Some ex =>
                Ok (float_of_decimal neg (digits_value ds)
                                     (ex - Z.of_nat (List.length fp)))
            end
        end
  end.

(** *** Values *)

#[warnings="-register-all"]
Inductive pyval : Type :=
| VNone
| VBool (b : bool)
| VInt (z : Z)
| VFloat (f : float)
| VStr (s : string)
| VList (l : list pyval)
| VTuple (l : list pyval)
| VDict (d : list (string * pyval)).

(** Truth value of an object. *)
Definition truthy (x : pyval) : bool :=
  match x with
  | VNone => false
  | VBool b => b
  | VInt z => negb (z =? 0)
  | VFloat (S754_zero _) => false
  | VFloat _ => true
  | VStr s => negb (s =? "")%string
  | VList l | VTuple l => match l with [] => false | _ => true end
  | VDict d => match d with [] => false | _ => true end
  end.

(** [x or y] *)
Definition py_or (x y : pyval) : pyval := if truthy x then x else y.

(** [float(x)] *)
Definition py_float (x : pyval) : result float :=
  match x with
  | VBool b => Ok (if b then float_of_Z 1 else fzero)
  | VInt z => float_of_int z
  | VFloat f => Ok f
  | VStr s => parse_float s
  | VNone | VList _ | VTuple _ | VDict _ => Raise TypeError
  end.

(** [int(x)] *)
Definition py_int (x : pyval) : result Z :=
  match x with
  | VBool b => Ok (if b then 1 else 0)
  | VInt z => Ok z
  | VFloat f => int_of_float f
  | VStr s => parse_int s
  | VNone | VList _ | VTuple _ | VDict _ => Raise TypeError
  end.

End Py.

(* ================================================================= *)
(** ** Text operations used on shell output *)

Module Text.
Import Py.

(** [s.splitlines()]: a carriage return followed by a line feed is one
    boundary, and a final boundary opens no further line. *)
Fixpoint splitlines_aux (cur l : list ascii) : list (list ascii) :=
  match l with
  | [] => match cur with [] => [] | _ => [rev cur] end
  | c :: t =>
      if is_linebreak c then
        rev cur ::
        splitlines_aux []
          (match t with
           | n :: t' => if (code c =? 13) && (code n =? 10) then t' else t
           | [] => t
           end)
      else splitlines_aux (c :: cur) t
  end.

Definition splitlines (s : string) : list string :=
  map string_of_list_ascii (splitlines_aux [] (list_ascii_of_string s)).

(** [s.split()]: maximal runs of non-whitespace. *)
Fixpoint split_aux (cur l : list ascii) : list (list ascii) :=
  match l with
  | [] => match cur with [] => [] | _ => [rev cur] end
  | c :: t =>
      if is_space c then
        match cur with
        | [] => split_aux [] t
        | _ => rev cur :: split_aux [] t
        end
      else split_aux (c :: cur) t
  end.

Definition split (s : string) : list string :=
  map string_of_list_ascii (split_aux [] (list_ascii_of_string s)).

(** [l[i]] on a list. *)
Definition index {A} (l : list A) (i : nat) : result A :=
  match nth_error l i with
  | Some a => Ok a
  | None => Raise IndexError
  end.

(** [l[i:j]] for [0 <= i <= j]. *)
Definition slice {A} (i j : nat) (l : list A) : list A :=
  firstn (j - i) (skipn i l).

(** The pattern [(\d+\.\d+)\s*id] tried at the head of [l]; the answer
    is group 1.  Each repetition is greedy and none can give back a
    character: what follows a run of digits must be a dot, a space or
    [i], and what follows the run of spaces must be [i]. *)
Definition match_idle_here (l : list ascii) : option (list ascii) :=
  let '(d1, r1) := span is_digit l in
  match d1, r1 with
  | _ :: _, dot :: r2 =>
      if code dot =? 46 then
        let '(d2, r3) := span is_digit r2 in
        match d2, lstrip is_space r3 with
        | _ :: _, i :: d :: _ =>
            if (code i =? 105) && (code d =? 100)
            then Some (d1 ++ dot :: d2)%list else None
        | _, _ => None
        end
      else None
  | _, _ => None
  end.

(** [re.search(r"(\d+\.\d+)\s*id", s)]: the leftmost match. *)
Fixpoint search_idle_aux (l : list ascii) : option (list ascii) :=
  match match_idle_here l with
  | Some g => Some g
  | None => match l with
            | [] => None
            | _ :: t => search_idle_aux t
            end
  end.

Definition search_idle (s : string) : option string :=
  option_map string_of_list_ascii (search_idle_aux (list_ascii_of_string s)).

End Text.

(* ================================================================= *)
(** ** Runs: configuration, environment and trace *)

Module Run.
Import Py.

(** The [database] mapping of [config/db_config.yaml].  The optional
    keys are [None] when absent from the file. *)
Record config : Type := {
  host : string;
  port : Z;
  user : string;
  password : string;
  dbname : string;
  ssh_user : option string;
  ssh_password : option string;
  ssh_key : option string;
  ssh_port : option Z
}.

Inductive ssh_auth : Type :=
| KeyFile (path : string)
| Password (pw : option string).

(** Arguments of one [ssh.connect] call; the timeout is always 5. *)
Record ssh_target : Type := {
  t_host : string;
  t_user : string;
  t_auth : ssh_auth;
  t_port : option Z
}.

(** The functions that open a database session. *)
Inductive probe : Type :=
| PLongQueries | PFrequentQueries | PPostgresMetrics
| PCacheTotal | PCachePerTable | PIndexHeap
| PDbStorage | PTableStorage | PIndexStorage | PIndexUsage
| PReplication.

(** The SQL statements of the probes. *)
Inductive stmt : Type :=
| SqlLongQueries (threshold_ms limit : Z)
| SqlFrequentQueries (limit : Z)
| SqlServerSettings
| SqlActivity
| SqlCacheTotal | SqlCachePerTable | SqlIndexHeap
| SqlDbStorage | SqlTableStorage | SqlIndexStorage | SqlIndexUsage
| SqlReplication.

Definition row : Type := list pyval.

(** One reading of [psutil.virtual_memory()]. *)
Record svmem : Type := {
  vm_total : Z;
  vm_used : Z;
  vm_available : Z;
  vm_percent : float
}.

(** What the outside answers during one run. *)
Record world : Type := {
  ssh_connect : ssh_target -> result unit;
  (** [ssh.exec_command(cmd)] followed by [stdout.read().decode()] *)
  ssh_exec : string -> result string;
  (** [psycopg2.connect(...)] as called from a probe *)
  db_connect : probe -> result unit;
  (** [cur.execute(q)]; the rows are those a later fetch returns *)
  db_execute : stmt -> result (list row);
  psutil_cpu_percent : float;
  (** the successive readings of [psutil.virtual_memory()] *)
  psutil_virtual_memory : nat -> svmem
}.

Inductive line : Type :=
| WarnRemoteMetrics (e : exn)   (* "Warning: Could not get remote system metrics via SSH: {e}" *)
| WarnPostgresMetrics (e : exn) (* "Warning: Could not get PostgreSQL metrics: {e}" *).

Inductive event : Type :=
| SshConnect (t : ssh_target) (ok : bool)
| SshExec (cmd : string)
| SshClose
| DbConnect (p : probe)
| DbExecute (q : stmt)
| Print (l : line).

Definition trace : Type := list event.

(** A computation extends the trace and returns or raises. *)
Definition M (A : Type) : Type := trace -> result A * trace.

Definition ret {A} (a : A) : M A := fun tr => (Ok a, tr).

Definition mbind {A B} (c : M A) (k : A -> M B) : M B :=
  fun tr =>
    match c tr with
    | (Ok a, tr') => k a tr'
    | (Raise e, tr') => (Raise e, tr')
    end.

Definition emit (ev : event) : M unit := fun tr => (Ok tt, tr ++ [ev]).

Definition lift {A} (r : result A) : M A := fun tr => (r, tr).

(** [try: c / except Exception as e: h e] *)
Definition try_except {A} (c : M A) (h : exn -> M A) : M A :=
  fun tr =>
    match c tr with
    | (Ok a, tr') => (Ok a, tr')
    | (Raise e, tr') => h e tr'
    end.

Declare Scope run_scope.
Delimit Scope run_scope with run.
Notation "x <- c ;; k" := (mbind c (fun x => k))
  (at level 61, c at next level, right associativity) : run_scope.
Notation "c ;;; k" := (mbind c (fun _ => k))
  (at level 61, right associativity) : run_scope.

(** The lines printed during a trace. *)
Fixpoint printed (tr : trace) : list line :=
  match tr with
  | [] => []
  | Print l :: t => l :: printed t
  | _ :: t => printed t
  end.

(** Whether an SSH session is open at the end of a trace. *)
Definition ssh_step (open : bool) (ev : event) : bool :=
  match ev with
  | SshConnect _ true => true
  | SshClose => false
  | _ => open
  end.

Definition session_open (tr : trace) : bool := fold_left ssh_step tr false.

(** Insertion-ordered dictionaries. *)
Definition dict : Type := list (string * pyval).

Fixpoint dict_set (d : dict) (k : string) (v : pyval) : dict :=
  match d with
  | [] => [(k, v)]
  | (k', v') :: t =>
      if (k' =? k)%string then (k, v) :: t else (k', v') :: dict_set t k v
  end.

(** [{**a, **b}] *)
Definition dict_merge (a b : dict) : dict :=
  fold_left (fun d kv => dict_set d (fst kv) (snd kv)) b
            (fold_left (fun d kv => dict_set d (fst kv) (snd kv)) a []).

Definition keys (d : dict) : list string := map fst d.

(** The keys after [d[k] = v], from the keys before. *)
Fixpoint keys_set (ks : list string) (k : string) : list string :=
  match ks with
  | [] => [k]
  | k' :: t => if (k' =? k)%string then k :: t else k' :: keys_set t k
  end.

(** A computation that prints nothing. *)
Definition silent {A} (c : M A) : Prop :=
  forall tr r tr1, c tr = (r, tr1) -> printed tr1 = printed tr.

(** A computation whose returned values all satisfy [P]. *)
Definition yields {A} (P : A -> Prop) (c : M A) : Prop :=
  forall tr a tr1, c tr = (Ok a, tr1) -> P a.

End Run.

(* ================================================================= *)
(** ** The host probe ([reports/cpu_ram.py]) *)

Module Host.
Import Py Text Run.
Local Open Scope string_scope.
Local Open Scope run_scope.

Definition localhost_hosts : list string :=
  ["localhost"; "127.0.0.1"; "0.0.0.1"; "::1"].

(** [_is_localhost_connection()]: [db['host'] in localhost_hosts]. *)
Definition _is_localhost_connection (db : config) : bool :=
  existsb (fun h => (host db =? h)%string) localhost_hosts.

Definition top_command : string := "top -bn1 | grep 'Cpu(s)'".
Definition free_command : string := "free -m".

Definition zero_metrics : dict :=
  [("system_cpu_percent", VFloat fzero);
   ("system_ram_percent", VFloat fzero);
   ("system_ram_total_gb", VFloat fzero);
   ("system_ram_used_gb", VFloat fzero);
   ("system_ram_available_gb", VFloat fzero)].

(** The [ssh.connect] call chosen by [if ssh_key: ... else: ...]. *)
Definition ssh_target_of (db : config) : ssh_target :=
  let ssh_user := match ssh_user db with Some u => u | None => "postgres" end in
  match ssh_key db with
  | Some k =>
      if truthy (VStr k)
      then {| t_host := host db; t_user := ssh_user;
              t_auth := KeyFile k; t_port := ssh_port db |}
      else {| t_host := host db; t_user := ssh_user;
              t_auth := Password (ssh_password db); t_port := ssh_port db |}
  | None => {| t_host := host db; t_user := ssh_user;
               t_auth := Password (ssh_password db); t_port := ssh_port db |}
  end.

Definition connect (w : world) (t : ssh_target) : M unit :=
  fun tr =>
    match ssh_connect w t with
    | Ok _ => (Ok tt, (tr ++ [SshConnect t true])%list)
    | Raise e => (Raise e, (tr ++ [SshConnect t false])%list)
    end.

Definition exec_command (w : world) (cmd : string) : M string :=
  emit (SshExec cmd) ;;; lift (ssh_exec w cmd).

(** [a, b, c = map(int, fields)] *)
Definition unpack3_int (fields : list string) : result (Z * Z * Z) :=
  match fields with
  | [a; b; c] =>
      bind (parse_int a) (fun x =>
      bind (parse_int b) (fun y =>
      bind (parse_int c) (fun z => Ok (x, y, z))))
  | _ => Raise ValueError
  end.

(** The body of the [try] block of [_get_remote_system_metrics]. *)
Definition remote_body (w : world) (db : config) : M dict :=
  connect w (ssh_target_of db) ;;;
  cpu_line <- exec_command w top_command ;;
  cpu_percent <-
    match search_idle cpu_line with
    | Some g =>
        idle <- lift (parse_float g) ;;
        ret (round2 (float_sub (float_of_Z 100) idle))
    | None => ret fzero
    end ;;
  out <- exec_command w free_command ;;
  let mem_lines := splitlines out in
  line1 <- lift (index mem_lines 1) ;;
  let mem_info := split line1 in
  t <- lift (unpack3_int (slice 1 4 mem_info)) ;;
  let '(total_mb, used_mb, free_mb) := t in
  q <- lift (int_true_div used_mb total_mb) ;;
  let ram_percent := round2 (float_mul q (float_of_Z 100)) in
  emit SshClose ;;;
  total_gb <- lift (int_true_div total_mb 1024) ;;
  used_gb <- lift (int_true_div used_mb 1024) ;;
  free_gb <- lift (int_true_div free_mb 1024) ;;
  ret [("system_cpu_percent", VFloat cpu_percent);
       ("system_ram_percent", VFloat ram_percent);
       ("system_ram_total_gb", VFloat (round2 total_gb));
       ("system_ram_used_gb", VFloat (round2 used_gb));
       ("system_ram_available_gb", VFloat (round2 free_gb))].

(** What the three lines from [mem_lines = ...splitlines()] to
    [total_mb, used_mb, free_mb = map(int, mem_info[1:4])] read in the
    output of [free -m]. *)
Definition free_fields (out : string) : result (Z * Z * Z) :=
  bind (index (splitlines out) 1) (fun line1 =>
  unpack3_int (slice 1 4 (split line1))).

(** [_get_remote_system_metrics()] *)
Definition _get_remote_system_metrics (w : world) (db : config) : M dict :=
  try_except (remote_body w db)
             (fun e => emit (Print (WarnRemoteMetrics e)) ;;; ret zero_metrics).

End Host.

(* ================================================================= *)
(** ** The database probes and the assembly of the report *)

Module Probes.
Import Py Text Run Host.
Local Open Scope string_scope.
Local Open Scope run_scope.

(** [get_connection()] of [utils/db_connection.py], called from [p]. *)
Definition get_connection (w : world) (p : probe) : M unit :=
  emit (DbConnect p) ;;; lift (db_connect w p).

(** [cur.execute(q)] *)
Definition execute (w : world) (q : stmt) : M (list row) :=
  emit (DbExecute q) ;;; lift (db_execute w q).

(** [cur.fetchall()] and [cur.fetchone()] on the rows of the last
    statement. *)
Definition fetchall (rows : list row) : pyval := VList (map VTuple rows).

Definition fetchone (rows : list row) : pyval :=
  match rows with
  | r :: _ => VTuple r
  | [] => VNone
  end.

(** The shape shared by the probes that run one statement and return
    all its rows: [with get_connection() as conn, conn.cursor() as cur:
    cur.execute(query); return cur.fetchall()]. *)
Definition fetch_all_of (w : world) (p : probe) (q : stmt) : M pyval :=
  get_connection w p ;;;
  rows <- execute w q ;;
  ret (fetchall rows).

(** [queries/long_queries.py] *)
Definition get_long_queries (w : world) (threshold_ms limit : Z) : M pyval :=
  fetch_all_of w PLongQueries (SqlLongQueries threshold_ms limit).

(** [queries/frequent_queries.py] *)
Definition get_frequent_queries (w : world) (limit : Z) : M pyval :=
  fetch_all_of w PFrequentQueries (SqlFrequentQueries limit).

(** [logs/replication_delay.py] *)
Definition get_replication_delay (w : world) : M pyval :=
  fetch_all_of w PReplication SqlReplication.

(** [reports/cache_hit.py] *)
Definition get_total_cache_hit_ratio (w : world) : M pyval :=
  get_connection w PCacheTotal ;;;
  rows <- execute w SqlCacheTotal ;;
  ret (fetchone rows).

Definition get_per_table_cache_hit_ratio (w : world) : M pyval :=
  fetch_all_of w PCachePerTable SqlCachePerTable.

Definition get_index_heap_ratio (w : world) : M pyval :=
  fetch_all_of w PIndexHeap SqlIndexHeap.

Definition get_cache_hit_ratio (w : world) : M pyval :=
  let cache_data : dict := [] in
  total <- get_total_cache_hit_ratio w ;;
  let cache_data := dict_set cache_data "total" total in
  per_table <- get_per_table_cache_hit_ratio w ;;
  let cache_data := dict_set cache_data "per_table" per_table in
  index_heap <- get_index_heap_ratio w ;;
  let cache_data := dict_set cache_data "index_heap_ratio" index_heap in
  ret (VDict cache_data).

(** [reports/storage_usage.py] *)
Definition get_database_storage (w : world) : M pyval :=
  fetch_all_of w PDbStorage SqlDbStorage.

Definition get_table_storage (w : world) : M pyval :=
  fetch_all_of w PTableStorage SqlTableStorage.

Definition get_index_storage (w : world) : M pyval :=
  fetch_all_of w PIndexStorage SqlIndexStorage.

Definition get_index_usage (w : world) : M pyval :=
  fetch_all_of w PIndexUsage SqlIndexUsage.

Definition get_storage_usage (w : world) : M pyval :=
  let storage_data : dict := [] in
  databases <- get_database_storage w ;;
  let storage_data := dict_set storage_data "databases" databases in
  tables <- get_table_storage w ;;
  let storage_data := dict_set storage_data "tables" tables in
  indexes <- get_index_storage w ;;
  let storage_data := dict_set storage_data "indexes" indexes in
  index_usage <- get_index_usage w ;;
  let storage_data := dict_set storage_data "index_usage" index_usage in
  ret (VDict storage_data).

(** [reports/cpu_ram.py]: the server metrics. *)

(** [t[i]] on a row. *)
Definition item (t : pyval) (i : nat) : result pyval :=
  match t with
  | VTuple l | VList l => index l i
  | _ => Raise TypeError
  end.

(** [x / d] for an int literal [d]. *)
Definition truediv_int (x : pyval) (d : Z) : result float :=
  match x with
  | VInt z => int_true_div z d
  | VBool b => int_true_div (if b then 1 else 0) d
  | VFloat f =>
      if (d =? 0)%Z then Raise ZeroDivisionError
      else Ok (SFdiv prec emax f (float_of_Z d))
  | _ => Raise TypeError
  end.

(** [t[i] if t else default] *)
Definition item_or (t : pyval) (i : nat) (default : pyval) : result pyval :=
  if truthy t then item t i else Ok default.

(** [round(t[i] / 1024, 2) if t and t[i] else 0] *)
Definition setting_mb (t : pyval) (i : nat) : result pyval :=
  if truthy t then
    bind (item t i) (fun c =>
    if truthy c then
      bind (item t i) (fun x =>
      bind (truediv_int x 1024) (fun q => Ok (VFloat (round2 q))))
    else Ok (VInt 0))
  else Ok (VInt 0).

Definition postgres_fallback : dict :=
  [("postgres_db_size", VStr "N/A");
   ("postgres_shared_buffers_mb", VInt 0);
   ("postgres_work_mem_mb", VInt 0);
   ("postgres_maintenance_work_mem_mb", VInt 0);
   ("postgres_active_connections", VInt 0);
   ("postgres_active_queries", VInt 0)].

(** The body of the [try] block of [get_postgres_server_metrics]. *)
Definition postgres_body (w : world) : M dict :=
  get_connection w PPostgresMetrics ;;;
  rows <- execute w SqlServerSettings ;;
  let result := fetchone rows in
  rows' <- execute w SqlActivity ;;
  let conn_result := fetchone rows' in
  db_size <- lift (item_or result 0 (VStr "N/A")) ;;
  shared_buffers <- lift (setting_mb result 1) ;;
  work_mem <- lift (setting_mb result 2) ;;
  maintenance <- lift (setting_mb result 3) ;;
  connections <- lift (item_or conn_result 0 (VInt 0)) ;;
  queries <- lift (item_or conn_result 1 (VInt 0)) ;;
  ret [("postgres_db_size", db_size);
       ("postgres_shared_buffers_mb", shared_buffers);
       ("postgres_work_mem_mb", work_mem);
       ("postgres_maintenance_work_mem_mb", maintenance);
       ("postgres_active_connections", connections);
       ("postgres_active_queries", queries)].

(** [get_postgres_server_metrics()] *)
Definition get_postgres_server_metrics (w : world) : M dict :=
  try_except (postgres_body w)
             (fun e => emit (Print (WarnPostgresMetrics e)) ;;;
                       ret postgres_fallback).

(** The five [psutil] entries of the local strategy. *)
Definition local_metrics (w : world) : M dict :=
  let gib := 1024 ^ 3 in
  total <- lift (int_true_div (vm_total (psutil_virtual_memory w 1)) gib) ;;
  used <- lift (int_true_div (vm_used (psutil_virtual_memory w 2)) gib) ;;
  available <-
    lift (int_true_div (vm_available (psutil_virtual_memory w 3)) gib) ;;
  ret [("system_cpu_percent", VFloat (psutil_cpu_percent w));
       ("system_ram_percent", VFloat (vm_percent (psutil_virtual_memory w 0)));
       ("system_ram_total_gb", VFloat (round2 total));
       ("system_ram_used_gb", VFloat (round2 used));
       ("system_ram_available_gb", VFloat (round2 available))].

(** [get_cpu_ram_usage()] *)
Definition get_cpu_ram_usage (w : world) (db : config) : M dict :=
  system_metrics <-
    (if _is_localhost_connection db then local_metrics w
     else _get_remote_system_metrics w db) ;;
  postgres_metrics <- get_postgres_server_metrics w ;;
  ret (dict_merge system_metrics postgres_metrics).

(** [main()] of [main.py], up to the dictionary it hands to the PDF
    generator. *)
Definition main (w : world) (db : config) : M dict :=
  let report_data : dict := [] in
  long_queries <- get_long_queries w 600 10 ;;
  let report_data := dict_set report_data "Long Queries" long_queries in
  frequent_queries <- get_frequent_queries w 10 ;;
  let report_data := dict_set report_data "Frequent Queries" frequent_queries in
  cpu_ram <- get_cpu_ram_usage w db ;;
  let report_data := dict_set report_data "CPU/RAM Usage" (VDict cpu_ram) in
  cache_hit <- get_cache_hit_ratio w ;;
  let report_data := dict_set report_data "Cache Hit Ratio" cache_hit in
  storage <- get_storage_usage w ;;
  let report_data := dict_set report_data "Storage Usage" storage in
  replication <- get_replication_delay w ;;
  let report_data := dict_set report_data "Replication Delay" replication in
  ret report_data.

Definition section_names : list string :=
  ["Long Queries"; "Frequent Queries"; "CPU/RAM Usage"; "Cache Hit Ratio";
   "Storage Usage"; "Replication Delay"].

Definition cpu_ram_keys : list string :=
  ["system_cpu_percent"; "system_ram_percent"; "system_ram_total_gb";
   "system_ram_used_gb"; "system_ram_available_gb";
   "postgres_db_size"; "postgres_shared_buffers_mb"; "postgres_work_mem_mb";
   "postgres_maintenance_work_mem_mb"; "postgres_active_connections";
   "postgres_active_queries"].

(** The probes other than the server metrics, with their statements. *)
Definition unguarded : list (probe * stmt) :=
  [(PLongQueries, SqlLongQueries 600 10);
   (PFrequentQueries, SqlFrequentQueries 10);
   (PCacheTotal, SqlCacheTotal);
   (PCachePerTable, SqlCachePerTable);
   (PIndexHeap, SqlIndexHeap);
   (PDbStorage, SqlDbStorage);
   (PTableStorage, SqlTableStorage);
   (PIndexStorage, SqlIndexStorage);
   (PIndexUsage, SqlIndexUsage);
   (PReplication, SqlReplication)].

(** All the statements of the unguarded probes succeed. *)
Definition unguarded_succeed (w : world) : Prop :=
  forall p q, In (p, q) unguarded ->
    db_connect w p = Ok tt /\ exists rows, db_execute w q = Ok rows.

(** The memory sizes read by the local strategy fit a double. *)
Definition local_readings_ok (w : world) : Prop :=
  forall n,
    Z.abs (vm_total (psutil_virtual_memory w n)) < overflow_bound /\
    Z.abs (vm_used (psutil_virtual_memory w n)) < overflow_bound /\
    Z.abs (vm_available (psutil_virtual_memory w n)) < overflow_bound.

End Probes.

(* ================================================================= *)
(** ** The classifier ([utils/pdf_generator.py]) *)

Module Classifier.
Import Py.
Local Open Scope string_scope.

(** [_get_index_status(self, scans, tuples_read, tuples_fetched, size_bytes)] *)
Definition _get_index_status
  (scans tuples_read tuples_fetched size_bytes : pyval) : result string :=
  let scans_val := try_or (py_int (py_or scans (VInt 0))) 0%Z in
  let read_val := try_or (py_int (py_or tuples_read (VInt 0))) 0%Z in
  let fetched_val := try_or (py_int (py_or tuples_fetched (VInt 0))) 0%Z in
  if (scans_val =? 0)%Z then Ok "UNUSED"
  else if (scans_val <? 10)%Z then Ok "LOW USE"
  else
    bind (int_true_div fetched_val (Z.max read_val 1)) (fun ratio =>
    if num_lt (NFloat ratio) (NFloat f0_1) then Ok "INEFFICIENT"
    else Ok "ACTIVE").

(** [_get_status_indicator(self, value, warning_threshold, critical_threshold)] *)
Definition _get_status_indicator
  (value : pyval) (warning_threshold critical_threshold : pynum) : string :=
  let v := try_or (py_float value) fzero in
  if num_ge (NFloat v) critical_threshold then "CRITICAL"
  else if num_ge (NFloat v) warning_threshold then "WARNING"
  else "GOOD".

(** [_status_higher_is_better(self, value, warn, crit)] *)
Definition _status_higher_is_better (value : pyval) (warn crit : pynum) : string :=
  let v := try_or (py_float value) fzero in
  if num_le (NFloat v) crit then "CRITICAL"
  else if num_le (NFloat v) warn then "WARNING"
  else "EXCELLENT".

(** [_status_count(self, count_value, warn, crit)] *)
Definition _status_count (count_value : pyval) (warn crit : pynum) : string :=
  let v := try_or (py_float count_value) fzero in
  if num_ge (NFloat v) crit then "CRITICAL"
  else if num_ge (NFloat v) warn then "WARNING"
  else "GOOD".

(** The coercions the classifiers apply to their arguments. *)
Definition float_or_zero (value : pyval) : float :=
  try_or (py_float value) fzero.

Definition int_or_zero (value : pyval) : Z :=
  try_or (py_int (py_or value (VInt 0))) 0%Z.

(** The counters of [pg_stat_user_indexes] are non-negative [bigint]s. *)
Definition is_counter (z : Z) : Prop := (0 <= z < 2 ^ 63)%Z.

(** Arguments whose integer coercion stays within the range of a
    double: every well-formed float, every [None], bool or container,
    and the ints and numerals of magnitude below [overflow_bound]. *)
Definition within_float_range (value : pyval) : bool :=
  match value with
  | VInt z => (Z.abs z <? overflow_bound)%Z
  | VFloat f => valid_binary prec emax f
  | VStr s => match parse_int s with
              | Ok z => (Z.abs z <? overflow_bound)%Z
              | Raise _ => true
              end
  | _ => true
  end.

(** The rules of the specification for the index status read on floats:
    "all inputs are coerced to float with a safe fallback of 0.0", then
    [scans == 0], [scans < 10], [tup_fetch / max(tup_read, 1) < 0.1]. *)
Definition index_status_on_floats (scans tuples_read tuples_fetched : pyval)
  : string :=
  let s := float_or_zero scans in
  let r := float_or_zero tuples_read in
  let f := float_or_zero tuples_fetched in
  if num_eq (NFloat s) (NInt 0) then "UNUSED"
  else if num_lt (NFloat s) (NInt 10) then "LOW USE"
  else
    let d := if num_gt (NInt 1) (NFloat r) then float_of_Z 1 else r in
    if num_lt (NFloat (SFdiv prec emax f d)) (NFloat f0_1) then "INEFFICIENT"
    else "ACTIVE".

End Classifier.

(* ================================================================= *)
(** ** The scenarios of the specification *)

Module Scenarios.
Import Py Text Run Host Probes.
Local Open Scope string_scope.
Local Open Scope list_scope.

Definition newline : string := String (ascii_of_nat 10) EmptyString.

Definition remote_config : config :=
  {| host := "db.example.net"; port := 5432; user := "monitor";
     password := "secret"; dbname := "postgres";
     ssh_user := Some "pg"; ssh_password := None;
     ssh_key := Some "/k.pem"; ssh_port := Some 22%Z |}.

Definition with_host (h : string) (db : config) : config :=
  {| host := h; port := port db; user := user db; password := password db;
     dbname := dbname db; ssh_user := ssh_user db;
     ssh_password := ssh_password db; ssh_key := ssh_key db;
     ssh_port := ssh_port db |}.

(** A reachable server that answers the two commands with [top_out] and
    [free_out], and a database that answers every statement with no
    rows. *)
Definition ssh_world (top_out free_out : result string) : world :=
  {| ssh_connect := fun _ => Ok tt;
     ssh_exec := fun cmd => if (cmd =? top_command)%string then top_out
                            else free_out;
     db_connect := fun _ => Ok tt;
     db_execute := fun _ => Ok [];
     psutil_cpu_percent := fzero;
     psutil_virtual_memory := fun _ =>
       {| vm_total := 0; vm_used := 0; vm_available := 0;
          vm_percent := fzero |} |}.

Definition top_95_idle : string :=
  "%Cpu(s):  3.0 us,  2.0 sy,  0.0 ni, 95.0 id,  0.0 wa,  0.0 hi,  0.0 si".

Definition free_16000 : string :=
  ("              total        used        free      shared" ++ newline ++
   "Mem: 16000 4000 12000 0 0 12000" ++ newline ++
   "Swap: 0 0 0")%string.

(** A database without the [pg_stat_statements] extension: the two
    statements that read it fail, every other statement succeeds. *)
Definition no_statements_extension : world :=
  {| ssh_connect := fun _ => Ok tt;
     ssh_exec := fun _ => Ok "";
     db_connect := fun _ => Ok tt;
     db_execute := fun q =>
       match q with
       | SqlLongQueries _ _ | SqlFrequentQueries _ => Raise ProgrammingError
       | _ => Ok []
       end;
     psutil_cpu_percent := fzero;
     psutil_virtual_memory := fun _ =>
       {| vm_total := 0; vm_used := 0; vm_available := 0;
          vm_percent := fzero |} |}.

(** A database that refuses every connection. *)
Definition database_down : world :=
  {| ssh_connect := fun _ => Ok tt;
     ssh_exec := fun cmd => if (cmd =? top_command)%string
                            then Ok top_95_idle else Ok free_16000;
     db_connect := fun _ => Raise OperationalError;
     db_execute := fun _ => Ok [];
     psutil_cpu_percent := fzero;
     psutil_virtual_memory := fun _ =>
       {| vm_total := 0; vm_used := 0; vm_available := 0;
          vm_percent := fzero |} |}.

(** A database that has served no block yet: the cache totals are 0
    and their ratio, a division by [nullif(0, 0)], is NULL.  The
    settings are in kB; one of the six sessions runs a query. *)
Definition idle_database : world :=
  {| ssh_connect := fun _ => Ok tt;
     ssh_exec := fun cmd => if (cmd =? top_command)%string
                            then Ok top_95_idle else Ok free_16000;
     db_connect := fun _ => Ok tt;
     db_execute := fun q =>
       match q with
       | SqlCacheTotal => Ok [[VInt 0; VInt 0; VNone]]
       | SqlServerSettings =>
           Ok [[VStr "7453 kB"; VInt 16384; VInt 4096; VInt 0]]
       | SqlActivity => Ok [[VInt 6; VInt 1]]
       | _ => Ok []
       end;
     psutil_cpu_percent := fzero;
     psutil_virtual_memory := fun _ =>
       {| vm_total := 0; vm_used := 0; vm_available := 0;
          vm_percent := fzero |} |}.

End Scenarios.

(* ================================================================= *)
(** ** Helpers of the renderer ([utils/pdf_generator.py]) *)

Module Render.
Import Py Text Run Classifier.
Local Open Scope string_scope.

(** [colors.HexColor('#...')] and [colors.black]. *)
Inductive color : Type :=
| HexColor (hex : string)
| Black.

(** [p in s] on [str]. *)
Fixpoint starts_with (p s : list ascii) : bool :=
  match p, s with
  | [], _ => true
  | a :: p', b :: s' => Ascii.eqb a b && starts_with p' s'
  | _ :: _, [] => false
  end.

Fixpoint contains_aux (p s : list ascii) : bool :=
  starts_with p s ||
  match s with
  | [] => false
  | _ :: t => contains_aux p t
  end.

Definition contains (p s : string) : bool :=
  contains_aux (list_ascii_of_string p) (list_ascii_of_string s).

(** [_get_status_color(self, status_text)] *)
Definition _get_status_color (status_text : string) : color :=
  let status_lower := lower_string status_text in
  if contains "critical" status_lower || contains "unused" status_lower
  then HexColor "#e74c3c"
  else if contains "warning" status_lower || contains "low use" status_lower
          || contains "inefficient" status_lower
  then HexColor "#f39c12"
  else if contains "good" status_lower || contains "active" status_lower
          || contains "excellent" status_lower
  then HexColor "#27ae60"
  else Black.

(** [s[i]] on a [str], for any int [i]. *)
Definition char_at (s : list ascii) (i : Z) : result ascii :=
  let n := Z.of_nat (List.length s) in
  let j := if (i <? 0)%Z then (n + i)%Z else i in
  if ((0 <=? j) && (j <? n))%Z
  then match nth_error s (Z.to_nat j) with
       | Some c => Ok c
       | None => Raise IndexError
       end
  else Raise IndexError.

(** [s[:k]] on a [str], for any int [k]. *)
Definition slice_to (s : list ascii) (k : Z) : list ascii :=
  if (0 <=? k)%Z then firstn (Z.to_nat k) s
  else firstn (Z.to_nat (Z.of_nat (List.length s) + k)) s.

(** [range(start, stop, -1)] *)
Fixpoint count_down (start : Z) (n : nat) : list Z :=
  match n with
  | O => []
  | S n' => start :: count_down (start - 1) n'
  end.

Definition range_down (start stop : Z) : list Z :=
  count_down start (Z.to_nat (start - stop)).

(** The [for] loop of [_format_query_for_table] over the indices
    [idx]: the value of [break_point] when the loop is left. *)
Fixpoint find_break (query : list ascii) (break_point : Z) (idx : list Z)
  : result Z :=
  match idx with
  | [] => Ok break_point
  | i :: rest =>
      bind (char_at query i) (fun c =>
      if (code c =? 59)%Z then Ok (i + 1)%Z
      else if ((code c =? 41) || (code c =? 93) || (code c =? 125))%Z
      then Ok (i + 1)%Z
      else if ((code c =? 32) && (break_point - 20 <? i))%Z then Ok i
      else find_break query break_point rest)
  end.

Definition truncation_mark : string := "... [truncated]".

(** The characters [;], [)], [\]] and [}], after which the loop moves
    the break point one to the right. *)
Definition closes (c : ascii) : bool :=
  ((code c =? 59) || (code c =? 41) || (code c =? 93) || (code c =? 125))%Z.

(** [_format_query_for_table(self, query, max_length=300)] *)
Definition _format_query_for_table (query : string) (max_length : Z)
  : result string :=
  let q := list_ascii_of_string query in
  if (Z.of_nat (List.length q) <=? max_length)%Z then Ok query
  else
    let break_point := (max_length - 50)%Z in
    bind (find_break q break_point
            (range_down break_point (Z.max 0 (break_point - 100))))
         (fun break_point =>
    let break_point :=
      if (break_point <? max_length - 50)%Z then (max_length - 50)%Z
      else break_point in
    let truncated := string_of_list_ascii (slice_to q break_point) in
    Ok (truncated ++ truncation_mark)).

(** [d.get(k, default)] *)
Definition dict_get_or (d : dict) (k : string) (default : pyval) : pyval :=
  match find (fun kv => (fst kv =? k)%string) d with
  | Some kv => snd kv
  | None => default
  end.

(** [len(x)] *)
Definition py_len (x : pyval) : result Z :=
  match x with
  | VStr s => Ok (Z.of_nat (String.length s))
  | VList l | VTuple l => Ok (Z.of_nat (List.length l))
  | VDict d => Ok (Z.of_nat (List.length d))
  | VNone | VBool _ | VInt _ | VFloat _ => Raise TypeError
  end.

(** [x[i]] for a literal index [i >= 0]; the keys of the dictionaries
    at hand are strings, so an int is never one of them. *)
Definition subscript (x : pyval) (i : nat) : result pyval :=
  match x with
  | VList l | VTuple l => index l i
  | VStr s => match String.get i s with
              | Some c => Ok (VStr (String c EmptyString))
              | None => Raise IndexError
              end
  | VDict _ => Raise KeyError
  | VNone | VBool _ | VInt _ | VFloat _ => Raise TypeError
  end.

(** The expressions of [_create_executive_summary] that decide the
    status column, on the sections [cpu_ram], [cache_data] and
    [long_queries] it reads from the report. *)

(** [float(total_cache[2]) * 100 if total_cache and len(total_cache) > 2
    else 0], with [total_cache = cache_data.get('total', ())]. *)
Definition summary_cache_ratio (cache_data : dict) : result pyval :=
  let total_cache := dict_get_or cache_data "total" (VTuple []) in
  if truthy total_cache then
    bind (py_len total_cache) (fun n =>
    if (2 <? n)%Z then
      bind (subscript total_cache 2) (fun r =>
      bind (py_float r) (fun f =>
      Ok (VFloat (float_mul f (float_of_Z 100)))))
    else Ok (VInt 0))
  else Ok (VInt 0).

Definition summary_cpu_status (cpu_ram : dict) : string :=
  _get_status_indicator (dict_get_or cpu_ram "system_cpu_percent" (VInt 0))
                        (NInt 80) (NInt 90).

Definition summary_ram_status (cpu_ram : dict) : string :=
  _get_status_indicator (dict_get_or cpu_ram "system_ram_percent" (VInt 0))
                        (NInt 80) (NInt 90).

Definition summary_connections_status (cpu_ram : dict) : string :=
  _get_status_indicator
    (dict_get_or cpu_ram "postgres_active_connections" (VInt 0))
    (NInt 50) (NInt 100).

Definition summary_cache_status (cache_data : dict) : result string :=
  bind (summary_cache_ratio cache_data) (fun cache_ratio =>
  Ok (_status_higher_is_better cache_ratio (NInt 90) (NInt 80))).

(** [self._status_count(len(long_queries), warn=5, crit=10)] *)
Definition summary_slow_queries_status (long_queries : pyval) : result string :=
  bind (py_len long_queries) (fun slow_queries_count =>
  Ok (_status_count (VInt slow_queries_count) (NInt 5) (NInt 10))).

End Render.

(* ================================================================= *)
(** ** Observations on traces *)

Module Observe.
Import Py Run.

(** The calls of [get_connection] during a trace, in order, each
    named by the probe function that makes it.  The event is recorded
    before [psycopg2.connect] answers, so a refused connection is
    listed too: these are attempts, whether accepted or refused. *)
Fixpoint connection_attempts (tr : trace) : list probe :=
  match tr with
  | [] => []
  | DbConnect p :: t => p :: connection_attempts t
  | _ :: t => connection_attempts t
  end.

(** The SSH traffic of a trace, in order. *)
Fixpoint ssh_events (tr : trace) : list event :=
  match tr with
  | [] => []
  | SshConnect t ok :: r => SshConnect t ok :: ssh_events r
  | SshExec c :: r => SshExec c :: ssh_events r
  | SshClose :: r => SshClose :: ssh_events r
  | _ :: r => ssh_events r
  end.

(** [l] is an initial segment of [m]. *)
Definition initial_segment {A} (l m : list A) : Prop := exists r, m = l ++ r.

(** The eleven probe functions that call [get_connection], in the
    order [main] reaches them. *)
Definition connection_order : list probe :=
  [PLongQueries; PFrequentQueries; PPostgresMetrics;
   PCacheTotal; PCachePerTable; PIndexHeap;
   PDbStorage; PTableStorage; PIndexStorage; PIndexUsage;
   PReplication].

(** A computation that makes the connection attempts [ps] in order
    when it returns, and an initial segment of them when it raises. *)
Definition connects {A} (ps : list probe) (c : M A) : Prop :=
  forall tr r tr1, c tr = (r, tr1) ->
    exists qs, connection_attempts tr1 = connection_attempts tr ++ qs /\
               initial_segment qs ps /\
               (forall a, r = Ok a -> qs = ps).

(** A computation that makes exactly the connection attempts [ps],
    whether it returns or raises. *)
Definition always_connects {A} (ps : list probe) (c : M A) : Prop :=
  forall tr r tr1, c tr = (r, tr1) ->
    connection_attempts tr1 = connection_attempts tr ++ ps.

(** A computation without SSH traffic. *)
Definition ssh_free {A} (c : M A) : Prop :=
  forall tr r tr1, c tr = (r, tr1) -> ssh_events tr1 = ssh_events tr.

(** Severity of a status label of the higher-is-worse classifiers. *)
Definition severity (label : string) : nat :=
  if (label =? "CRITICAL")%string then 2
  else if (label =? "WARNING")%string then 1 else 0.

End Observe.

(* ================================================================= *)
(** ** Facts about comparison *)

Section Numbers.
Import Py.

(** The literal [0.1] is the correctly rounded tenth. *)
Example tenth_is_nearest : rn_div 1 10 = f0_1.
Proof. vm_compute. reflexivity. Qed.

(** [overflow_bound] is where correctly rounded division leaves the
    finite doubles. *)
Example overflow_bound_is_sharp :
  rn_div overflow_bound 1 = finf false /\
  rn_div (overflow_bound - 1) 1 = S754_finite false (2 ^ 53 - 1) 971.
Proof. split; vm_compute; reflexivity. Qed.

(** 15.625 is exactly representable, so rounding it to two decimals is
    a tie; the even hundredth is 15.62. *)
Example round2_tie_to_even :
  int_true_div 16000 1024 = Ok (S754_finite false 8796093022208000 (-49)) /\
  round2 (S754_finite false 8796093022208000 (-49)) = lit 1562 (-2) /\
  lit 1562 (-2) <> lit 1563 (-2).
Proof.
  repeat split; try (vm_compute; reflexivity).
  vm_compute. discriminate.
Qed.

End Numbers.

Section Comparison.
Import Py.

Lemma cmp_fin_antisym (m1 e1 m2 e2 : Z) :
  cmp_fin m2 e2 m1 e1 = CompOpp (cmp_fin m1 e1 m2 e2).
Proof.
  unfold cmp_fin. rewrite (Z.min_comm e2 e1). apply Z.compare_antisym.
Qed.

Lemma xcompare_antisym (a b : xnum) :
  xcompare b a = option_map CompOpp (xcompare a b).
Proof.
  destruct a as [|s1|m1 e1], b as [|s2|m2 e2]; simpl; try reflexivity.
  - destruct s1, s2; reflexivity.
  - destruct s1; reflexivity.
  - destruct s2; reflexivity.
  - f_equal. apply cmp_fin_antisym.
Qed.

Lemma num_compare_antisym (a b : pynum) :
  num_compare b a = option_map CompOpp (num_compare a b).
Proof. apply xcompare_antisym. Qed.

Lemma num_ge_le (a b : pynum) : num_ge a b = num_le b a.
Proof.
  unfold num_ge, num_le. rewrite (num_compare_antisym a b).
  destruct (num_compare a b) as [[ | | ]|]; reflexivity.
Qed.

Lemma num_gt_lt (a b : pynum) : num_gt a b = num_lt b a.
Proof.
  unfold num_gt, num_lt. rewrite (num_compare_antisym a b).
  destruct (num_compare a b) as [[ | | ]|]; reflexivity.
Qed.

(** Every comparison with a NaN operand is false. *)
Lemma num_compare_nan_l (b : pynum) : num_compare (NFloat fnan) b = None.
Proof. reflexivity. Qed.

Lemma num_compare_nan_r (a : pynum) : num_compare a (NFloat fnan) = None.
Proof.
  rewrite num_compare_antisym. reflexivity.
Qed.

(** For an operand that is ordered with something, so not a NaN,
    [not (a >= z)] is [a < z] against an int [z]. *)
Lemma num_ge_false_lt (a c : pynum) (z : Z) :
  num_ge a c = true -> num_ge a (NInt z) = false -> num_lt a (NInt z) = true.
Proof.
  unfold num_ge, num_lt, num_compare. cbn [xnum_of].
  destruct (xnum_of a) as [|sa|ma ea]; simpl; try discriminate.
  - destruct sa; intros; congruence.
  - intros _. destruct (cmp_fin ma ea z 0); congruence.
Qed.

Lemma num_le_false_gt (a c : pynum) (z : Z) :
  num_le a c = true -> num_le a (NInt z) = false -> num_gt a (NInt z) = true.
Proof.
  unfold num_le, num_gt, num_compare. cbn [xnum_of].
  destruct (xnum_of a) as [|sa|ma ea]; simpl; try discriminate.
  - destruct sa; intros; congruence.
  - intros _. destruct (cmp_fin ma ea z 0); congruence.
Qed.

Lemma num_lt_not_ge (a b : pynum) : num_lt a b = true -> num_ge a b = false.
Proof.
  unfold num_lt, num_ge. destruct (num_compare a b) as [[ | | ]|]; congruence.
Qed.

Lemma num_gt_not_le (a b : pynum) : num_gt a b = true -> num_le a b = false.
Proof.
  unfold num_gt, num_le. destruct (num_compare a b) as [[ | | ]|]; congruence.
Qed.

End Comparison.

(* ================================================================= *)
(** ** Properties of the host probe *)

Module HostFacts.
Import Py Text Run Host Scenarios.
Local Open Scope string_scope.
Local Open Scope list_scope.

Lemma printed_app (a b : trace) : printed (a ++ b) = printed a ++ printed b.
Proof.
  induction a as [| ev a IH]; [reflexivity |].
  destruct ev; cbn [printed app]; rewrite IH; reflexivity.
Qed.

(** *** Computations that print nothing *)

Lemma silent_ret {A} (a : A) : silent (ret a).
Proof. intros tr r tr1 [= <- <-]. reflexivity. Qed.

Lemma silent_lift {A} (x : result A) : silent (lift x).
Proof. intros tr r tr1 [= <- <-]. reflexivity. Qed.

Lemma silent_bind {A B} (c : M A) (k : A -> M B) :
  silent c -> (forall a, silent (k a)) -> silent (mbind c k).
Proof.
  intros Hc Hk tr r tr1. unfold mbind.
  destruct (c tr) as [[a | e] tr0] eqn:E.
  - intros H. apply Hk in H. apply Hc in E. congruence.
  - intros [= <- <-]. apply Hc in E. exact E.
Qed.

Lemma silent_emit (ev : event) :
  (forall l, ev <> Print l) -> silent (emit ev).
Proof.
  intros N tr r tr1 [= <- <-]. rewrite printed_app.
  destruct ev; cbn [printed]; try apply app_nil_r.
  exfalso. eapply N. reflexivity.
Qed.

Lemma silent_connect (w : world) (t : ssh_target) : silent (connect w t).
Proof.
  intros tr r tr1. unfold connect.
  destruct (ssh_connect w t); intros [= <- <-];
    rewrite printed_app; apply app_nil_r.
Qed.

Lemma silent_exec_command (w : world) (cmd : string) :
  silent (exec_command w cmd).
Proof.
  apply silent_bind; [apply silent_emit; discriminate |].
  intros _. apply silent_lift.
Qed.

Create HintDb silent.

#[local] Hint Resolve silent_ret silent_lift silent_connect
  silent_exec_command : silent.

(** The [try] block prints nothing. *)
Lemma remote_body_silent (w : world) (db : config) : silent (remote_body w db).
Proof.
  unfold remote_body.
  repeat first
    [ apply silent_bind; [| intros ?]
    | apply silent_emit; discriminate
    | match goal with
      | |- silent (match ?x with _ => _ end) => destruct x
      | |- silent (let '(_, _) := ?x in _) => destruct x
      end
    | solve [auto with silent] ].
Qed.

(** The probe returns on every run: with the record of the [try] block
    and nothing printed, or with the zero record and one warning. *)
Lemma remote_probe_outcome (w : world) (db : config) (tr : trace) :
  (exists d tr1,
     remote_body w db tr = (Ok d, tr1) /\
     _get_remote_system_metrics w db tr = (Ok d, tr1) /\
     printed tr1 = printed tr) \/
  (exists e tr1,
     remote_body w db tr = (Raise e, tr1) /\
     _get_remote_system_metrics w db tr
       = (Ok zero_metrics, tr1 ++ [Print (WarnRemoteMetrics e)]) /\
     printed (tr1 ++ [Print (WarnRemoteMetrics e)])
       = printed tr ++ [WarnRemoteMetrics e]).
Proof.
  unfold _get_remote_system_metrics, try_except.
  destruct (remote_body w db tr) as [[d | e] tr1] eqn:E;
    pose proof (remote_body_silent w db _ _ _ E) as P.
  - left. exists d, tr1. auto.
  - right. exists e, tr1. split; [reflexivity |]. split; [reflexivity |].
    rewrite printed_app, P. reflexivity.
Qed.

Ltac run_unfold :=
  unfold _get_remote_system_metrics, try_except, remote_body, exec_command,
    connect, mbind, lift, emit, ret.

Ltac run_with H := rewrite H; cbv beta iota zeta.

Lemma free_fields_cases (out : string) :
  free_fields out =
  match index (splitlines out) 1 with
  | Ok line1 => unpack3_int (slice 1 4 (split line1))
  | Raise e => Raise e
  end.
Proof. reflexivity. Qed.

(** C2, as the code has it.  The remote host probe returns on every
    run and never raises.  It prints at most one warning, and when it
    prints one the record is the zero record.  A refused or
    unauthenticated connection, a command that fails on the session,
    an output of [free -m] without a second line or without three
    integer fields after the label, and a total of zero each give the
    zero record and exactly one warning.  A [top] line without idle
    field is not a failure: the cpu figure is [0.0], nothing is
    printed, and the memory figures are those read from [free -m]. *)
Theorem remote_probe_failure_handling (w : world) (db : config) (tr : trace) :
  let run := _get_remote_system_metrics w db tr in
  let failed :=
    exists e tr1, run = (Ok zero_metrics, tr1) /\
                  printed tr1 = printed tr ++ [WarnRemoteMetrics e] in
  (exists d tr1,
     run = (Ok d, tr1) /\
     (printed tr1 = printed tr \/
      exists e, d = zero_metrics /\
                printed tr1 = printed tr ++ [WarnRemoteMetrics e])) /\
  (forall e, ssh_connect w (ssh_target_of db) = Raise e -> failed) /\
  (forall e,
     ssh_connect w (ssh_target_of db) = Ok tt ->
     ssh_exec w top_command = Raise e -> failed) /\
  (forall e cpu_line,
     ssh_connect w (ssh_target_of db) = Ok tt ->
     ssh_exec w top_command = Ok cpu_line ->
     ssh_exec w free_command = Raise e -> failed) /\
  (forall e cpu_line out,
     ssh_connect w (ssh_target_of db) = Ok tt ->
     ssh_exec w top_command = Ok cpu_line ->
     ssh_exec w free_command = Ok out ->
     free_fields out = Raise e -> failed) /\
  (forall cpu_line out used_mb free_mb,
     ssh_connect w (ssh_target_of db) = Ok tt ->
     ssh_exec w top_command = Ok cpu_line ->
     ssh_exec w free_command = Ok out ->
     free_fields out = Ok (0%Z, used_mb, free_mb) -> failed) /\
  (forall cpu_line out total_mb used_mb free_mb q t u f,
     ssh_connect w (ssh_target_of db) = Ok tt ->
     ssh_exec w top_command = Ok cpu_line ->
     search_idle cpu_line = None ->
     ssh_exec w free_command = Ok out ->
     free_fields out = Ok (total_mb, used_mb, free_mb) ->
     int_true_div used_mb total_mb = Ok q ->
     int_true_div total_mb 1024 = Ok t ->
     int_true_div used_mb 1024 = Ok u ->
     int_true_div free_mb 1024 = Ok f ->
     exists tr1,
       run = (Ok [("system_cpu_percent", VFloat fzero);
                  ("system_ram_percent",
                   VFloat (round2 (float_mul q (float_of_Z 100))));
                  ("system_ram_total_gb", VFloat (round2 t));
                  ("system_ram_used_gb", VFloat (round2 u));
                  ("system_ram_available_gb", VFloat (round2 f))], tr1) /\
       printed tr1 = printed tr).
Proof.
  intros run failed.
  assert (FAIL : (exists e tr1, remote_body w db tr = (Raise e, tr1)) ->
                 failed).
  { intros (e & tr1 & E). unfold failed, run.
    destruct (remote_probe_outcome w db tr)
      as [(d & tr2 & E' & _) | (e' & tr2 & E' & R & P)]; [congruence |].
    eexists _, _. split; [exact R | exact P]. }
  split; [| split; [| split; [| split; [| split; [| split]]]]].
  - destruct (remote_probe_outcome w db tr)
      as [(d & tr1 & _ & R & P) | (e & tr1 & _ & R & P)].
    + exists d, tr1. auto.
    + eexists _, _. split; [exact R |]. right. exists e. auto.
  - intros e C. apply FAIL. run_unfold. run_with C.
    eexists _, _. reflexivity.
  - intros e C T. apply FAIL. run_unfold. run_with C. run_with T.
    eexists _, _. reflexivity.
  - intros e cpu_line C T F. apply FAIL. run_unfold.
    run_with C. run_with T.
    destruct (search_idle cpu_line) as [g |]; cbv beta iota zeta;
      [destruct (parse_float g); cbv beta iota zeta |].
    all: try run_with F; eexists _, _; reflexivity.
  - intros e cpu_line out C T F P. apply FAIL.
    rewrite free_fields_cases in P.
    run_unfold. run_with C. run_with T.
    destruct (search_idle cpu_line) as [g |]; cbv beta iota zeta;
      [destruct (parse_float g) as [idle | e0]; cbv beta iota zeta |].
    all: try run_with F;
      try (destruct (index (splitlines out) 1) as [line1 | e1];
           cbv beta iota zeta; [rewrite P | ]);
      eexists _, _; reflexivity.
  - intros cpu_line out used_mb free_mb C T F P. apply FAIL.
    rewrite free_fields_cases in P.
    destruct (index (splitlines out) 1) as [line1 | e1] eqn:I;
      [| discriminate].
    run_unfold. run_with C. run_with T.
    destruct (search_idle cpu_line) as [g |]; cbv beta iota zeta;
      [destruct (parse_float g) as [idle | e0]; cbv beta iota zeta |].
    all: try (run_with F; run_with I; run_with P);
      eexists _, _; reflexivity.
  - intros cpu_line out total_mb used_mb free_mb q t u f C T S F P Q Ht Hu Hf.
    rewrite free_fields_cases in P.
    destruct (index (splitlines out) 1) as [line1 | e1] eqn:I;
      [| discriminate].
    destruct (remote_probe_outcome w db tr)
      as [(d & tr1 & B & R & Pr) | (e & tr1 & B & _)].
    + exists tr1. split; [| exact Pr]. unfold run. rewrite R.
      f_equal. revert B. run_unfold.
      run_with C. run_with T. run_with S. run_with F. run_with I.
      run_with P. run_with Q. run_with Ht. run_with Hu. run_with Hf.
      intros [= <- _]. reflexivity.
    + exfalso. revert B. run_unfold.
      run_with C. run_with T. run_with S. run_with F. run_with I.
      run_with P. run_with Q. run_with Ht. run_with Hu. run_with Hf.
      discriminate.
Qed.

Lemma remote_probe_failure_handling_witness :
  ssh_connect (ssh_world (Ok top_95_idle) (Ok "")) (ssh_target_of remote_config)
    = Ok tt /\
  ssh_exec (ssh_world (Ok top_95_idle) (Ok "")) top_command = Ok top_95_idle /\
  ssh_exec (ssh_world (Ok top_95_idle) (Ok "")) free_command = Ok "" /\
  free_fields "" = Raise IndexError /\
  exists e tr1,
    _get_remote_system_metrics (ssh_world (Ok top_95_idle) (Ok ""))
                               remote_config []
      = (Ok zero_metrics, tr1) /\
    printed tr1 = printed [] ++ [WarnRemoteMetrics e].
Proof.
  repeat (split; [reflexivity |]).
  apply (proj1 (proj2 (proj2 (proj2 (proj2
           (remote_probe_failure_handling
              (ssh_world (Ok top_95_idle) (Ok "")) remote_config [])))))
           IndexError top_95_idle "");
    reflexivity.
Defined.

(** C2, as the specification words it, fails for the [top] output: when
    no idle field is found the probe neither returns the zero record
    nor prints a warning. *)
Lemma top_parse_failure_is_not_reported :
  ~ (forall (w : world) (db : config) (tr : trace) (cpu_line : string),
       ssh_connect w (ssh_target_of db) = Ok tt ->
       ssh_exec w top_command = Ok cpu_line ->
       search_idle cpu_line = None ->
       exists e tr1,
         _get_remote_system_metrics w db tr = (Ok zero_metrics, tr1) /\
         printed tr1 = printed tr ++ [WarnRemoteMetrics e]).
Proof.
  intros H.
  destruct (H (ssh_world (Ok "top: command not found") (Ok free_16000))
              remote_config [] "top: command not found"
              eq_refl eq_refl eq_refl) as (e & tr1 & R & _).
  vm_compute in R. discriminate R.
Qed.

(** C3 at the input ["LOCALHOST"]: the comparison is exact, so the host
    is not recognised and the remote strategy is selected, although
    its lower-case form is in the list. *)
Theorem uppercase_localhost_is_not_local :
  _is_localhost_connection (with_host "LOCALHOST" remote_config) = false /\
  existsb (fun h => (lower_string "LOCALHOST" =? h)%string) localhost_hosts
    = true /\
  In (SshExec top_command)
     (snd (Probes.get_cpu_ram_usage
             (ssh_world (Ok top_95_idle) (Ok free_16000))
             (with_host "LOCALHOST" remote_config) [])) /\
  (forall db, _is_localhost_connection db = true <->
              In (host db) localhost_hosts).
Proof.
  split; [reflexivity |]. split; [reflexivity |].
  split; [vm_compute; tauto |].
  intros db. unfold _is_localhost_connection. rewrite existsb_exists.
  split.
  - intros (h & I & E). apply String.eqb_eq in E. congruence.
  - intros I. exists (host db). split; [exact I | apply String.eqb_refl].
Qed.

(** C4 at a failing input: the server is reached, [free -m] answers
    nothing, the probe returns the zero record, and the session opened
    by [ssh.connect] is still open when it returns.  On the normal
    path the session is closed. *)
Theorem session_left_open_on_parse_failure :
  let w := ssh_world (Ok top_95_idle) (Ok "") in
  let run := _get_remote_system_metrics w remote_config [] in
  let normal :=
    _get_remote_system_metrics (ssh_world (Ok top_95_idle) (Ok free_16000))
                               remote_config [] in
  fst run = Ok zero_metrics /\
  printed (snd run) = [WarnRemoteMetrics IndexError] /\
  session_open (snd run) = true /\
  ~ In SshClose (snd run) /\
  session_open (snd normal) = false.
Proof.
  vm_compute. repeat split; try reflexivity.
  intros [H | [H | [H | [H | []]]]]; discriminate H.
Qed.

(** C5, as the code has it.  With an idle field of [95.0] and a second
    line of [free -m] reading 16000, 4000 and 12000 MiB, the probe
    returns cpu 5.0, ram 25.0, total 15.62 (15.625 is a tie and goes to
    the even hundredth), used 3.91 and available 11.72. *)
Theorem remote_metrics_scenario
  (w : world) (db : config) (tr : trace)
  (cpu_line out line1 label : string) (rest : list string) :
  ssh_connect w (ssh_target_of db) = Ok tt ->
  ssh_exec w top_command = Ok cpu_line ->
  search_idle cpu_line = Some "95.0" ->
  ssh_exec w free_command = Ok out ->
  index (splitlines out) 1 = Ok line1 ->
  split line1 = label :: "16000" :: "4000" :: "12000" :: rest ->
  fst (_get_remote_system_metrics w db tr) =
  Ok [("system_cpu_percent", VFloat (lit 50 (-1)));
      ("system_ram_percent", VFloat (lit 250 (-1)));
      ("system_ram_total_gb", VFloat (lit 1562 (-2)));
      ("system_ram_used_gb", VFloat (lit 391 (-2)));
      ("system_ram_available_gb", VFloat (lit 1172 (-2)))].
Proof.
  intros C T S F I P. run_unfold.
  run_with C. run_with T. run_with S.
  change (parse_float "95.0") with (Ok (lit 950 (-1))). cbv beta iota zeta.
  run_with F. run_with I. run_with P.
  reflexivity.
Qed.

Lemma remote_metrics_scenario_witness :
  fst (_get_remote_system_metrics
         (ssh_world (Ok top_95_idle) (Ok free_16000)) remote_config []) =
  Ok [("system_cpu_percent", VFloat (lit 50 (-1)));
      ("system_ram_percent", VFloat (lit 250 (-1)));
      ("system_ram_total_gb", VFloat (lit 1562 (-2)));
      ("system_ram_used_gb", VFloat (lit 391 (-2)));
      ("system_ram_available_gb", VFloat (lit 1172 (-2)))].
Proof.
  apply (remote_metrics_scenario
           (ssh_world (Ok top_95_idle) (Ok free_16000)) remote_config []
           top_95_idle free_16000 "Mem: 16000 4000 12000 0 0 12000" "Mem:"
           ["0"; "0"; "12000"]);
    reflexivity.
Defined.

(** C5, as the specification words it, fails on the total: the probe
    does not return 15.63. *)
Lemma remote_metrics_total_is_not_15_63 :
  fst (_get_remote_system_metrics
         (ssh_world (Ok top_95_idle) (Ok free_16000)) remote_config []) <>
  Ok [("system_cpu_percent", VFloat (lit 50 (-1)));
      ("system_ram_percent", VFloat (lit 250 (-1)));
      ("system_ram_total_gb", VFloat (lit 1563 (-2)));
      ("system_ram_used_gb", VFloat (lit 391 (-2)));
      ("system_ram_available_gb", VFloat (lit 1172 (-2)))].
Proof.
  vm_compute. intros H. discriminate H.
Qed.

End HostFacts.

(* ================================================================= *)
(** ** Conversion of ints to floats *)

Module RoundingFacts.
Import Py Classifier.

(** *** Ints below [2^53] convert to floats exactly *)

Lemma digits2_pos_iter (m k : positive) :
  digits2_pos (Pos.iter xO m k) = (digits2_pos m + k)%positive.
Proof.
  induction k as [| k IH] using Pos.peano_ind.
  - cbn. rewrite Pos.add_1_r. reflexivity.
  - rewrite Pos.iter_succ. cbn [digits2_pos]. rewrite IH.
    rewrite Pos.add_succ_r. reflexivity.
Qed.

Lemma pos_iter_xO_value (m k : positive) :
  Zpos (Pos.iter xO m k) = (Zpos m * 2 ^ Zpos k)%Z.
Proof.
  induction k as [| k IH] using Pos.peano_ind.
  - cbn [Pos.iter]. rewrite (Pos2Z.inj_xO m). change (2 ^ 1)%Z with 2%Z. lia.
  - rewrite Pos.iter_succ, (Pos2Z.inj_xO (Pos.iter xO m k)), IH,
      Pos2Z.inj_succ, Z.pow_succ_r by apply Pos2Z.is_nonneg. lia.
Qed.

Lemma digits2_pos_lower (p : positive) :
  (2 ^ (Zpos (digits2_pos p) - 1) <= Zpos p)%Z.
Proof.
  induction p as [p IH | p IH |]; cbn [digits2_pos].
  - rewrite Pos2Z.inj_succ.
    replace (Z.succ (Zpos (digits2_pos p)) - 1)%Z
      with (Z.succ (Zpos (digits2_pos p) - 1)) by lia.
    rewrite Z.pow_succ_r by (pose proof (Pos2Z.is_pos (digits2_pos p)); lia).
    rewrite (Pos2Z.inj_xI p). revert IH.
    generalize (2 ^ (Zpos (digits2_pos p) - 1))%Z. intros; lia.
  - rewrite Pos2Z.inj_succ.
    replace (Z.succ (Zpos (digits2_pos p)) - 1)%Z
      with (Z.succ (Zpos (digits2_pos p) - 1)) by lia.
    rewrite Z.pow_succ_r by (pose proof (Pos2Z.is_pos (digits2_pos p)); lia).
    rewrite (Pos2Z.inj_xO p). revert IH.
    generalize (2 ^ (Zpos (digits2_pos p) - 1))%Z. intros; lia.
  - cbn. lia.
Qed.

Lemma digits2_pos_le_53 (m : positive) :
  (Zpos m < 2 ^ 53)%Z -> (Zpos (digits2_pos m) <= 53)%Z.
Proof.
  intros H. pose proof (digits2_pos_lower m) as L.
  destruct (Z.le_gt_cases (Zpos (digits2_pos m)) 53) as [| G]; [assumption |].
  exfalso.
  assert (2 ^ 53 <= 2 ^ (Zpos (digits2_pos m) - 1))%Z
    by (apply Z.pow_le_mono_r; lia).
  lia.
Qed.

(** Rounding an integer of at most 53 bits only shifts it. *)
Lemma binary_round_small (s : bool) (m : positive) :
  (Zpos m < 2 ^ 53)%Z ->
  exists m' e', binary_round prec emax s m 0 = S754_finite s m' e' /\
                (e' <= 0)%Z /\ Zpos m' = (Zpos m * 2 ^ (- e'))%Z.
Proof.
  intros H. pose proof (digits2_pos_le_53 m H) as D.
  unfold binary_round, shl_align, fexp, SpecFloat.emin, prec, emax.
  rewrite Z.add_0_r.
  remember (digits2_pos m) as d eqn:Ed.
  assert (F : Z.max (Zpos d - 53) (3 - 1024 - 53) = (Zpos d - 53)%Z) by lia.
  rewrite F. rewrite Z.sub_0_r.
  destruct (Zpos d - 53)%Z as [| p | p] eqn:K; try lia.
  - exists m, 0%Z. split; [| split; [lia | cbn; lia]].
    unfold binary_round_aux, shr_fexp, fexp, SpecFloat.emin.
    cbn [Zdigits2 shr_record_of_loc]. rewrite <- Ed, Z.add_0_r.
    replace (Z.max (Zpos d - 53) (3 - 1024 - 53) - 0)%Z with 0%Z by lia.
    cbn [shr shr_m loc_of_shr_record round_nearest_even Zdigits2
         shr_record_of_loc].
    rewrite <- Ed, Z.add_0_r.
    replace (Z.max (Zpos d - 53) (3 - 1024 - 53) - 0)%Z with 0%Z by lia.
    cbn [shr shr_m]. reflexivity.
  - exists (Pos.iter xO m p), (Zneg p). split; [| split; [lia |]].
    2: { rewrite pos_iter_xO_value. reflexivity. }
    unfold binary_round_aux, shr_fexp, fexp, SpecFloat.emin.
    cbn [Zdigits2 shr_record_of_loc]. rewrite digits2_pos_iter, <- Ed.
    replace (Z.max (Zpos (d + p) + Zneg p - 53) (3 - 1024 - 53) - Zneg p)%Z
      with 0%Z by lia.
    cbn [shr shr_m loc_of_shr_record round_nearest_even Zdigits2
         shr_record_of_loc].
    rewrite digits2_pos_iter, <- Ed.
    replace (Z.max (Zpos (d + p) + Zneg p - 53) (3 - 1024 - 53) - Zneg p)%Z
      with 0%Z by lia.
    cbn [shr shr_m].
    replace (Zneg p <=? 1024 - 53)%Z with true
      by (symmetry; apply Z.leb_le; lia).
    reflexivity.
Qed.

Lemma cmp_fin_scaled (m t e : Z) :
  (e <= 0)%Z -> cmp_fin (m * 2 ^ (- e)) e t 0 = (m ?= t)%Z.
Proof.
  intros H. unfold cmp_fin. cbv zeta. rewrite Z.min_l by exact H.
  rewrite Z.sub_diag, Z.pow_0_r, Z.mul_1_r.
  replace (0 - e)%Z with (- e)%Z by lia.
  assert (P : (0 < 2 ^ (- e))%Z) by (apply Z.pow_pos_nonneg; lia).
  revert P. generalize (2 ^ (- e))%Z. intros k P.
  destruct (Z.compare_spec m t) as [-> | L | G].
  - apply Z.compare_refl.
  - apply Z.compare_lt_iff. nia.
  - apply Z.compare_gt_iff. nia.
Qed.

(** The float of a small int compares like the int. *)
Lemma float_of_Z_compare (z t : Z) :
  (Z.abs z < 2 ^ 53)%Z ->
  num_compare (NFloat (float_of_Z z)) (NInt t) = Some (z ?= t)%Z.
Proof.
  intros H. unfold float_of_Z, binary_normalize, num_compare.
  destruct z as [| m | m].
  - cbn [xnum_of xcompare]. f_equal. unfold cmp_fin. cbn. destruct t; reflexivity.
  - destruct (binary_round_small false m H) as (m' & e' & -> & E & V).
    cbn [xnum_of xcompare]. f_equal. rewrite V. apply cmp_fin_scaled. exact E.
  - destruct (binary_round_small true m H) as (m' & e' & -> & E & V).
    cbn [xnum_of xcompare]. f_equal.
    change (Zneg m') with (- Zpos m')%Z. rewrite V.
    rewrite <- Z.mul_opp_l. apply cmp_fin_scaled. exact E.
Qed.

Lemma float_or_zero_small_int (z : Z) :
  (Z.abs z < 2 ^ 53)%Z -> float_or_zero (VInt z) = float_of_Z z.
Proof.
  intros H. unfold float_or_zero, py_float, float_of_int.
  assert (B : (2 ^ 53 < overflow_bound)%Z) by (vm_compute; reflexivity).
  destruct (Z.leb_spec overflow_bound (Z.abs z)) as [L | _]; [| reflexivity].
  exfalso. revert B H L. generalize overflow_bound (2 ^ 53)%Z. intros; lia.
Qed.

(** *** Larger ints keep their side of a small threshold *)

Lemma digits2_pos_upper (p : positive) :
  (Zpos p < 2 ^ Zpos (digits2_pos p))%Z.
Proof.
  induction p as [p IH | p IH |]; cbn [digits2_pos].
  - rewrite Pos2Z.inj_succ, Z.pow_succ_r by apply Pos2Z.is_nonneg.
    rewrite (Pos2Z.inj_xI p). revert IH.
    generalize (2 ^ Zpos (digits2_pos p))%Z. intros; lia.
  - rewrite Pos2Z.inj_succ, Z.pow_succ_r by apply Pos2Z.is_nonneg.
    rewrite (Pos2Z.inj_xO p). revert IH.
    generalize (2 ^ Zpos (digits2_pos p))%Z. intros; lia.
  - cbn. lia.
Qed.

Lemma shr_1_m (mrs : shr_record) :
  (0 <= shr_m mrs)%Z -> shr_m (shr_1 mrs) = (shr_m mrs / 2)%Z.
Proof.
  destruct mrs as [m r s]. cbn [shr_m]. intros H. unfold shr_1.
  destruct m as [| [p | p |] | p]; cbn [shr_m]; try lia.
  - reflexivity.
  - rewrite (Pos2Z.inj_xI p). apply (Z.div_unique _ _ _ 1); lia.
  - rewrite (Pos2Z.inj_xO p). apply (Z.div_unique _ _ _ 0); lia.
  - reflexivity.
Qed.

Lemma iter_shr_m (p : positive) (mrs : shr_record) :
  (0 <= shr_m mrs)%Z ->
  shr_m (iter_pos shr_1 p mrs) = (shr_m mrs / 2 ^ Zpos p)%Z.
Proof.
  revert mrs. induction p as [p IH | p IH |]; intros mrs H; cbn [iter_pos].
  - assert (P : (0 < 2 ^ Zpos p)%Z) by (apply Z.pow_pos_nonneg; lia).
    assert (H1 : (0 <= shr_m (shr_1 mrs))%Z)
      by (rewrite shr_1_m by exact H; apply Z.div_pos; lia).
    assert (H2 : (0 <= shr_m (iter_pos shr_1 p (shr_1 mrs)))%Z)
      by (rewrite IH by exact H1; apply Z.div_pos; lia).
    rewrite (IH _ H2), (IH _ H1), (shr_1_m _ H).
    rewrite !Z.div_div by lia.
    rewrite (Pos2Z.inj_xI p).
    replace (2 * Zpos p + 1)%Z with (1 + Zpos p + Zpos p)%Z by lia.
    rewrite !Z.pow_add_r by lia. rewrite Z.pow_1_r, Z.mul_assoc. reflexivity.
  - assert (P : (0 < 2 ^ Zpos p)%Z) by (apply Z.pow_pos_nonneg; lia).
    assert (H1 : (0 <= shr_m (iter_pos shr_1 p mrs))%Z)
      by (rewrite IH by exact H; apply Z.div_pos; lia).
    rewrite (IH _ H1), (IH _ H).
    rewrite Z.div_div by lia.
    rewrite (Pos2Z.inj_xO p).
    replace (2 * Zpos p)%Z with (Zpos p + Zpos p)%Z by lia.
    rewrite Z.pow_add_r by lia. reflexivity.
  - rewrite (shr_1_m _ H). reflexivity.
Qed.

Lemma shr_record_of_loc_m (m : Z) (l : location) :
  shr_m (shr_record_of_loc m l) = m.
Proof. destruct l as [| []]; reflexivity. Qed.

Lemma round_nearest_even_ge (m : Z) (l : location) :
  (m <= round_nearest_even m l)%Z.
Proof.
  destruct l as [| []]; cbn [round_nearest_even]; try lia.
  destruct (Z.even m); lia.
Qed.

(** Shifting a mantissa of at least 53 bits to its exponent leaves at
    least 53 bits and does not lower the exponent. *)
Lemma shr_fexp_large (x e : Z) (l : location) :
  (2 ^ 52 <= x)%Z -> (0 <= e)%Z ->
  exists mrs e',
    shr_fexp prec emax x e l = (mrs, e') /\
    (2 ^ 52 <= shr_m mrs)%Z /\ (e <= e')%Z /\
    ((2 ^ 53 <= x)%Z -> (e < e')%Z).
Proof.
  intros X E.
  assert (P52 : (0 < 2 ^ 52)%Z) by (apply Z.pow_pos_nonneg; lia).
  destruct x as [| p | p]; [exfalso; lia | | exfalso; lia].
  pose proof (digits2_pos_upper p) as U.
  pose proof (digits2_pos_lower p) as L.
  set (d := Zpos (digits2_pos p)) in *.
  assert (D : (53 <= d)%Z).
  { destruct (Z.le_gt_cases 53 d) as [| G]; [assumption |]. exfalso.
    assert (2 ^ d <= 2 ^ 52)%Z by (apply Z.pow_le_mono_r; lia).
    revert X U H. generalize (2 ^ d)%Z (2 ^ 52)%Z. intros; lia. }
  unfold shr_fexp, fexp, SpecFloat.emin, prec, emax. cbn [Zdigits2]. fold d.
  replace (Z.max (d + e - 53) (3 - 1024 - 53) - e)%Z with (d - 53)%Z by lia.
  destruct (d - 53)%Z as [| k | k] eqn:K; try lia.
  - cbn [shr]. eexists _, _. split; [reflexivity |].
    rewrite shr_record_of_loc_m. split; [exact X |]. split; [lia |].
    intros X3. exfalso. replace d with 53%Z in U by lia.
    revert X3 U. generalize (2 ^ 53)%Z. intros; lia.
  - cbn [shr]. eexists _, _. split; [reflexivity |].
    rewrite iter_shr_m by (rewrite shr_record_of_loc_m; lia).
    rewrite shr_record_of_loc_m. split; [| split; [lia | intros _; lia]].
    apply Z.div_le_lower_bound; [apply Z.pow_pos_nonneg; lia |].
    rewrite <- Z.pow_add_r by lia.
    replace (Zpos k + 52)%Z with (d - 1)%Z by lia. exact L.
Qed.

(** Rounding an integer of more than 53 bits gives a float of at least
    [2^53] in magnitude. *)
Lemma binary_round_large (s : bool) (m : positive) :
  (2 ^ 53 <= Zpos m)%Z ->
  binary_round prec emax s m 0 = S754_infinity s \/
  exists m' e', binary_round prec emax s m 0 = S754_finite s m' e' /\
                (1 <= e')%Z /\ (2 ^ 52 <= Zpos m')%Z.
Proof.
  intros H.
  assert (H52 : (2 ^ 52 <= Zpos m)%Z).
  { assert (2 ^ 52 <= 2 ^ 53)%Z by (apply Z.pow_le_mono_r; lia).
    revert H H0. generalize (2 ^ 52)%Z (2 ^ 53)%Z. intros; lia. }
  pose proof (digits2_pos_upper m) as U.
  set (d := Zpos (digits2_pos m)) in *.
  assert (D : (54 <= d)%Z).
  { destruct (Z.le_gt_cases 54 d) as [| G]; [assumption |]. exfalso.
    assert (2 ^ d <= 2 ^ 53)%Z by (apply Z.pow_le_mono_r; lia).
    revert H U H0. generalize (2 ^ d)%Z (2 ^ 53)%Z. intros; lia. }
  unfold binary_round, shl_align, fexp, SpecFloat.emin, prec, emax. fold d.
  replace (Z.max (d + 0 - 53) (3 - 1024 - 53) - 0)%Z with (d - 53)%Z by lia.
  destruct (d - 53)%Z as [| k | k] eqn:K; try lia.
  unfold binary_round_aux.
  destruct (shr_fexp_large (Zpos m) 0 loc_Exact H52 ltac:(lia))
    as (mrs1 & e1 & E1 & B1 & _ & S1).
  fold prec emax. rewrite E1.
  pose proof (round_nearest_even_ge (shr_m mrs1) (loc_of_shr_record mrs1)) as R.
  specialize (S1 H).
  destruct (shr_fexp_large
              (round_nearest_even (shr_m mrs1) (loc_of_shr_record mrs1))
              e1 loc_Exact ltac:(lia) ltac:(lia))
    as (mrs2 & e2 & E2 & B2 & L2 & _).
  rewrite E2.
  assert (P : (0 < 2 ^ 52)%Z) by (apply Z.pow_pos_nonneg; lia).
  destruct (shr_m mrs2) as [| m2 | m2]; try lia.
  destruct (e2 <=? emax - prec)%Z; [| left; reflexivity].
  right. exists m2, e2. split; [reflexivity |]. split; [lia | exact B2].
Qed.

Lemma float_of_Z_compare_large (z t : Z) :
  (2 ^ 53 <= Z.abs z)%Z -> (Z.abs t < 2 ^ 53)%Z ->
  num_compare (NFloat (float_of_Z z)) (NInt t) = Some (z ?= t)%Z.
Proof.
  intros H T. unfold float_of_Z, binary_normalize, num_compare.
  assert (P : (0 < 2 ^ 53)%Z) by (apply Z.pow_pos_nonneg; lia).
  assert (Q : (2 ^ 53 = 2 ^ 52 * 2)%Z) by reflexivity.
  destruct z as [| m | m].
  - exfalso. cbn [Z.abs] in H. lia.
  - cbn [Z.abs] in H.
    assert (C : (Zpos m ?= t)%Z = Gt)
      by (apply Z.compare_gt_iff; revert H T; generalize (2 ^ 53)%Z;
          intros; lia).
    rewrite C.
    destruct (binary_round_large false m H) as [-> | (m' & e' & -> & E & B)];
      [reflexivity |].
    cbn [xnum_of xcompare]. f_equal. unfold cmp_fin. cbv zeta.
    rewrite Z.min_r by lia. rewrite Z.sub_diag, Z.pow_0_r, Z.mul_1_r, Z.sub_0_r.
    apply Z.compare_gt_iff.
    assert (2 ^ 1 <= 2 ^ e')%Z by (apply Z.pow_le_mono_r; lia).
    change (2 ^ 1)%Z with 2%Z in *.
    revert H T B Q H0. generalize (2 ^ 53)%Z (2 ^ 52)%Z (2 ^ e')%Z.
    intros; nia.
  - cbn [Z.abs] in H.
    assert (C : (Zneg m ?= t)%Z = Lt)
      by (apply Z.compare_lt_iff; revert H T; generalize (2 ^ 53)%Z;
          intros; lia).
    rewrite C.
    destruct (binary_round_large true m H) as [-> | (m' & e' & -> & E & B)];
      [reflexivity |].
    cbn [xnum_of xcompare]. f_equal. unfold cmp_fin. cbv zeta.
    rewrite Z.min_r by lia. rewrite Z.sub_diag, Z.pow_0_r, Z.mul_1_r, Z.sub_0_r.
    apply Z.compare_lt_iff.
    assert (2 ^ 1 <= 2 ^ e')%Z by (apply Z.pow_le_mono_r; lia).
    change (2 ^ 1)%Z with 2%Z in *.
    change (Zneg m') with (- Zpos m')%Z.
    revert H T B Q H0. generalize (2 ^ 53)%Z (2 ^ 52)%Z (2 ^ e')%Z.
    intros; nia.
Qed.

(** The float of any int compares with a small int like the int
    itself: the conversion rounds, but never across an int below
    [2^53]. *)
Lemma float_of_Z_compare_any (z t : Z) :
  (Z.abs t < 2 ^ 53)%Z ->
  num_compare (NFloat (float_of_Z z)) (NInt t) = Some (z ?= t)%Z.
Proof.
  intros T. destruct (Z.lt_ge_cases (Z.abs z) (2 ^ 53)) as [S | L].
  - apply float_of_Z_compare. exact S.
  - apply float_of_Z_compare_large; assumption.
Qed.

(** [float(n)] raises OverflowError exactly beyond the range of a
    double; the classifiers then fall back to [0.0]. *)
Lemma float_or_zero_int (n : Z) :
  (Z.abs n < overflow_bound)%Z -> float_or_zero (VInt n) = float_of_Z n.
Proof.
  intros H. unfold float_or_zero, py_float, float_of_int.
  destruct (Z.leb_spec overflow_bound (Z.abs n)) as [L | _]; [| reflexivity].
  exfalso. revert H L. generalize overflow_bound. intros; lia.
Qed.

Lemma float_or_zero_huge (n : Z) :
  (overflow_bound <= Z.abs n)%Z -> float_or_zero (VInt n) = fzero.
Proof.
  intros H. unfold float_or_zero, py_float, float_of_int.
  destruct (Z.leb_spec overflow_bound (Z.abs n)) as [_ | L]; [reflexivity |].
  exfalso. revert H L. generalize overflow_bound. intros; lia.
Qed.

End RoundingFacts.

(* ================================================================= *)
(** ** Properties of the classifier *)

Module ClassifierFacts.
Import Py Classifier RoundingFacts.
Local Open Scope string_scope.

Ltac label_cases :=
  repeat match goal with
         | |- context [if ?b then _ else _] => destruct b eqn:?
         end.

(** C7, as the code has it.  With the thresholds of the report
    (warning 80, critical 90) the higher-is-worse classifier answers,
    for a float [v], CRITICAL exactly when [v >= 90], WARNING exactly
    when [80 <= v < 90] and GOOD otherwise; with (warn 90, crit 80) the
    higher-is-better classifier answers CRITICAL exactly when
    [v <= 80], WARNING exactly when [80 < v <= 90] and EXCELLENT
    otherwise.  An int [n] within the range of a double is classified
    the same way by its own value, although it is first rounded to a
    float.  An int beyond that range makes [float()] raise, is read as
    [0.0], and so is GOOD for the one and CRITICAL for the other.  A
    cache ratio of 87.3 is WARNING, 79.9 is CRITICAL and 95.0 is
    EXCELLENT. *)
Theorem percentage_classifier_thresholds :
  (forall v : float,
     let x := NFloat v in
     let worse := _get_status_indicator (VFloat v) (NInt 80) (NInt 90) in
     let better := _status_higher_is_better (VFloat v) (NInt 90) (NInt 80) in
     (worse = "CRITICAL" <-> num_ge x (NInt 90) = true) /\
     (worse = "WARNING" <->
        num_ge x (NInt 80) = true /\ num_lt x (NInt 90) = true) /\
     (worse = "GOOD" <->
        num_ge x (NInt 90) = false /\ num_ge x (NInt 80) = false) /\
     (better = "CRITICAL" <-> num_le x (NInt 80) = true) /\
     (better = "WARNING" <->
        num_gt x (NInt 80) = true /\ num_le x (NInt 90) = true) /\
     (better = "EXCELLENT" <->
        num_le x (NInt 80) = false /\ num_le x (NInt 90) = false)) /\
  (forall n : Z,
     (Z.abs n < overflow_bound)%Z ->
     let worse := _get_status_indicator (VInt n) (NInt 80) (NInt 90) in
     let better := _status_higher_is_better (VInt n) (NInt 90) (NInt 80) in
     (worse = "CRITICAL" <-> (90 <= n)%Z) /\
     (worse = "WARNING" <-> (80 <= n < 90)%Z) /\
     (worse = "GOOD" <-> (n < 80)%Z) /\
     (better = "CRITICAL" <-> (n <= 80)%Z) /\
     (better = "WARNING" <-> (80 < n <= 90)%Z) /\
     (better = "EXCELLENT" <-> (90 < n)%Z)) /\
  (forall n : Z,
     (overflow_bound <= Z.abs n)%Z ->
     _get_status_indicator (VInt n) (NInt 80) (NInt 90) = "GOOD" /\
     _status_higher_is_better (VInt n) (NInt 90) (NInt 80) = "CRITICAL") /\
  _status_higher_is_better (VFloat (lit 873 (-1))) (NInt 90) (NInt 80)
    = "WARNING" /\
  _status_higher_is_better (VFloat (lit 799 (-1))) (NInt 90) (NInt 80)
    = "CRITICAL" /\
  _status_higher_is_better (VFloat (lit 950 (-1))) (NInt 90) (NInt 80)
    = "EXCELLENT".
Proof.
  split; [| split; [| split; [| repeat split; vm_compute; reflexivity]]].
  - intros v x worse better.
    unfold worse, better, _get_status_indicator, _status_higher_is_better.
    cbn [py_float try_or]. fold x.
    destruct (num_ge x (NInt 90)) eqn:G90;
      destruct (num_ge x (NInt 80)) eqn:G80;
      destruct (num_le x (NInt 80)) eqn:L80;
      destruct (num_le x (NInt 90)) eqn:L90.
    all: repeat split; intros; try discriminate; try tauto;
      repeat match goal with
             | H : _ /\ _ |- _ => destruct H
             end;
      try congruence.
    all: try match goal with
              | H1 : num_ge ?a _ = true, H2 : num_ge ?a (NInt ?z) = false
                |- num_lt ?a (NInt ?z) = true =>
                  exact (num_ge_false_lt _ _ _ H1 H2)
              | H1 : num_le ?a _ = true, H2 : num_le ?a (NInt ?z) = false
                |- num_gt ?a (NInt ?z) = true =>
                  exact (num_le_false_gt _ _ _ H1 H2)
              end.
    all: try (match goal with
              | H : num_lt _ _ = true |- _ => apply num_lt_not_ge in H
              | H : num_gt _ _ = true |- _ => apply num_gt_not_le in H
              end; congruence).
  - intros n H worse better.
    unfold worse, better, _get_status_indicator, _status_higher_is_better.
    fold (float_or_zero (VInt n)). rewrite (float_or_zero_int n H).
    assert (T80 : (Z.abs 80 < 2 ^ 53)%Z) by (vm_compute; reflexivity).
    assert (T90 : (Z.abs 90 < 2 ^ 53)%Z) by (vm_compute; reflexivity).
    unfold num_ge, num_le.
    rewrite !(float_of_Z_compare_any n 80 T80),
            !(float_of_Z_compare_any n 90 T90).
    destruct (Z.compare_spec n 90); destruct (Z.compare_spec n 80);
      repeat split; intros; try discriminate; try lia; try reflexivity.
  - intros n H.
    unfold _get_status_indicator, _status_higher_is_better.
    fold (float_or_zero (VInt n)). rewrite (float_or_zero_huge n H).
    split; vm_compute; reflexivity.
Qed.

Lemma percentage_classifier_thresholds_witness :
  (Z.abs 95 < overflow_bound)%Z /\
  (_get_status_indicator (VInt 95) (NInt 80) (NInt 90) = "CRITICAL" <->
   (90 <= 95)%Z).
Proof.
  assert (H : (Z.abs 95 < overflow_bound)%Z) by (vm_compute; reflexivity).
  split; [exact H |].
  exact (proj1 (proj1 (proj2 percentage_classifier_thresholds) 95 H)).
Defined.

(** An int of 401 digits is at least 90, yet the higher-is-worse
    classifier answers GOOD; it is above 80, yet the higher-is-better
    classifier answers CRITICAL: [float()] raises OverflowError and the
    fallback [0.0] is classified instead. *)
Theorem huge_int_is_classified_as_zero :
  (90 <= 10 ^ 400)%Z /\
  _get_status_indicator (VInt (10 ^ 400)) (NInt 80) (NInt 90) = "GOOD" /\
  ~ (10 ^ 400 <= 80)%Z /\
  _status_higher_is_better (VInt (10 ^ 400)) (NInt 90) (NInt 80) = "CRITICAL".
Proof.
  split; [vm_compute; discriminate |].
  split; [vm_compute; reflexivity |].
  split; [intros H; vm_compute in H; apply H; reflexivity |].
  vm_compute; reflexivity.
Qed.

(** C10.  When the coerced value is a NaN, the higher-is-worse
    classifier answers GOOD and the higher-is-better classifier answers
    EXCELLENT, whatever the warning and critical thresholds are. *)
Theorem nan_takes_most_favourable_label
  (value : pyval) (warn crit : pynum) :
  py_float value = Ok fnan ->
  _get_status_indicator value warn crit = "GOOD" /\
  _status_higher_is_better value warn crit = "EXCELLENT".
Proof.
  intros H.
  unfold _get_status_indicator, _status_higher_is_better.
  rewrite H. cbn [try_or].
  unfold num_ge, num_le. rewrite !num_compare_nan_l. split; reflexivity.
Qed.

Lemma nan_takes_most_favourable_label_witness :
  py_float (VStr "NaN") = Ok fnan /\
  _get_status_indicator (VStr "NaN") (NInt 80) (NInt 90) = "GOOD" /\
  _status_higher_is_better (VStr "NaN") (NInt 80) (NInt 90) = "EXCELLENT".
Proof.
  split; [reflexivity |].
  apply (nan_takes_most_favourable_label (VStr "NaN") (NInt 80) (NInt 90)).
  reflexivity.
Defined.

(** *** Integer coercion and division *)

Lemma int_or_zero_int (z : Z) : int_or_zero (VInt z) = z.
Proof.
  unfold int_or_zero, py_or. cbn [truthy].
  destruct (Z.eqb_spec z 0) as [-> | _]; reflexivity.
Qed.

Lemma max_finite_below_bound : ((2 ^ 53 - 1) * 2 ^ 971 < overflow_bound)%Z.
Proof. vm_compute. reflexivity. Qed.

Lemma counter_below_bound (z : Z) : is_counter z -> (Z.abs z < overflow_bound)%Z.
Proof.
  unfold is_counter. intros [H0 H1].
  assert (B : (2 ^ 63 < overflow_bound)%Z) by (vm_compute; reflexivity).
  rewrite Z.abs_eq by assumption.
  revert B H1. generalize overflow_bound (2 ^ 63)%Z. intros; lia.
Qed.

Lemma digits2_pos_bound (m : positive) :
  (Zpos m < 2 ^ Zpos (digits2_pos m))%Z.
Proof.
  induction m as [m IH | m IH |]; cbn [digits2_pos].
  - rewrite Pos2Z.inj_succ, Z.pow_succ_r by apply Pos2Z.is_nonneg.
    rewrite Pos2Z.inj_xI. lia.
  - rewrite Pos2Z.inj_succ, Z.pow_succ_r by apply Pos2Z.is_nonneg.
    rewrite Pos2Z.inj_xO. lia.
  - reflexivity.
Qed.

Lemma trunc_abs_bounded (m : positive) (e : Z) :
  bounded prec emax m e = true ->
  (0 <= trunc_abs m e <= (2 ^ 53 - 1) * 2 ^ 971)%Z.
Proof.
  unfold bounded, canonical_mantissa, fexp. intros V.
  apply andb_prop in V. destruct V as [C E].
  apply Z.eqb_eq in C. apply Z.leb_le in E.
  unfold prec, emax in C, E.
  pose proof (digits2_pos_bound m) as D.
  assert (D53 : (Zpos (digits2_pos m) <= 53)%Z) by lia.
  assert (M : (Zpos m < 2 ^ 53)%Z).
  { eapply Z.lt_le_trans; [exact D |]. apply Z.pow_le_mono_r; lia. }
  unfold trunc_abs. destruct (Z.leb_spec 0 e) as [He | He].
  - assert (P2 : (0 < 2 ^ e <= 2 ^ 971)%Z).
    { split; [apply Z.pow_pos_nonneg; lia |]. apply Z.pow_le_mono_r; lia. }
    split; [apply Z.mul_nonneg_nonneg; lia |].
    apply Z.mul_le_mono_nonneg; lia.
  - assert (P2 : (0 < 2 ^ (- e))%Z) by (apply Z.pow_pos_nonneg; lia).
    split; [apply Z.div_pos; lia |].
    assert (U : (Zpos m / 2 ^ (- e) <= Zpos m)%Z).
    { apply Z.div_le_upper_bound; [lia |]. nia. }
    assert (G : (2 ^ 53 - 1 <= (2 ^ 53 - 1) * 2 ^ 971)%Z)
      by (vm_compute; discriminate).
    revert G M U. generalize ((2 ^ 53 - 1) * 2 ^ 971)%Z. intros; lia.
Qed.

(** A well-formed double truncates to an int below [overflow_bound]. *)
Lemma int_of_float_bounded (f : float) (z : Z) :
  valid_binary prec emax f = true -> int_of_float f = Ok z ->
  (Z.abs z < overflow_bound)%Z.
Proof.
  destruct f as [s | s | | s m e]; intros V E.
  - injection E as <-. vm_compute. reflexivity.
  - exfalso. clear V. cbn in E. congruence.
  - exfalso. clear V. cbn in E. congruence.
  - cbn [valid_binary] in V. apply trunc_abs_bounded in V.
    cbn [int_of_float] in E. injection E as <-.
    pose proof max_finite_below_bound as B.
    revert B V. generalize ((2 ^ 53 - 1) * 2 ^ 971)%Z overflow_bound
                           (trunc_abs m e).
    intros u v a B V. destruct s; lia.
Qed.

Lemma within_float_range_bound (value : pyval) :
  within_float_range value = true ->
  (Z.abs (int_or_zero value) < overflow_bound)%Z.
Proof.
  assert (Z0 : (Z.abs 0 < overflow_bound)%Z) by (vm_compute; reflexivity).
  assert (Z1 : (Z.abs 1 < overflow_bound)%Z) by (vm_compute; reflexivity).
  unfold int_or_zero, py_or.
  destruct value as [| b | z | f | s | l | l | d]; cbn [within_float_range].
  - intros _. exact Z0.
  - intros _. destruct b; [exact Z1 | exact Z0].
  - intros H. apply Z.ltb_lt in H. fold (py_or (VInt z) (VInt 0)).
    fold (int_or_zero (VInt z)). rewrite int_or_zero_int. exact H.
  - intros H. destruct (truthy (VFloat f)); [| exact Z0].
    cbn [py_int]. destruct (int_of_float f) as [z | e] eqn:E; [| exact Z0].
    cbn [try_or]. eapply int_of_float_bounded; eassumption.
  - intros H. destruct (truthy (VStr s)); [| exact Z0].
    cbn [py_int]. destruct (parse_int s) as [z | e]; [| exact Z0].
    cbn [try_or]. apply Z.ltb_lt. exact H.
  - intros _. destruct (truthy (VList l)); exact Z0.
  - intros _. destruct (truthy (VTuple l)); exact Z0.
  - intros _. destruct (truthy (VDict d)); exact Z0.
Qed.

(** Division by [max(read, 1)] succeeds on a dividend within range. *)
Lemma int_true_div_max_ok (a b : Z) :
  (Z.abs a < overflow_bound)%Z ->
  int_true_div a (Z.max b 1) = Ok (rn_div a (Z.max b 1)).
Proof.
  intros H. unfold int_true_div.
  destruct (Z.eqb_spec (Z.max b 1) 0) as [E | _]; [lia |].
  destruct (Z.leb_spec (overflow_bound * Z.abs (Z.max b 1)) (Z.abs a)) as [L | _];
    [| reflexivity].
  exfalso. revert H L. generalize overflow_bound. intros; nia.
Qed.

Lemma index_status_coerces_to_int (scans r f size_bytes : pyval) :
  _get_index_status scans r f size_bytes =
  _get_index_status (VInt (int_or_zero scans)) (VInt (int_or_zero r))
                    (VInt (int_or_zero f)) size_bytes.
Proof.
  unfold _get_index_status.
  fold (int_or_zero scans) (int_or_zero r) (int_or_zero f).
  fold (int_or_zero (VInt (int_or_zero scans)))
       (int_or_zero (VInt (int_or_zero r)))
       (int_or_zero (VInt (int_or_zero f))).
  rewrite !int_or_zero_int. reflexivity.
Qed.

Lemma index_status_labels (scans r f size_bytes : pyval) :
  within_float_range f = true ->
  exists l, In l ["UNUSED"; "LOW USE"; "INEFFICIENT"; "ACTIVE"] /\
            _get_index_status scans r f size_bytes = Ok l.
Proof.
  intros H. apply within_float_range_bound in H.
  unfold _get_index_status.
  fold (int_or_zero scans) (int_or_zero r) (int_or_zero f).
  rewrite (int_true_div_max_ok _ _ H). cbn [bind].
  label_cases; eexists; (split; [| reflexivity]); simpl; tauto.
Qed.

(** C8.  On non-negative counters the index status is UNUSED exactly
    when [scans = 0], otherwise LOW USE exactly when [scans < 10],
    otherwise INEFFICIENT exactly when the Python quotient
    [tup_fetch / max(tup_read, 1)] is below [0.1], otherwise ACTIVE.
    [(0,_,_)] is UNUSED, [(5,100,50)] LOW USE, [(100,1000,50)]
    INEFFICIENT and [(100,1000,500)] ACTIVE. *)
Theorem index_status_decision_list :
  (forall (scans tup_read tup_fetch : Z) (size_bytes : pyval),
     is_counter scans -> is_counter tup_read -> is_counter tup_fetch ->
     let st := _get_index_status (VInt scans) (VInt tup_read) (VInt tup_fetch)
                                 size_bytes in
     exists ratio : float,
       int_true_div tup_fetch (Z.max tup_read 1) = Ok ratio /\
       (st = Ok "UNUSED" <-> scans = 0%Z) /\
       (st = Ok "LOW USE" <-> (0 < scans < 10)%Z) /\
       (st = Ok "INEFFICIENT" <->
          (10 <= scans)%Z /\ num_lt (NFloat ratio) (NFloat f0_1) = true) /\
       (st = Ok "ACTIVE" <->
          (10 <= scans)%Z /\ num_lt (NFloat ratio) (NFloat f0_1) = false)) /\
  (forall tup_read tup_fetch size_bytes : pyval,
     _get_index_status (VInt 0) tup_read tup_fetch size_bytes = Ok "UNUSED") /\
  _get_index_status (VInt 5) (VInt 100) (VInt 50) VNone = Ok "LOW USE" /\
  _get_index_status (VInt 100) (VInt 1000) (VInt 50) VNone = Ok "INEFFICIENT" /\
  _get_index_status (VInt 100) (VInt 1000) (VInt 500) VNone = Ok "ACTIVE".
Proof.
  split; [| repeat split; vm_compute; reflexivity].
  intros scans tup_read tup_fetch size_bytes Hs Hr Hf st.
  pose proof (int_true_div_max_ok _ tup_read (counter_below_bound _ Hf)) as D.
  exists (rn_div tup_fetch (Z.max tup_read 1)). split; [exact D |].
  unfold st, _get_index_status.
  fold (int_or_zero (VInt scans)) (int_or_zero (VInt tup_read))
       (int_or_zero (VInt tup_fetch)).
  rewrite !int_or_zero_int, D. cbn [bind].
  unfold is_counter in Hs.
  destruct (Z.eqb_spec scans 0) as [E0 | N0];
    [| destruct (Z.ltb_spec scans 10) as [L | G];
       [| destruct (num_lt (NFloat (rn_div tup_fetch (Z.max tup_read 1)))
                           (NFloat f0_1)) eqn:R]].
  all: repeat split; intros;
    repeat match goal with
           | H : _ /\ _ |- _ => destruct H
           end;
    try discriminate; try lia; try congruence.
Qed.

Lemma index_status_decision_list_witness :
  is_counter 100 /\ is_counter 1000 /\ is_counter 50 /\
  exists ratio : float,
    int_true_div 50 (Z.max 1000 1) = Ok ratio /\
    (_get_index_status (VInt 100) (VInt 1000) (VInt 50) VNone = Ok "INEFFICIENT"
     <-> (10 <= 100)%Z /\ num_lt (NFloat ratio) (NFloat f0_1) = true).
Proof.
  assert (C1 : is_counter 100) by (unfold is_counter; split; [lia | reflexivity]).
  assert (C2 : is_counter 1000) by (unfold is_counter; split; [lia | reflexivity]).
  assert (C3 : is_counter 50) by (unfold is_counter; split; [lia | reflexivity]).
  repeat (split; [assumption |]).
  destruct (proj1 index_status_decision_list 100%Z 1000%Z 50%Z VNone C1 C2 C3)
    as (ratio & D & _ & _ & I & _).
  exists ratio. split; [exact D | exact I].
Defined.

(** C6, as the code has it.  The three threshold classifiers coerce
    their argument with [float()], falling back to [0.0] when the
    conversion raises, and answer one of their three labels on every
    argument.  The index status classifier coerces each counter with
    [int()] instead (truncation, fallback [0]) and answers one of its
    four labels on every argument whose integer coercion is within the
    range of a double: every float (NaN, infinities and negatives
    included), [None], every bool and container, and every string but
    an integer numeral beyond that range. *)
Theorem classifiers_total :
  (forall (value : pyval) (w c : pynum),
     _get_status_indicator value w c =
       _get_status_indicator (VFloat (float_or_zero value)) w c /\
     In (_get_status_indicator value w c) ["CRITICAL"; "WARNING"; "GOOD"]) /\
  (forall (value : pyval) (w c : pynum),
     _status_higher_is_better value w c =
       _status_higher_is_better (VFloat (float_or_zero value)) w c /\
     In (_status_higher_is_better value w c)
        ["CRITICAL"; "WARNING"; "EXCELLENT"]) /\
  (forall (value : pyval) (w c : pynum),
     _status_count value w c =
       _status_count (VFloat (float_or_zero value)) w c /\
     In (_status_count value w c) ["CRITICAL"; "WARNING"; "GOOD"]) /\
  (forall scans tuples_read tuples_fetched size_bytes : pyval,
     within_float_range tuples_fetched = true ->
     _get_index_status scans tuples_read tuples_fetched size_bytes =
       _get_index_status (VInt (int_or_zero scans))
                         (VInt (int_or_zero tuples_read))
                         (VInt (int_or_zero tuples_fetched)) size_bytes /\
     exists l, In l ["UNUSED"; "LOW USE"; "INEFFICIENT"; "ACTIVE"] /\
               _get_index_status scans tuples_read tuples_fetched size_bytes
                 = Ok l).
Proof.
  split; [| split; [| split]].
  - intros value w c. split; [reflexivity |].
    unfold _get_status_indicator. label_cases; simpl; tauto.
  - intros value w c. split; [reflexivity |].
    unfold _status_higher_is_better. label_cases; simpl; tauto.
  - intros value w c. split; [reflexivity |].
    unfold _status_count. label_cases; simpl; tauto.
  - intros scans tuples_read tuples_fetched size_bytes H. split.
    + apply index_status_coerces_to_int.
    + apply index_status_labels; assumption.
Qed.

Lemma classifiers_total_witness :
  within_float_range (VFloat (finf false)) = true /\
  exists l, In l ["UNUSED"; "LOW USE"; "INEFFICIENT"; "ACTIVE"] /\
            _get_index_status (VInt 12) (VFloat fnan) (VFloat (finf false)) VNone
              = Ok l.
Proof.
  split; [reflexivity |].
  apply (proj2 (proj2 (proj2 (proj2 classifiers_total))
                  (VInt 12) (VFloat fnan) (VFloat (finf false)) VNone
                  eq_refl)).
Defined.

(** Beyond the range of a double the division of the index status is
    not guarded. *)
Example index_status_overflow :
  _get_index_status (VInt 10) (VInt 1) (VInt (10 ^ 400)) VNone
    = Raise OverflowError.
Proof. vm_compute. reflexivity. Qed.

(** C6, as the specification words it, fails on the index status: a
    scan count of [0.5] coerced to float is non-zero and below ten,
    hence LOW USE, while the code truncates it to the int [0] and
    answers UNUSED. *)
Lemma index_status_not_float_coerced :
  ~ (forall scans tuples_read tuples_fetched size_bytes : pyval,
       _get_index_status scans tuples_read tuples_fetched size_bytes =
       Ok (index_status_on_floats scans tuples_read tuples_fetched)).
Proof.
  intros H.
  specialize (H (VFloat (lit 5 (-1))) (VInt 100) (VInt 50) VNone).
  vm_compute in H. discriminate H.
Qed.

End ClassifierFacts.

(* ================================================================= *)
(** ** Properties of the database probes and of the report *)

Module ProbeFacts.
Import Py Text Run Host Probes Scenarios.
Local Open Scope string_scope.
Local Open Scope list_scope.

(** *** Keys of dictionaries *)

Lemma keys_dict_set (d : dict) (k : string) (v : pyval) :
  keys (dict_set d k v) = keys_set (keys d) k.
Proof.
  induction d as [| [k' v'] d IH]; [reflexivity |].
  cbn [dict_set keys keys_set map fst].
  destruct (k' =? k)%string; [reflexivity |].
  cbn [map fst]. f_equal. exact IH.
Qed.

Lemma keys_fold_set (b a : dict) :
  keys (fold_left (fun d kv => dict_set d (fst kv) (snd kv)) b a) =
  fold_left keys_set (keys b) (keys a).
Proof.
  revert a. induction b as [| [k v] b IH]; intros a; [reflexivity |].
  cbn [fold_left keys map fst snd]. rewrite IH, keys_dict_set. reflexivity.
Qed.

Lemma keys_dict_merge (a b : dict) :
  keys (dict_merge a b) =
  fold_left keys_set (keys b) (fold_left keys_set (keys a) []).
Proof.
  unfold dict_merge. rewrite !keys_fold_set. reflexivity.
Qed.

(** *** Steps of a computation *)

Lemma mbind_step {A B} (c : M A) (k : A -> M B) (tr tr1 : trace) (a : A) :
  c tr = (Ok a, tr1) -> mbind c k tr = k a tr1.
Proof. intros H. unfold mbind. rewrite H. reflexivity. Qed.

Lemma mbind_ok {A B} (c : M A) (k : A -> M B) (tr tr2 : trace) (b : B) :
  mbind c k tr = (Ok b, tr2) ->
  exists a tr1, c tr = (Ok a, tr1) /\ k a tr1 = (Ok b, tr2).
Proof.
  unfold mbind. destruct (c tr) as [[a | e] tr1]; [| discriminate].
  intros H. exists a, tr1. auto.
Qed.

Lemma yields_ret {A} (P : A -> Prop) (a : A) : P a -> yields P (ret a).
Proof. intros H tr a' tr1 [= <- _]. exact H. Qed.

Lemma yields_bind {A B} (P : B -> Prop) (c : M A) (k : A -> M B) :
  (forall a, yields P (k a)) -> yields P (mbind c k).
Proof.
  intros H tr b tr2 E. apply mbind_ok in E.
  destruct E as (a & tr1 & _ & E). exact (H a _ _ _ E).
Qed.

Lemma yields_try {A} (P : A -> Prop) (c : M A) (h : exn -> M A) :
  yields P c -> (forall e, yields P (h e)) -> yields P (try_except c h).
Proof.
  intros Hc Hh tr a tr2. unfold try_except.
  destruct (c tr) as [[a' | e] tr1] eqn:E.
  - intros [= <- <-]. exact (Hc _ _ _ E).
  - apply Hh.
Qed.

(** A guarded block always returns. *)
Lemma try_except_returns {A} (c : M A) (d : A) (l : exn -> line) (tr : trace) :
  exists a tr1,
    try_except c (fun e => mbind (emit (Print (l e))) (fun _ => ret d)) tr
      = (Ok a, tr1).
Proof.
  unfold try_except. destruct (c tr) as [[a | e] tr1]; eexists _, _; reflexivity.
Qed.

Ltac yields_steps :=
  repeat first
    [ apply yields_bind; intros ?
    | match goal with
      | |- yields _ (let '(_, _) := ?x in _) => destruct x
      end ].

(** *** One-statement probes *)

Lemma fetch_all_of_ok (w : world) (p : probe) (q : stmt) (rows : list row)
  (tr : trace) :
  db_connect w p = Ok tt -> db_execute w q = Ok rows ->
  fetch_all_of w p q tr = (Ok (fetchall rows), tr ++ [DbConnect p; DbExecute q]).
Proof.
  intros C E. unfold fetch_all_of, get_connection, execute, mbind, emit, lift, ret.
  rewrite C, E, <- app_assoc. reflexivity.
Qed.

Lemma fetch_all_of_inv (w : world) (p : probe) (q : stmt) (v : pyval)
  (tr tr1 : trace) :
  fetch_all_of w p q tr = (Ok v, tr1) ->
  db_connect w p = Ok tt /\ exists rows, db_execute w q = Ok rows.
Proof.
  unfold fetch_all_of, get_connection, execute, mbind, emit, lift, ret.
  destruct (db_connect w p) as [[] | e]; [| discriminate].
  destruct (db_execute w q) as [rows | e]; [| discriminate].
  intros _. split; [reflexivity | exists rows; reflexivity].
Qed.

Lemma total_cache_ok (w : world) (rows : list row) (tr : trace) :
  db_connect w PCacheTotal = Ok tt -> db_execute w SqlCacheTotal = Ok rows ->
  get_total_cache_hit_ratio w tr =
  (Ok (fetchone rows), tr ++ [DbConnect PCacheTotal; DbExecute SqlCacheTotal]).
Proof.
  intros C E.
  unfold get_total_cache_hit_ratio, get_connection, execute, mbind, emit, lift, ret.
  rewrite C, E, <- app_assoc. reflexivity.
Qed.

Lemma total_cache_inv (w : world) (v : pyval) (tr tr1 : trace) :
  get_total_cache_hit_ratio w tr = (Ok v, tr1) ->
  db_connect w PCacheTotal = Ok tt /\
  exists rows, db_execute w SqlCacheTotal = Ok rows.
Proof.
  unfold get_total_cache_hit_ratio, get_connection, execute, mbind, emit, lift, ret.
  destruct (db_connect w PCacheTotal) as [[] | e]; [| discriminate].
  destruct (db_execute w SqlCacheTotal) as [rows | e]; [| discriminate].
  intros _. split; [reflexivity | exists rows; reflexivity].
Qed.

(** *** The CPU/RAM section *)

Lemma remote_metrics_keys (w : world) (db : config) :
  yields (fun d => keys d = keys zero_metrics) (_get_remote_system_metrics w db).
Proof.
  unfold _get_remote_system_metrics. apply yields_try.
  - unfold remote_body. yields_steps. apply yields_ret. reflexivity.
  - intros e. yields_steps. apply yields_ret. reflexivity.
Qed.

Lemma postgres_metrics_keys (w : world) :
  yields (fun d => keys d = keys postgres_fallback)
         (get_postgres_server_metrics w).
Proof.
  unfold get_postgres_server_metrics. apply yields_try.
  - unfold postgres_body. yields_steps. apply yields_ret. reflexivity.
  - intros e. yields_steps. apply yields_ret. reflexivity.
Qed.

Lemma local_metrics_keys (w : world) :
  yields (fun d => keys d = keys zero_metrics) (local_metrics w).
Proof.
  unfold local_metrics. yields_steps. apply yields_ret. reflexivity.
Qed.

Lemma gib_div_ok (z : Z) :
  (Z.abs z < overflow_bound)%Z ->
  int_true_div z (1024 ^ 3) = Ok (rn_div z (1024 ^ 3)).
Proof.
  intros H. unfold int_true_div.
  change (1024 ^ 3 =? 0)%Z with false. cbv beta iota.
  destruct (Z.leb_spec (overflow_bound * Z.abs (1024 ^ 3)) (Z.abs z))
    as [L | _]; [| reflexivity].
  exfalso. change (Z.abs (1024 ^ 3)) with 1073741824%Z in L.
  revert H L. generalize overflow_bound. intros; lia.
Qed.

Lemma local_metrics_returns (w : world) (tr : trace) :
  local_readings_ok w -> exists d, local_metrics w tr = (Ok d, tr).
Proof.
  intros H. unfold local_metrics, mbind, lift, ret.
  destruct (H 1%nat) as (T & _ & _).
  destruct (H 2%nat) as (_ & U & _).
  destruct (H 3%nat) as (_ & _ & A).
  rewrite (gib_div_ok _ T), (gib_div_ok _ U), (gib_div_ok _ A).
  eexists. reflexivity.
Qed.

Lemma cpu_ram_keys_of (w : world) (db : config) :
  yields (fun d => keys d = cpu_ram_keys) (get_cpu_ram_usage w db).
Proof.
  intros tr d tr2 E. unfold get_cpu_ram_usage in E.
  apply mbind_ok in E. destruct E as (sys & tr1 & S & E).
  apply mbind_ok in E. destruct E as (pg & tr1' & P & E).
  injection E as <- _.
  apply postgres_metrics_keys in P.
  assert (K : keys sys = keys zero_metrics).
  { destruct (_is_localhost_connection db).
    - eapply local_metrics_keys; eassumption.
    - eapply remote_metrics_keys; eassumption. }
  rewrite keys_dict_merge, K, P. reflexivity.
Qed.

Lemma cpu_ram_returns (w : world) (db : config) (tr : trace) :
  (_is_localhost_connection db = true -> local_readings_ok w) ->
  exists d tr1, get_cpu_ram_usage w db tr = (Ok d, tr1).
Proof.
  intros H. unfold get_cpu_ram_usage.
  assert (exists sys tr1,
             (if _is_localhost_connection db then local_metrics w
              else _get_remote_system_metrics w db) tr = (Ok sys, tr1))
    as (sys & tr1 & S).
  { destruct (_is_localhost_connection db).
    - destruct (local_metrics_returns w tr (H eq_refl)) as [d E].
      exists d, tr. exact E.
    - apply try_except_returns. }
  rewrite (mbind_step _ _ _ _ _ S).
  destruct (try_except_returns (postgres_body w) postgres_fallback
                               WarnPostgresMetrics tr1) as (pg & tr2 & P).
  fold (get_postgres_server_metrics w) in P.
  rewrite (mbind_step _ _ _ _ _ P).
  eexists _, _. reflexivity.
Qed.

(** C9.  The server-metrics half of the CPU/RAM probe returns on every
    run and never raises.  When the connection or one of its two
    statements fails it returns the fallback record, with size "N/A"
    and the five numbers 0, after one warning; so the merged CPU/RAM
    section always has its eleven keys. *)
Theorem server_metrics_never_raise (w : world) (tr : trace) :
  let fallback : dict :=
    [("postgres_db_size", VStr "N/A");
     ("postgres_shared_buffers_mb", VInt 0);
     ("postgres_work_mem_mb", VInt 0);
     ("postgres_maintenance_work_mem_mb", VInt 0);
     ("postgres_active_connections", VInt 0);
     ("postgres_active_queries", VInt 0)] in
  (exists d tr1,
     get_postgres_server_metrics w tr = (Ok d, tr1) /\
     keys d = keys fallback) /\
  (forall e,
     db_connect w PPostgresMetrics = Raise e ->
     get_postgres_server_metrics w tr =
     (Ok fallback,
      tr ++ [DbConnect PPostgresMetrics; Print (WarnPostgresMetrics e)])) /\
  (forall e,
     db_connect w PPostgresMetrics = Ok tt ->
     db_execute w SqlServerSettings = Raise e ->
     get_postgres_server_metrics w tr =
     (Ok fallback,
      tr ++ [DbConnect PPostgresMetrics; DbExecute SqlServerSettings;
             Print (WarnPostgresMetrics e)])) /\
  (forall e rows,
     db_connect w PPostgresMetrics = Ok tt ->
     db_execute w SqlServerSettings = Ok rows ->
     db_execute w SqlActivity = Raise e ->
     get_postgres_server_metrics w tr =
     (Ok fallback,
      tr ++ [DbConnect PPostgresMetrics; DbExecute SqlServerSettings;
             DbExecute SqlActivity; Print (WarnPostgresMetrics e)])) /\
  (forall db,
     (_is_localhost_connection db = true -> local_readings_ok w) ->
     exists d tr1,
       get_cpu_ram_usage w db tr = (Ok d, tr1) /\
       keys d =
       ["system_cpu_percent"; "system_ram_percent"; "system_ram_total_gb";
        "system_ram_used_gb"; "system_ram_available_gb";
        "postgres_db_size"; "postgres_shared_buffers_mb";
        "postgres_work_mem_mb"; "postgres_maintenance_work_mem_mb";
        "postgres_active_connections"; "postgres_active_queries"]).
Proof.
  intros fallback.
  split; [| split; [| split; [| split]]].
  - destruct (try_except_returns (postgres_body w) postgres_fallback
                                 WarnPostgresMetrics tr) as (d & tr1 & P).
    fold (get_postgres_server_metrics w) in P.
    exists d, tr1. split; [exact P |].
    exact (postgres_metrics_keys w _ _ _ P).
  - intros e C.
    unfold get_postgres_server_metrics, try_except, postgres_body,
      get_connection, execute, mbind, emit, lift, ret.
    rewrite C, <- !app_assoc. reflexivity.
  - intros e C S.
    unfold get_postgres_server_metrics, try_except, postgres_body,
      get_connection, execute, mbind, emit, lift, ret.
    rewrite C, S, <- !app_assoc. reflexivity.
  - intros e rows C S A.
    unfold get_postgres_server_metrics, try_except, postgres_body,
      get_connection, execute, mbind, emit, lift, ret.
    rewrite C, S, A, <- !app_assoc. reflexivity.
  - intros db L.
    destruct (cpu_ram_returns w db tr L) as (d & tr1 & E).
    exists d, tr1. split; [exact E |].
    exact (cpu_ram_keys_of w db _ _ _ E).
Qed.

Lemma server_metrics_never_raise_witness :
  db_connect database_down PPostgresMetrics = Raise OperationalError /\
  get_postgres_server_metrics database_down [] =
  (Ok [("postgres_db_size", VStr "N/A");
       ("postgres_shared_buffers_mb", VInt 0);
       ("postgres_work_mem_mb", VInt 0);
       ("postgres_maintenance_work_mem_mb", VInt 0);
       ("postgres_active_connections", VInt 0);
       ("postgres_active_queries", VInt 0)],
   [] ++ [DbConnect PPostgresMetrics;
          Print (WarnPostgresMetrics OperationalError)]).
Proof.
  split; [reflexivity |].
  apply (proj1 (proj2 (server_metrics_never_raise database_down []))
               OperationalError).
  reflexivity.
Defined.

(** *** The report *)

Lemma unguarded_probe_returns (w : world) (p : probe) (q : stmt) (tr : trace) :
  unguarded_succeed w -> In (p, q) unguarded ->
  exists v tr1, fetch_all_of w p q tr = (Ok v, tr1).
Proof.
  intros U I. destruct (U p q I) as (C & rows & E).
  eexists _, _. apply fetch_all_of_ok; eassumption.
Qed.

Ltac in_unguarded := unfold unguarded; simpl; tauto.

Ltac step_with H :=
  let v := fresh "v" in
  let tr' := fresh "tr" in
  let E := fresh "E" in
  destruct H as (v & tr' & E); rewrite (mbind_step _ _ _ _ _ E).

Lemma cache_hit_returns (w : world) (tr : trace) :
  unguarded_succeed w -> exists v tr1, get_cache_hit_ratio w tr = (Ok v, tr1).
Proof.
  intros U. unfold get_cache_hit_ratio.
  destruct (U PCacheTotal SqlCacheTotal ltac:(in_unguarded)) as (C & rows & E).
  rewrite (mbind_step _ _ _ _ _ (total_cache_ok w rows tr C E)).
  unfold get_per_table_cache_hit_ratio, get_index_heap_ratio.
  step_with (unguarded_probe_returns w PCachePerTable SqlCachePerTable
               (tr ++ [DbConnect PCacheTotal; DbExecute SqlCacheTotal]) U
               ltac:(in_unguarded)).
  step_with (unguarded_probe_returns w PIndexHeap SqlIndexHeap tr0 U
               ltac:(in_unguarded)).
  eexists _, _. reflexivity.
Qed.

Lemma storage_returns (w : world) (tr : trace) :
  unguarded_succeed w -> exists v tr1, get_storage_usage w tr = (Ok v, tr1).
Proof.
  intros U. unfold get_storage_usage, get_database_storage, get_table_storage,
              get_index_storage, get_index_usage.
  step_with (unguarded_probe_returns w PDbStorage SqlDbStorage tr U
               ltac:(in_unguarded)).
  step_with (unguarded_probe_returns w PTableStorage SqlTableStorage tr0 U
               ltac:(in_unguarded)).
  step_with (unguarded_probe_returns w PIndexStorage SqlIndexStorage tr1 U
               ltac:(in_unguarded)).
  step_with (unguarded_probe_returns w PIndexUsage SqlIndexUsage tr2 U
               ltac:(in_unguarded)).
  eexists _, _. reflexivity.
Qed.

Lemma main_returns (w : world) (db : config) (tr : trace) :
  unguarded_succeed w ->
  (_is_localhost_connection db = true -> local_readings_ok w) ->
  exists report tr1, main w db tr = (Ok report, tr1).
Proof.
  intros U L. unfold main, get_long_queries, get_frequent_queries,
                get_replication_delay.
  step_with (unguarded_probe_returns w PLongQueries (SqlLongQueries 600 10)
               tr U ltac:(in_unguarded)).
  step_with (unguarded_probe_returns w PFrequentQueries (SqlFrequentQueries 10)
               tr0 U ltac:(in_unguarded)).
  step_with (cpu_ram_returns w db tr1 L).
  step_with (cache_hit_returns w tr2 U).
  step_with (storage_returns w tr3 U).
  step_with (unguarded_probe_returns w PReplication SqlReplication
               tr4 U ltac:(in_unguarded)).
  eexists _, _. reflexivity.
Qed.

Ltac invert_bind H :=
  let a := fresh "a" in
  let tr' := fresh "tr" in
  let P := fresh "P" in
  apply mbind_ok in H; destruct H as (a & tr' & P & H).

Lemma main_inv (w : world) (db : config) (tr tr1 : trace) (report : dict) :
  main w db tr = (Ok report, tr1) ->
  keys report = section_names /\ unguarded_succeed w.
Proof.
  intros H. unfold main in H.
  invert_bind H. invert_bind H. invert_bind H.
  invert_bind H. invert_bind H. invert_bind H.
  injection H as <- _. split; [reflexivity |].
  unfold get_cache_hit_ratio in P2.
  invert_bind P2. invert_bind P2. invert_bind P2. clear P2.
  unfold get_storage_usage in P3.
  invert_bind P3. invert_bind P3. invert_bind P3. invert_bind P3. clear P3.
  repeat match goal with
         | H : fetch_all_of _ _ _ _ = _ |- _ => apply fetch_all_of_inv in H
         | H : get_long_queries _ _ _ _ = _ |- _ =>
             unfold get_long_queries in H
         | H : get_frequent_queries _ _ _ = _ |- _ =>
             unfold get_frequent_queries in H
         | H : get_replication_delay _ _ = _ |- _ =>
             unfold get_replication_delay in H
         | H : get_per_table_cache_hit_ratio _ _ = _ |- _ =>
             unfold get_per_table_cache_hit_ratio in H
         | H : get_index_heap_ratio _ _ = _ |- _ =>
             unfold get_index_heap_ratio in H
         | H : get_database_storage _ _ = _ |- _ =>
             unfold get_database_storage in H
         | H : get_table_storage _ _ = _ |- _ =>
             unfold get_table_storage in H
         | H : get_index_storage _ _ = _ |- _ =>
             unfold get_index_storage in H
         | H : get_index_usage _ _ = _ |- _ =>
             unfold get_index_usage in H
         | H : get_total_cache_hit_ratio _ _ = _ |- _ =>
             apply total_cache_inv in H
         end.
  intros p q I. unfold unguarded in I. simpl in I.
  repeat match goal with
         | H : _ \/ _ |- _ => destruct H
         | H : (_, _) = (_, _) |- _ => injection H as <- <-
         end;
    try assumption; contradiction.
Qed.

(** C1, as the code has it.  A failure inside the CPU/RAM probe is
    absorbed there, so whenever the statements of the other five
    probes succeed the run returns a report with exactly the six
    sections in order; and a report that is returned always has these
    six sections.  Those five probes are unguarded: a report is only
    returned when all their statements succeed, and a failure of the
    first one leaves [main] by its exception, before any other probe
    is started. *)
Theorem report_assembly (w : world) (db : config) (tr : trace) :
  (unguarded_succeed w ->
   (_is_localhost_connection db = true -> local_readings_ok w) ->
   exists report tr1,
     main w db tr = (Ok report, tr1) /\
     keys report =
     ["Long Queries"; "Frequent Queries"; "CPU/RAM Usage"; "Cache Hit Ratio";
      "Storage Usage"; "Replication Delay"]) /\
  (forall report tr1,
     main w db tr = (Ok report, tr1) ->
     keys report =
     ["Long Queries"; "Frequent Queries"; "CPU/RAM Usage"; "Cache Hit Ratio";
      "Storage Usage"; "Replication Delay"] /\
     unguarded_succeed w) /\
  (forall e,
     db_connect w PLongQueries = Raise e ->
     main w db tr = (Raise e, tr ++ [DbConnect PLongQueries])) /\
  (forall e,
     db_connect w PLongQueries = Ok tt ->
     db_execute w (SqlLongQueries 600 10) = Raise e ->
     main w db tr =
     (Raise e, tr ++ [DbConnect PLongQueries;
                      DbExecute (SqlLongQueries 600 10)])).
Proof.
  split; [| split; [| split]].
  - intros U L. destruct (main_returns w db tr U L) as (report & tr1 & E).
    exists report, tr1. split; [exact E |].
    exact (proj1 (main_inv _ _ _ _ _ E)).
  - intros report tr1 E. exact (main_inv _ _ _ _ _ E).
  - intros e C.
    unfold main, get_long_queries, fetch_all_of, get_connection, mbind,
      emit, lift.
    rewrite C. reflexivity.
  - intros e C E.
    unfold main, get_long_queries, fetch_all_of, get_connection, execute,
      mbind, emit, lift.
    rewrite C, E, <- app_assoc. reflexivity.
Qed.

Lemma report_assembly_witness :
  db_connect no_statements_extension PLongQueries = Ok tt /\
  db_execute no_statements_extension (SqlLongQueries 600 10)
    = Raise ProgrammingError /\
  main no_statements_extension remote_config [] =
  (Raise ProgrammingError,
   [] ++ [DbConnect PLongQueries; DbExecute (SqlLongQueries 600 10)]).
Proof.
  split; [reflexivity |]. split; [reflexivity |].
  apply (proj2 (proj2 (proj2
           (report_assembly no_statements_extension remote_config [])))
           ProgrammingError);
    reflexivity.
Defined.

(** C1, as the specification words it, fails: on a database without
    the [pg_stat_statements] extension the first probe raises, no
    report with the six sections is assembled, and no later probe is
    started. *)
Lemma probe_failure_aborts_run :
  ~ (forall (w : world) (db : config) (tr : trace),
       exists report tr1,
         main w db tr = (Ok report, tr1) /\ keys report = section_names).
Proof.
  intros H.
  destruct (H no_statements_extension remote_config [])
    as (report & tr1 & E & _).
  vm_compute in E. discriminate E.
Qed.

End ProbeFacts.

(* ================================================================= *)
(** ** Properties of the renderer's helpers *)

Module RenderFacts.
Import Py Text Run Classifier Render.
Local Open Scope string_scope.
Local Open Scope list_scope.

(** *** Query text *)

Lemma list_ascii_of_append (a b : string) :
  list_ascii_of_string (a ++ b)%string =
  list_ascii_of_string a ++ list_ascii_of_string b.
Proof.
  induction a as [| c a IH]; [reflexivity |].
  cbn [String.append list_ascii_of_string app]. rewrite IH. reflexivity.
Qed.

Lemma count_down_bounds (start : Z) (n : nat) (i : Z) :
  In i (count_down start n) -> (start - Z.of_nat n < i <= start)%Z.
Proof.
  revert start. induction n as [| n IH]; intros start; [intros [] |].
  cbn [count_down In]. intros [<- | H]; [lia |].
  apply IH in H. lia.
Qed.

Lemma char_at_in_range (q : list ascii) (i : Z) :
  (0 <= i < Z.of_nat (List.length q))%Z -> exists c, char_at q i = Ok c.
Proof.
  intros H. unfold char_at.
  destruct (Z.ltb_spec i 0) as [L | _]; [lia |].
  destruct (Z.leb_spec 0 i) as [_ | L]; [| lia].
  destruct (Z.ltb_spec i (Z.of_nat (List.length q))) as [_ | L]; [| lia].
  cbn [andb].
  destruct (nth_error q (Z.to_nat i)) as [c |] eqn:E; [eauto |].
  apply nth_error_None in E. lia.
Qed.

(** Leaving the loop below the first index never raises the break
    point above that index plus one. *)
Lemma find_break_below (q : list ascii) (bp start : Z) (n : nat) :
  (0 <= start - Z.of_nat n)%Z -> (start < Z.of_nat (List.length q))%Z ->
  exists r, find_break q bp (count_down start n) = Ok r /\
            (r = bp \/ r <= start + 1)%Z.
Proof.
  revert start. induction n as [| n IH]; intros start L U.
  - exists bp. split; [reflexivity | left; reflexivity].
  - cbn [count_down find_break].
    destruct (char_at_in_range q start ltac:(lia)) as [c ->]. cbn [bind].
    destruct (code c =? 59)%Z; [eexists; split; [reflexivity | right; lia] |].
    destruct ((code c =? 41) || (code c =? 93) || (code c =? 125))%Z;
      [eexists; split; [reflexivity | right; lia] |].
    destruct ((code c =? 32) && (bp - 20 <? start))%Z;
      [eexists; split; [reflexivity | right; lia] |].
    destruct (IH (start - 1)%Z ltac:(lia) ltac:(lia)) as (r & E & B).
    exists r. split; [exact E |]. destruct B; [left; assumption | right; lia].
Qed.

(** The loop started at the break point itself. *)
Lemma find_break_at (q : list ascii) (bp : Z) (n : nat) :
  (0 <= bp - Z.of_nat n)%Z -> (bp < Z.of_nat (List.length q))%Z ->
  exists r, find_break q bp (count_down bp n) = Ok r /\
    ((r <= bp)%Z \/
     (r = bp + 1)%Z /\ n <> O /\
       exists c, char_at q bp = Ok c /\ closes c = true).
Proof.
  intros L U. destruct n as [| n].
  - exists bp. split; [reflexivity | left; lia].
  - cbn [count_down find_break].
    destruct (char_at_in_range q bp ltac:(lia)) as [c E]. rewrite E.
    cbn [bind].
    destruct (code c =? 59)%Z eqn:S.
    { eexists. split; [reflexivity |]. right. split; [reflexivity |].
      split; [discriminate |]. exists c. split; [reflexivity |].
      unfold closes. rewrite S. reflexivity. }
    destruct ((code c =? 41) || (code c =? 93) || (code c =? 125))%Z eqn:P.
    { eexists. split; [reflexivity |]. right. split; [reflexivity |].
      split; [discriminate |]. exists c. split; [reflexivity |].
      unfold closes. rewrite S. cbn [orb]. exact P. }
    destruct ((code c =? 32) && (bp - 20 <? bp))%Z;
      [eexists; split; [reflexivity | left; lia] |].
    destruct (find_break_below q bp (bp - 1)%Z n ltac:(lia) ltac:(lia))
      as (r & F & B).
    exists r. split; [exact F |]. left. lia.
Qed.

(** The break point used for the cut. *)
Lemma format_query_break (q : list ascii) (max_length : Z) :
  (max_length < Z.of_nat (List.length q))%Z ->
  exists r,
    find_break q (max_length - 50)
      (range_down (max_length - 50) (Z.max 0 (max_length - 50 - 100))) = Ok r /\
    ((r <= max_length - 50)%Z \/
     (r = max_length - 49 /\ 50 < max_length)%Z /\
       exists c, char_at q (max_length - 50) = Ok c /\ closes c = true).
Proof.
  intros H. unfold range_down.
  set (bp := (max_length - 50)%Z).
  set (k := Z.to_nat (bp - Z.max 0 (bp - 100))).
  destruct (Z.le_gt_cases bp 0) as [NP | P].
  - replace k with O by (unfold k; lia).
    exists bp. split; [reflexivity | left; lia].
  - destruct (find_break_at q bp k) as (r & E & B).
    { unfold k. lia. }
    { unfold bp. lia. }
    exists r. split; [exact E |].
    destruct B as [B | (-> & K & c & C & Cl)]; [left; exact B |].
    right. unfold bp in *. split; [lia |]. exists c. auto.
Qed.

Lemma slice_to_length (q : list ascii) (cut : Z) :
  (0 <= cut <= Z.of_nat (List.length q))%Z ->
  Z.of_nat (List.length (slice_to q cut)) = cut.
Proof.
  intros H. unfold slice_to.
  destruct (Z.leb_spec 0 cut); [| lia].
  rewrite firstn_length_le by lia. lia.
Qed.

(** The loop started at the break point itself, exactly: it leaves
    above the break point if and only if the character there is one of
    the four closing ones. *)
Lemma find_break_first (q : list ascii) (bp : Z) (n : nat) :
  (0 <= bp - Z.of_nat (S n))%Z -> (bp < Z.of_nat (List.length q))%Z ->
  exists c r,
    char_at q bp = Ok c /\
    find_break q bp (count_down bp (S n)) = Ok r /\
    (if closes c then r = bp + 1 else r <= bp)%Z.
Proof.
  intros L U. cbn [count_down find_break].
  destruct (char_at_in_range q bp ltac:(lia)) as [c E]. rewrite E.
  cbn [bind]. exists c. unfold closes.
  destruct (code c =? 59)%Z.
  { eexists. split; [reflexivity |]. split; reflexivity. }
  cbn [orb].
  destruct ((code c =? 41) || (code c =? 93) || (code c =? 125))%Z.
  { eexists. split; [reflexivity |]. split; reflexivity. }
  destruct ((code c =? 32) && (bp - 20 <? bp))%Z.
  { eexists. split; [reflexivity |]. split; [reflexivity | lia]. }
  destruct (find_break_below q bp (bp - 1)%Z n ltac:(lia) ltac:(lia))
    as (r & F & B).
  exists r. split; [reflexivity |]. split; [exact F | lia].
Qed.

(** X1.  [_format_query_for_table] never raises.  A query of at most
    [max_length] characters is returned as it is.  A longer one is cut
    and the mark ["... [truncated]"] is appended; the cut is after the
    first [max_length - 49] characters exactly when [max_length > 50]
    and the character at index [max_length - 50] is one of [;], [)],
    [\]] and [}], and after the first [max_length - 50] characters in
    every other case: the backward search for a break point never
    shortens the cut. *)
Theorem format_query_cut (query : string) (max_length : Z) :
  let q := list_ascii_of_string query in
  let n := Z.of_nat (List.length q) in
  ((n <= max_length)%Z -> _format_query_for_table query max_length = Ok query) /\
  ((max_length < n)%Z ->
   let at_closing :=
     (50 <? max_length)%Z &&
     match char_at q (max_length - 50) with
     | Ok c => closes c
     | Raise _ => false
     end in
   let cut := (if at_closing then max_length - 49 else max_length - 50)%Z in
   _format_query_for_table query max_length =
     Ok (string_of_list_ascii (slice_to q cut) ++ truncation_mark)%string).
Proof.
  intros q n. unfold _format_query_for_table. fold q. fold n.
  split; intros H.
  - destruct (Z.leb_spec n max_length); [reflexivity | lia].
  - destruct (Z.leb_spec n max_length) as [L | _]; [lia |].
    cbv zeta. unfold range_down.
    set (bp := (max_length - 50)%Z).
    destruct (Z.ltb_spec 50 max_length) as [M | M]; cbn [andb].
    + destruct (Z.to_nat (bp - Z.max 0 (bp - 100))) as [| k] eqn:K;
        [unfold bp in K; lia |].
      destruct (find_break_first q bp k) as (c & r & C & E & B).
      { rewrite <- K. unfold bp. lia. }
      { unfold bp. lia. }
      rewrite E, C. cbn [bind].
      destruct (closes c).
      * subst r. destruct (Z.ltb_spec (bp + 1) bp) as [| _]; [lia |].
        replace (bp + 1)%Z with (max_length - 49)%Z by (unfold bp; lia).
        reflexivity.
      * destruct (Z.ltb_spec r bp) as [_ | G]; [reflexivity |].
        replace r with bp by lia. reflexivity.
    + replace (Z.to_nat (bp - Z.max 0 (bp - 100))) with O
        by (unfold bp; lia).
      cbn [count_down find_break bind].
      rewrite Z.ltb_irrefl. reflexivity.
Qed.

Lemma format_query_cut_witness :
  (60 < Z.of_nat (List.length (list_ascii_of_string
     "select f(x) from some_table where a = 1 and b = 2 and c = 3 order by a")))%Z
  /\
  _format_query_for_table
    "select f(x) from some_table where a = 1 and b = 2 and c = 3 order by a"
    60
  = Ok "select f(x)... [truncated]".
Proof.
  assert (H : (60 < Z.of_nat (List.length (list_ascii_of_string
     "select f(x) from some_table where a = 1 and b = 2 and c = 3 order by a")))%Z)
    by (vm_compute; reflexivity).
  split; [exact H |].
  exact (proj2 (format_query_cut
    "select f(x) from some_table where a = 1 and b = 2 and c = 3 order by a"
    60) H).
Defined.

(** A formatted text is the query, or a cut of it of [max_length - 50]
    or [max_length - 49] characters followed by the mark. *)
Lemma format_query_cases (query s : string) (max_length : Z) :
  _format_query_for_table query max_length = Ok s ->
  let n := Z.of_nat (List.length (list_ascii_of_string query)) in
  (n <= max_length)%Z /\ s = query \/
  (max_length < n)%Z /\
  exists cut, (cut = max_length - 50 \/ cut = max_length - 49)%Z /\
    s = (string_of_list_ascii (slice_to (list_ascii_of_string query) cut)
         ++ truncation_mark)%string.
Proof.
  intros E n. unfold _format_query_for_table in E. fold n in E.
  destruct (Z.leb_spec n max_length) as [L | G].
  - left. split; [exact L | congruence].
  - right. split; [exact G |]. cbv zeta in E.
    destruct (format_query_break _ max_length G) as (r & F & B).
    rewrite F in E. cbn [bind] in E.
    destruct (Z.ltb_spec r (max_length - 50)) as [_ | K].
    + exists (max_length - 50)%Z. split; [left; reflexivity | congruence].
    + exists r. split; [| congruence].
      destruct B as [B | ((-> & _) & _)]; [left; lia | right; reflexivity].
Qed.

(** X2.  For [max_length >= 50] the formatted text has at most
    [max_length] characters, and formatting it again returns it
    unchanged. *)
Theorem format_query_bounded (query s : string) (max_length : Z) :
  (50 <= max_length)%Z ->
  _format_query_for_table query max_length = Ok s ->
  (Z.of_nat (List.length (list_ascii_of_string s)) <= max_length)%Z /\
  _format_query_for_table s max_length = Ok s.
Proof.
  intros M E.
  assert (B : (Z.of_nat (List.length (list_ascii_of_string s)) <= max_length)%Z).
  { destruct (format_query_cases _ _ _ E) as [(L & ->) | (G & cut & C & ->)];
      [exact L |].
    rewrite list_ascii_of_append, list_ascii_of_string_of_list_ascii,
      length_app, Nat2Z.inj_add.
    rewrite slice_to_length by (destruct C as [-> | ->]; lia).
    change (Z.of_nat (List.length (list_ascii_of_string truncation_mark)))
      with 15%Z.
    destruct C as [-> | ->]; lia. }
  split; [exact B |].
  unfold _format_query_for_table.
  destruct (Z.leb_spec (Z.of_nat (List.length (list_ascii_of_string s)))
                       max_length); [reflexivity | lia].
Qed.

Lemma format_query_bounded_witness :
  (50 <= 60)%Z /\
  _format_query_for_table
    "select a, b, c from some_table where a = 1 and b = 2 and c = 3 order by a"
    60
  = Ok "select a, ... [truncated]" /\
  (Z.of_nat (List.length (list_ascii_of_string "select a, ... [truncated]"))
   <= 60)%Z /\
  _format_query_for_table "select a, ... [truncated]" 60
  = Ok "select a, ... [truncated]".
Proof.
  assert (M : (50 <= 60)%Z) by lia.
  assert (E : _format_query_for_table
    "select a, b, c from some_table where a = 1 and b = 2 and c = 3 order by a"
    60 = Ok "select a, ... [truncated]") by (vm_compute; reflexivity).
  split; [exact M |]. split; [exact E |].
  exact (format_query_bounded _ _ 60 M E).
Defined.

(** *** Status colours *)

Ltac label_cases :=
  repeat match goal with
         | |- context [if ?b then _ else _] => destruct b
         end.

Ltac decide_colour :=
  split;
  [ vm_compute; discriminate
  | first [ left; split; reflexivity
          | right; left; split; reflexivity
          | right; right; left; split; reflexivity
          | right; right; right; split; reflexivity ] ].

(** X3.  Every label a classifier returns is one of its own and gets
    a traffic-light colour, never the default black: the threshold
    classifiers return CRITICAL (red), WARNING (orange), GOOD or
    EXCELLENT (green), the index classifier UNUSED (red), LOW USE or
    INEFFICIENT (orange), or ACTIVE (green). *)
Theorem classifier_labels_are_coloured :
  let red := HexColor "#e74c3c" in
  let orange := HexColor "#f39c12" in
  let green := HexColor "#27ae60" in
  (forall (value : pyval) (w c : pynum) (l : string),
     l = _get_status_indicator value w c \/
     l = _status_higher_is_better value w c \/
     l = _status_count value w c ->
     _get_status_color l <> Black /\
     (l = "CRITICAL" /\ _get_status_color l = red \/
      l = "WARNING" /\ _get_status_color l = orange \/
      l = "GOOD" /\ _get_status_color l = green \/
      l = "EXCELLENT" /\ _get_status_color l = green)) /\
  (forall (scans tuples_read tuples_fetched size_bytes : pyval) (l : string),
     _get_index_status scans tuples_read tuples_fetched size_bytes = Ok l ->
     _get_status_color l <> Black /\
     (l = "UNUSED" /\ _get_status_color l = red \/
      l = "LOW USE" /\ _get_status_color l = orange \/
      l = "INEFFICIENT" /\ _get_status_color l = orange \/
      l = "ACTIVE" /\ _get_status_color l = green)).
Proof.
  intros red orange green. split.
  - intros value w c l [-> | [-> | ->]].
    + unfold _get_status_indicator. label_cases; decide_colour.
    + unfold _status_higher_is_better. label_cases; decide_colour.
    + unfold _status_count. label_cases; decide_colour.
  - intros scans tuples_read tuples_fetched size_bytes l E.
    unfold _get_index_status in E.
    repeat match type of E with
           | context [if ?b then _ else _] => destruct b
           end;
      try (injection E as <-; decide_colour).
    destruct (int_true_div _ _) as [ratio | e]; [| discriminate E].
    cbn [bind] in E.
    destruct (num_lt _ _); injection E as <-; decide_colour.
Qed.

Lemma classifier_labels_are_coloured_witness :
  _get_index_status (VInt 100) (VInt 1000) (VInt 50) VNone = Ok "INEFFICIENT" /\
  _get_status_color "INEFFICIENT" <> Black.
Proof.
  assert (E : _get_index_status (VInt 100) (VInt 1000) (VInt 50) VNone
              = Ok "INEFFICIENT") by (vm_compute; reflexivity).
  split; [exact E |].
  exact (proj1 (proj2 classifier_labels_are_coloured
                  (VInt 100) (VInt 1000) (VInt 50) VNone _ E)).
Defined.

End RenderFacts.

(* ================================================================= *)
(** ** Further properties of the classifier *)

Module ClassifierOrder.
Import Py Classifier Observe RoundingFacts.
Local Open Scope string_scope.

(** X4.  An int argument below [2^53] in magnitude is classified by its
    own value against int thresholds [w] and [c]: higher-is-worse (and
    the count classifier, which is the same function) is CRITICAL
    exactly for [n >= c], WARNING exactly for [w <= n < c], GOOD
    otherwise; higher-is-better is CRITICAL exactly for [n <= c],
    WARNING exactly for [c < n <= w], EXCELLENT otherwise. *)
Theorem small_ints_classified_exactly (n w c : Z) :
  (Z.abs n < 2 ^ 53)%Z ->
  let worse := _get_status_indicator (VInt n) (NInt w) (NInt c) in
  let better := _status_higher_is_better (VInt n) (NInt w) (NInt c) in
  _status_count (VInt n) (NInt w) (NInt c) = worse /\
  (worse = "CRITICAL" <-> (c <= n)%Z) /\
  (worse = "WARNING" <-> (w <= n < c)%Z) /\
  (worse = "GOOD" <-> (n < w /\ n < c)%Z) /\
  (better = "CRITICAL" <-> (n <= c)%Z) /\
  (better = "WARNING" <-> (c < n <= w)%Z) /\
  (better = "EXCELLENT" <-> (c < n /\ w < n)%Z).
Proof.
  intros H worse better. split; [reflexivity |].
  unfold worse, better, _get_status_indicator, _status_higher_is_better.
  fold (float_or_zero (VInt n)). rewrite (float_or_zero_small_int n H).
  unfold num_ge, num_le. rewrite !(float_of_Z_compare n _ H).
  destruct (Z.compare_spec n c); destruct (Z.compare_spec n w);
    repeat split; intros; try discriminate; try lia; try reflexivity.
Qed.

Lemma small_ints_classified_exactly_witness :
  (Z.abs 7 < 2 ^ 53)%Z /\
  (_get_status_indicator (VInt 7) (NInt 5) (NInt 10) = "WARNING" <->
   (5 <= 7 < 10)%Z).
Proof.
  assert (H : (Z.abs 7 < 2 ^ 53)%Z) by (vm_compute; reflexivity).
  split; [exact H |].
  exact (proj1 (proj2 (proj2 (small_ints_classified_exactly 7 5 10 H)))).
Defined.

(** *** The order of numbers is transitive *)

Lemma cmp_fin_common (m1 e1 m2 e2 e : Z) :
  (e <= e1)%Z -> (e <= e2)%Z ->
  cmp_fin m1 e1 m2 e2 = (m1 * 2 ^ (e1 - e) ?= m2 * 2 ^ (e2 - e))%Z.
Proof.
  intros H1 H2. unfold cmp_fin. cbv zeta.
  set (e0 := Z.min e1 e2).
  assert (E0 : (e <= e0 /\ e0 <= e1 /\ e0 <= e2)%Z) by (unfold e0; lia).
  replace (e1 - e)%Z with ((e1 - e0) + (e0 - e))%Z by lia.
  replace (e2 - e)%Z with ((e2 - e0) + (e0 - e))%Z by lia.
  rewrite !Z.pow_add_r by lia.
  assert (P : (0 < 2 ^ (e0 - e))%Z) by (apply Z.pow_pos_nonneg; lia).
  revert P.
  generalize (2 ^ (e0 - e))%Z (m1 * 2 ^ (e1 - e0))%Z (m2 * 2 ^ (e2 - e0))%Z
             (2 ^ (e1 - e0))%Z (2 ^ (e2 - e0))%Z.
  intros k a b p1 p2 P.
  rewrite !Z.mul_assoc.
  destruct (Z.compare_spec (m1 * p1) (m2 * p2)) as [E | L | G].
  - rewrite E. symmetry. apply Z.compare_refl.
  - symmetry. apply Z.compare_lt_iff. nia.
  - symmetry. apply Z.compare_gt_iff. nia.
Qed.

Lemma num_le_trans (a b c : pynum) :
  num_le a b = true -> num_le b c = true -> num_le a c = true.
Proof.
  unfold num_le, num_compare.
  destruct (xnum_of a) as [| sa | ma ea], (xnum_of b) as [| sb | mb eb],
    (xnum_of c) as [| sc | mc ec]; cbn [xcompare];
    repeat match goal with
           | s : bool |- _ => destruct s
           end;
    intros H1 H2; try discriminate; try reflexivity.
  set (e := Z.min ea (Z.min eb ec)).
  rewrite (cmp_fin_common ma ea mb eb e) in H1 by (unfold e; lia).
  rewrite (cmp_fin_common mb eb mc ec e) in H2 by (unfold e; lia).
  rewrite (cmp_fin_common ma ea mc ec e) by (unfold e; lia).
  revert H1 H2.
  generalize (ma * 2 ^ (ea - e))%Z (mb * 2 ^ (eb - e))%Z
             (mc * 2 ^ (ec - e))%Z.
  intros x y z.
  destruct (Z.compare_spec x y); try discriminate;
    destruct (Z.compare_spec y z); try discriminate;
    destruct (Z.compare_spec x z); try reflexivity; lia.
Qed.

Lemma num_ge_mono (x y t : pynum) :
  num_le x y = true -> num_ge x t = true -> num_ge y t = true.
Proof.
  rewrite !num_ge_le. intros L G. exact (num_le_trans _ _ _ G L).
Qed.

(** X5.  Classification is monotone in the value, whatever the
    thresholds: a larger value never gets a milder label from the
    higher-is-worse classifier, nor a harsher one from the
    higher-is-better classifier. *)
Theorem classification_is_monotone (x y : float) (w c : pynum) :
  num_le (NFloat x) (NFloat y) = true ->
  (severity (_get_status_indicator (VFloat x) w c)
   <= severity (_get_status_indicator (VFloat y) w c))%nat /\
  (severity (_status_higher_is_better (VFloat y) w c)
   <= severity (_status_higher_is_better (VFloat x) w c))%nat.
Proof.
  intros L. unfold _get_status_indicator, _status_higher_is_better.
  cbn [py_float try_or].
  pose proof (num_ge_mono (NFloat x) (NFloat y) c L) as Gc.
  pose proof (num_ge_mono (NFloat x) (NFloat y) w L) as Gw.
  pose proof (fun H => num_le_trans (NFloat x) (NFloat y) c L H) as Lc.
  pose proof (fun H => num_le_trans (NFloat x) (NFloat y) w L H) as Lw.
  destruct (num_ge (NFloat x) c), (num_ge (NFloat x) w),
    (num_ge (NFloat y) c), (num_ge (NFloat y) w),
    (num_le (NFloat y) c), (num_le (NFloat y) w),
    (num_le (NFloat x) c), (num_le (NFloat x) w);
    try (specialize (Gc eq_refl)); try (specialize (Gw eq_refl));
    try (specialize (Lc eq_refl)); try (specialize (Lw eq_refl));
    try discriminate; split; vm_compute; lia.
Qed.

Lemma classification_is_monotone_witness :
  num_le (NFloat (lit 799 (-1))) (NFloat (lit 873 (-1))) = true /\
  (severity (_get_status_indicator (VFloat (lit 799 (-1))) (NInt 80) (NInt 90))
   <= severity (_get_status_indicator (VFloat (lit 873 (-1)))
                                      (NInt 80) (NInt 90)))%nat.
Proof.
  assert (L : num_le (NFloat (lit 799 (-1))) (NFloat (lit 873 (-1))) = true)
    by (vm_compute; reflexivity).
  split; [exact L |].
  exact (proj1 (classification_is_monotone _ _ (NInt 80) (NInt 90) L)).
Defined.

(** X6.  WARNING needs the thresholds in the right order: when the
    critical threshold is not above the warning threshold, the
    higher-is-worse classifiers never answer WARNING, and when it is
    not below it, the higher-is-better classifier never does. *)
Theorem warning_needs_ordered_thresholds (value : pyval) (w c : pynum) :
  (num_le c w = true ->
   _get_status_indicator value w c <> "WARNING" /\
   _status_count value w c <> "WARNING") /\
  (num_le w c = true ->
   _status_higher_is_better value w c <> "WARNING").
Proof.
  unfold _get_status_indicator, _status_count, _status_higher_is_better.
  set (v := NFloat (try_or (py_float value) fzero)).
  split; intros O.
  - pose proof (fun H => num_le_trans c w v O H) as T.
    rewrite !num_ge_le.
    destruct (num_le c v), (num_le w v); try (specialize (T eq_refl));
      try discriminate; split; discriminate.
  - pose proof (fun H => num_le_trans v w c H O) as T.
    destruct (num_le v c), (num_le v w); try (specialize (T eq_refl));
      discriminate.
Qed.

Lemma warning_needs_ordered_thresholds_witness :
  num_le (NInt 80) (NInt 90) = true /\
  _get_status_indicator (VFloat (lit 85 0)) (NInt 90) (NInt 80) <> "WARNING".
Proof.
  assert (O : num_le (NInt 80) (NInt 90) = true) by (vm_compute; reflexivity).
  split; [exact O |].
  exact (proj1 (proj1 (warning_needs_ordered_thresholds
                         (VFloat (lit 85 0)) (NInt 90) (NInt 80)) O)).
Defined.

End ClassifierOrder.

(* ================================================================= *)
(** ** Connection attempts of a run *)

Module TraceFacts.
Import Py Text Run Host Probes Observe.
Local Open Scope string_scope.
Local Open Scope list_scope.

Lemma connection_attempts_app (a b : trace) :
  connection_attempts (a ++ b) = connection_attempts a ++ connection_attempts b.
Proof.
  induction a as [| ev a IH]; [reflexivity |].
  destruct ev; cbn [connection_attempts app]; rewrite IH; reflexivity.
Qed.

Lemma ssh_events_app (a b : trace) :
  ssh_events (a ++ b) = ssh_events a ++ ssh_events b.
Proof.
  induction a as [| ev a IH]; [reflexivity |].
  destruct ev; cbn [ssh_events app]; rewrite IH; reflexivity.
Qed.

(** *** Computations that make a fixed list of connection attempts *)

Lemma always_ret {A} (a : A) : always_connects [] (ret a).
Proof. intros tr r tr1 [= <- <-]. symmetry. apply app_nil_r. Qed.

Lemma always_lift {A} (x : result A) : always_connects [] (lift x).
Proof. intros tr r tr1 [= <- <-]. symmetry. apply app_nil_r. Qed.

Lemma always_emit (ev : event) :
  (forall p, ev <> DbConnect p) -> always_connects [] (emit ev).
Proof.
  intros N tr r tr1 [= <- <-]. rewrite connection_attempts_app.
  destruct ev; cbn [connection_attempts]; try reflexivity.
  exfalso. eapply N. reflexivity.
Qed.

Lemma always_bind {A B} (ps : list probe) (c : M A) (k : A -> M B) :
  always_connects ps c -> (forall a, always_connects [] (k a)) ->
  always_connects ps (mbind c k).
Proof.
  intros Hc Hk tr r tr1. unfold mbind.
  destruct (c tr) as [[a | e] tr0] eqn:E.
  - intros H. apply Hk in H. apply Hc in E. rewrite H, E, app_nil_r.
    reflexivity.
  - intros [= <- <-]. exact (Hc _ _ _ E).
Qed.

Lemma always_attempt {B} (p : probe) (k : unit -> M B) :
  (forall a, always_connects [] (k a)) ->
  always_connects [p] (mbind (emit (DbConnect p)) k).
Proof.
  intros Hk tr r tr1. unfold mbind, emit. intros H. apply Hk in H.
  rewrite H, connection_attempts_app, app_nil_r. reflexivity.
Qed.

Lemma always_try {A} (ps : list probe) (c : M A) (h : exn -> M A) :
  always_connects ps c -> (forall e, always_connects [] (h e)) ->
  always_connects ps (try_except c h).
Proof.
  intros Hc Hh tr r tr1. unfold try_except.
  destruct (c tr) as [[a | e] tr0] eqn:E.
  - intros [= <- <-]. exact (Hc _ _ _ E).
  - intros H. apply Hh in H. apply Hc in E. rewrite H, E, app_nil_r.
    reflexivity.
Qed.

Lemma always_connect (w : world) (t : ssh_target) :
  always_connects [] (connect w t).
Proof.
  intros tr r tr1. unfold connect.
  destruct (ssh_connect w t); intros [= <- <-];
    rewrite connection_attempts_app; reflexivity.
Qed.

Ltac always_steps :=
  repeat first
    [ apply always_ret
    | apply always_lift
    | apply always_connect
    | apply always_emit; discriminate
    | apply always_bind; [| intros ?]
    | match goal with
      | |- always_connects _ (match ?x with _ => _ end) => destruct x
      | |- always_connects _ (let '(_, _) := ?x in _) => destruct x
      end ].

Lemma always_execute (w : world) (q : stmt) : always_connects [] (execute w q).
Proof. unfold execute. always_steps. Qed.

Lemma always_fetch_all_of (w : world) (p : probe) (q : stmt) :
  always_connects [p] (fetch_all_of w p q).
Proof.
  unfold fetch_all_of, get_connection.
  apply always_bind; [apply always_attempt; intros; apply always_lift |].
  intros _. apply always_bind; [apply always_execute | intros; apply always_ret].
Qed.

Lemma always_total_cache (w : world) :
  always_connects [PCacheTotal] (get_total_cache_hit_ratio w).
Proof.
  unfold get_total_cache_hit_ratio, get_connection.
  apply always_bind; [apply always_attempt; intros; apply always_lift |].
  intros _. apply always_bind; [apply always_execute | intros; apply always_ret].
Qed.

Lemma always_remote (w : world) (db : config) :
  always_connects [] (_get_remote_system_metrics w db).
Proof.
  unfold _get_remote_system_metrics. apply always_try.
  - unfold remote_body, exec_command. always_steps.
  - intros e. always_steps.
Qed.

Lemma always_postgres (w : world) :
  always_connects [PPostgresMetrics] (get_postgres_server_metrics w).
Proof.
  unfold get_postgres_server_metrics. apply always_try.
  - unfold postgres_body, get_connection.
    apply always_bind; [apply always_attempt; intros; apply always_lift |].
    intros _. apply always_bind; [apply always_execute |]. intros rows.
    apply always_bind; [apply always_execute |]. intros rows'.
    always_steps.
  - intros e. always_steps.
Qed.

Lemma always_local (w : world) : always_connects [] (local_metrics w).
Proof. unfold local_metrics. always_steps. Qed.

(** *** Computations that make an initial segment of a list *)

Lemma initial_segment_refl {A} (l : list A) : initial_segment l l.
Proof. exists []. symmetry. apply app_nil_r. Qed.

Lemma connects_of_always {A} (ps : list probe) (c : M A) :
  always_connects ps c -> connects ps c.
Proof.
  intros H tr r tr1 E. exists ps. split; [exact (H _ _ _ E) |].
  split; [apply initial_segment_refl | reflexivity].
Qed.

Lemma connects_ret {A} (a : A) : connects [] (ret a).
Proof. apply connects_of_always, always_ret. Qed.

Lemma connects_bind {A B} (ps1 ps2 : list probe) (c : M A) (k : A -> M B) :
  connects ps1 c -> (forall a, connects ps2 (k a)) -> connects (ps1 ++ ps2) (mbind c k).
Proof.
  intros Hc Hk tr r tr1. unfold mbind.
  destruct (c tr) as [[a | e] tr0] eqn:E.
  - intros H. destruct (Hc _ _ _ E) as (qs1 & S1 & _ & F1).
    rewrite (F1 a eq_refl) in S1.
    destruct (Hk a _ _ _ H) as (qs2 & S2 & [rest I2] & F2).
    exists (ps1 ++ qs2). split; [rewrite S2, S1, app_assoc; reflexivity |].
    split.
    + exists rest. rewrite I2, app_assoc. reflexivity.
    + intros b Hb. rewrite (F2 b Hb). reflexivity.
  - intros [= <- <-]. destruct (Hc _ _ _ E) as (qs1 & S1 & [rest I1] & _).
    exists qs1. split; [exact S1 |]. split.
    + exists (rest ++ ps2). rewrite I1, app_assoc. reflexivity.
    + discriminate.
Qed.

Lemma connects_cpu_ram (w : world) (db : config) :
  connects [PPostgresMetrics] (get_cpu_ram_usage w db).
Proof.
  unfold get_cpu_ram_usage.
  apply (connects_bind [] [PPostgresMetrics]).
  - destruct (_is_localhost_connection db); apply connects_of_always;
      [apply always_local | apply always_remote].
  - intros sys. apply (connects_bind [PPostgresMetrics] []).
    + apply connects_of_always, always_postgres.
    + intros pg. apply connects_ret.
Qed.

Lemma connects_cache_hit (w : world) :
  connects [PCacheTotal; PCachePerTable; PIndexHeap] (get_cache_hit_ratio w).
Proof.
  unfold get_cache_hit_ratio, get_per_table_cache_hit_ratio,
    get_index_heap_ratio.
  apply (connects_bind [PCacheTotal] [PCachePerTable; PIndexHeap]);
    [apply connects_of_always, always_total_cache | intros ?].
  apply (connects_bind [PCachePerTable] [PIndexHeap]);
    [apply connects_of_always, always_fetch_all_of | intros ?].
  apply (connects_bind [PIndexHeap] []);
    [apply connects_of_always, always_fetch_all_of | intros ?].
  apply connects_ret.
Qed.

Lemma connects_storage (w : world) :
  connects [PDbStorage; PTableStorage; PIndexStorage; PIndexUsage]
        (get_storage_usage w).
Proof.
  unfold get_storage_usage, get_database_storage, get_table_storage,
    get_index_storage, get_index_usage.
  apply (connects_bind [PDbStorage] [PTableStorage; PIndexStorage; PIndexUsage]);
    [apply connects_of_always, always_fetch_all_of | intros ?].
  apply (connects_bind [PTableStorage] [PIndexStorage; PIndexUsage]);
    [apply connects_of_always, always_fetch_all_of | intros ?].
  apply (connects_bind [PIndexStorage] [PIndexUsage]);
    [apply connects_of_always, always_fetch_all_of | intros ?].
  apply (connects_bind [PIndexUsage] []);
    [apply connects_of_always, always_fetch_all_of | intros ?].
  apply connects_ret.
Qed.

Lemma unguarded_connect (w : world) (p : probe) :
  unguarded_succeed w -> In p connection_order -> p <> PPostgresMetrics ->
  db_connect w p = Ok tt.
Proof.
  intros U _ N.
  destruct p; try (exfalso; apply N; reflexivity);
    eapply (fun q H => proj1 (U _ q H)); unfold unguarded; cbn [In];
    repeat first [left; reflexivity | right].
Qed.

(** X7.  In every run of [main], returning or raising, the calls of
    [get_connection] are made in one fixed order, one by each probe
    function and none twice: long queries, frequent queries, server
    metrics, the three cache statements, the four storage statements,
    replication.  A run that raises has made an initial segment of
    these attempts.  A run that returns has made all eleven, and every
    one of them was accepted except possibly the one for the server
    metrics, whose refusal is absorbed by that probe. *)
Theorem main_connects_in_order (w : world) (db : config)
  (tr tr1 : trace) (r : result dict) :
  main w db tr = (r, tr1) ->
  exists qs,
    connection_attempts tr1 = connection_attempts tr ++ qs /\
    initial_segment qs
      [PLongQueries; PFrequentQueries; PPostgresMetrics;
       PCacheTotal; PCachePerTable; PIndexHeap;
       PDbStorage; PTableStorage; PIndexStorage; PIndexUsage;
       PReplication] /\
    (forall report, r = Ok report ->
       qs = [PLongQueries; PFrequentQueries; PPostgresMetrics;
             PCacheTotal; PCachePerTable; PIndexHeap;
             PDbStorage; PTableStorage; PIndexStorage; PIndexUsage;
             PReplication] /\
       forall p, In p qs -> p <> PPostgresMetrics -> db_connect w p = Ok tt).
Proof.
  assert (O : connects connection_order (main w db)).
  { unfold main, get_long_queries, get_frequent_queries,
      get_replication_delay.
    apply (connects_bind [PLongQueries]
             [PFrequentQueries; PPostgresMetrics;
              PCacheTotal; PCachePerTable; PIndexHeap;
              PDbStorage; PTableStorage; PIndexStorage; PIndexUsage;
              PReplication]);
      [apply connects_of_always, always_fetch_all_of | intros ?].
    apply (connects_bind [PFrequentQueries]
             [PPostgresMetrics;
              PCacheTotal; PCachePerTable; PIndexHeap;
              PDbStorage; PTableStorage; PIndexStorage; PIndexUsage;
              PReplication]);
      [apply connects_of_always, always_fetch_all_of | intros ?].
    apply (connects_bind [PPostgresMetrics]
             [PCacheTotal; PCachePerTable; PIndexHeap;
              PDbStorage; PTableStorage; PIndexStorage; PIndexUsage;
              PReplication]);
      [apply connects_cpu_ram | intros ?].
    apply (connects_bind [PCacheTotal; PCachePerTable; PIndexHeap]
             [PDbStorage; PTableStorage; PIndexStorage; PIndexUsage;
              PReplication]);
      [apply connects_cache_hit | intros ?].
    apply (connects_bind
             [PDbStorage; PTableStorage; PIndexStorage; PIndexUsage]
             [PReplication]);
      [apply connects_storage | intros ?].
    apply (connects_bind [PReplication] []);
      [apply connects_of_always, always_fetch_all_of | intros ?].
    apply connects_ret. }
  intros E. destruct (O tr r tr1 E) as (qs & S & I & F).
  exists qs. split; [exact S |]. split; [exact I |].
  intros report ->. specialize (F report eq_refl). split; [exact F |].
  intros p Hin N. rewrite F in Hin.
  destruct (ProbeFacts.main_inv _ _ _ _ _ E) as (_ & U).
  exact (unguarded_connect w p U Hin N).
Qed.

Lemma main_connects_in_order_witness :
  exists qs,
    connection_attempts
      (snd (main (Scenarios.ssh_world (Ok Scenarios.top_95_idle)
                                      (Ok Scenarios.free_16000))
                 Scenarios.remote_config []))
    = connection_attempts [] ++ qs /\
    initial_segment qs
      [PLongQueries; PFrequentQueries; PPostgresMetrics;
       PCacheTotal; PCachePerTable; PIndexHeap;
       PDbStorage; PTableStorage; PIndexStorage; PIndexUsage;
       PReplication].
Proof.
  destruct (main_connects_in_order
              (Scenarios.ssh_world (Ok Scenarios.top_95_idle)
                                   (Ok Scenarios.free_16000))
              Scenarios.remote_config [] _ _ (surjective_pairing _))
    as (qs & S & I & _).
  exists qs. split; [exact S | exact I].
Defined.

End TraceFacts.

(* ================================================================= *)
(** ** What the probes hand to the report *)

Module ProbeShape.
Import Py Text Run Host Probes Observe.
Local Open Scope string_scope.
Local Open Scope list_scope.

Ltac probe_unfold :=
  unfold get_cache_hit_ratio, get_total_cache_hit_ratio,
    get_per_table_cache_hit_ratio, get_index_heap_ratio,
    get_storage_usage, get_database_storage, get_table_storage,
    get_index_storage, get_index_usage,
    fetch_all_of, get_connection, execute, mbind, emit, lift, ret.

Ltac session_ok p q :=
  let r := fresh "r" in
  destruct (db_connect _ p) as [[] | ?]; [| discriminate];
  destruct (db_execute _ q) as [r | ?]; [| discriminate].

(** X8.  [get_cache_hit_ratio] is all or nothing.  It returns exactly
    when its three sessions and statements all succeed, run in the
    order total, per table, index against heap; the dictionary then
    holds the first row of the first statement (or None when it has no
    row) under [total] and all rows of the other two under [per_table]
    and [index_heap_ratio].  Otherwise it raises and no dictionary
    comes back. *)
Theorem cache_hit_all_or_nothing (w : world) (tr tr1 : trace) (v : pyval) :
  get_cache_hit_ratio w tr = (Ok v, tr1) <->
  exists r1 r2 r3,
    db_connect w PCacheTotal = Ok tt /\
    db_execute w SqlCacheTotal = Ok r1 /\
    db_connect w PCachePerTable = Ok tt /\
    db_execute w SqlCachePerTable = Ok r2 /\
    db_connect w PIndexHeap = Ok tt /\
    db_execute w SqlIndexHeap = Ok r3 /\
    v = VDict [("total", fetchone r1); ("per_table", fetchall r2);
               ("index_heap_ratio", fetchall r3)] /\
    tr1 = tr ++ [DbConnect PCacheTotal; DbExecute SqlCacheTotal;
                 DbConnect PCachePerTable; DbExecute SqlCachePerTable;
                 DbConnect PIndexHeap; DbExecute SqlIndexHeap].
Proof.
  probe_unfold. split.
  - session_ok PCacheTotal SqlCacheTotal.
    session_ok PCachePerTable SqlCachePerTable.
    session_ok PIndexHeap SqlIndexHeap.
    intros [= <- <-]. exists r, r0, r1.
    repeat (split; [reflexivity |]).
    rewrite <- !app_assoc. reflexivity.
  - intros (r1 & r2 & r3 & C1 & E1 & C2 & E2 & C3 & E3 & -> & ->).
    rewrite C1, E1, C2, E2, C3, E3. rewrite <- !app_assoc. reflexivity.
Qed.

Lemma cache_hit_all_or_nothing_witness :
  exists v tr1,
    get_cache_hit_ratio (Scenarios.ssh_world (Ok "") (Ok "")) [] = (Ok v, tr1).
Proof.
  eexists _, _.
  apply (proj2 (cache_hit_all_or_nothing _ _ _ _)).
  exists [], [], []. repeat (split; [reflexivity |]). reflexivity.
Defined.

(** X9.  [get_storage_usage] is all or nothing in the same way, over
    its four statements in the order databases, tables, indexes, index
    usage; every entry holds all rows of its statement. *)
Theorem storage_all_or_nothing (w : world) (tr tr1 : trace) (v : pyval) :
  get_storage_usage w tr = (Ok v, tr1) <->
  exists r1 r2 r3 r4,
    db_connect w PDbStorage = Ok tt /\
    db_execute w SqlDbStorage = Ok r1 /\
    db_connect w PTableStorage = Ok tt /\
    db_execute w SqlTableStorage = Ok r2 /\
    db_connect w PIndexStorage = Ok tt /\
    db_execute w SqlIndexStorage = Ok r3 /\
    db_connect w PIndexUsage = Ok tt /\
    db_execute w SqlIndexUsage = Ok r4 /\
    v = VDict [("databases", fetchall r1); ("tables", fetchall r2);
               ("indexes", fetchall r3); ("index_usage", fetchall r4)] /\
    tr1 = tr ++ [DbConnect PDbStorage; DbExecute SqlDbStorage;
                 DbConnect PTableStorage; DbExecute SqlTableStorage;
                 DbConnect PIndexStorage; DbExecute SqlIndexStorage;
                 DbConnect PIndexUsage; DbExecute SqlIndexUsage].
Proof.
  probe_unfold. split.
  - session_ok PDbStorage SqlDbStorage.
    session_ok PTableStorage SqlTableStorage.
    session_ok PIndexStorage SqlIndexStorage.
    session_ok PIndexUsage SqlIndexUsage.
    intros [= <- <-]. exists r, r0, r1, r2.
    repeat (split; [reflexivity |]).
    rewrite <- !app_assoc. reflexivity.
  - intros (r1 & r2 & r3 & r4 & C1 & E1 & C2 & E2 & C3 & E3 & C4 & E4
            & -> & ->).
    rewrite C1, E1, C2, E2, C3, E3, C4, E4. rewrite <- !app_assoc.
    reflexivity.
Qed.

Lemma storage_all_or_nothing_witness :
  exists v tr1,
    get_storage_usage (Scenarios.ssh_world (Ok "") (Ok "")) [] = (Ok v, tr1).
Proof.
  eexists _, _.
  apply (proj2 (storage_all_or_nothing _ _ _ _)).
  exists [], [], [], []. repeat (split; [reflexivity |]). reflexivity.
Defined.

End ProbeShape.

(* ================================================================= *)
(** ** SSH traffic *)

Module SshFacts.
Import Py Text Run Host Probes Observe.
Local Open Scope string_scope.
Local Open Scope list_scope.

Lemma ssh_free_ret {A} (a : A) : ssh_free (ret a).
Proof. intros tr r tr1 [= <- <-]. reflexivity. Qed.

Lemma ssh_free_lift {A} (x : result A) : ssh_free (lift x).
Proof. intros tr r tr1 [= <- <-]. reflexivity. Qed.

Lemma ssh_free_connect_db (p : probe) : ssh_free (emit (DbConnect p)).
Proof.
  intros tr r tr1 [= <- <-]. rewrite TraceFacts.ssh_events_app.
  apply app_nil_r.
Qed.

Lemma ssh_free_execute_db (q : stmt) : ssh_free (emit (DbExecute q)).
Proof.
  intros tr r tr1 [= <- <-]. rewrite TraceFacts.ssh_events_app.
  apply app_nil_r.
Qed.

Lemma ssh_free_print (l : line) : ssh_free (emit (Print l)).
Proof.
  intros tr r tr1 [= <- <-]. rewrite TraceFacts.ssh_events_app.
  apply app_nil_r.
Qed.

Lemma ssh_free_bind {A B} (c : M A) (k : A -> M B) :
  ssh_free c -> (forall a, ssh_free (k a)) -> ssh_free (mbind c k).
Proof.
  intros Hc Hk tr r tr1. unfold mbind.
  destruct (c tr) as [[a | e] tr0] eqn:E.
  - intros H. rewrite (Hk _ _ _ _ H). exact (Hc _ _ _ E).
  - intros [= <- <-]. exact (Hc _ _ _ E).
Qed.

Lemma ssh_free_try {A} (c : M A) (h : exn -> M A) :
  ssh_free c -> (forall e, ssh_free (h e)) -> ssh_free (try_except c h).
Proof.
  intros Hc Hh tr r tr1. unfold try_except.
  destruct (c tr) as [[a | e] tr0] eqn:E.
  - intros [= <- <-]. exact (Hc _ _ _ E).
  - intros H. rewrite (Hh _ _ _ _ H). exact (Hc _ _ _ E).
Qed.

Ltac ssh_free_steps :=
  repeat first
    [ apply ssh_free_ret
    | apply ssh_free_lift
    | apply ssh_free_connect_db
    | apply ssh_free_execute_db
    | apply ssh_free_print
    | apply ssh_free_bind; [| intros ?]
    | apply ssh_free_try; [| intros ?] ].

Lemma ssh_free_fetch_all_of (w : world) (p : probe) (q : stmt) :
  ssh_free (fetch_all_of w p q).
Proof. unfold fetch_all_of, get_connection, execute. ssh_free_steps. Qed.

Lemma ssh_free_postgres (w : world) : ssh_free (get_postgres_server_metrics w).
Proof.
  unfold get_postgres_server_metrics, postgres_body, get_connection, execute.
  ssh_free_steps.
Qed.

Lemma ssh_free_cache_hit (w : world) : ssh_free (get_cache_hit_ratio w).
Proof.
  unfold get_cache_hit_ratio, get_total_cache_hit_ratio,
    get_per_table_cache_hit_ratio, get_index_heap_ratio, get_connection,
    execute.
  repeat first [apply ssh_free_fetch_all_of | progress ssh_free_steps].
Qed.

Lemma ssh_free_storage (w : world) : ssh_free (get_storage_usage w).
Proof.
  unfold get_storage_usage, get_database_storage, get_table_storage,
    get_index_storage, get_index_usage.
  repeat first [apply ssh_free_fetch_all_of | progress ssh_free_steps].
Qed.

(** X10.  A run against one of the four local host names has no SSH
    traffic at all, whether it returns or raises: no connection
    attempt, no command, no close. *)
Theorem local_run_has_no_ssh_traffic (w : world) (db : config)
  (tr tr1 : trace) (r : result dict) :
  _is_localhost_connection db = true ->
  main w db tr = (r, tr1) ->
  ssh_events tr1 = ssh_events tr.
Proof.
  intros L. revert tr r tr1. change (ssh_free (main w db)).
  unfold main, get_long_queries, get_frequent_queries, get_replication_delay,
    get_cpu_ram_usage. rewrite L. unfold local_metrics.
  repeat first
    [ apply ssh_free_fetch_all_of
    | apply ssh_free_postgres
    | apply ssh_free_cache_hit
    | apply ssh_free_storage
    | progress ssh_free_steps ].
Qed.

Lemma local_run_has_no_ssh_traffic_witness :
  _is_localhost_connection
    (Scenarios.with_host "127.0.0.1" Scenarios.remote_config) = true /\
  ssh_events
    (snd (main (Scenarios.ssh_world (Ok "") (Ok ""))
               (Scenarios.with_host "127.0.0.1" Scenarios.remote_config) []))
  = [].
Proof.
  assert (L : _is_localhost_connection
                (Scenarios.with_host "127.0.0.1" Scenarios.remote_config)
              = true) by reflexivity.
  split; [exact L |].
  exact (local_run_has_no_ssh_traffic _ _ [] _ _ L (surjective_pairing _)).
Defined.

Lemma app_one_neq {A} (l : list A) (x : A) (r : list A) : l ++ x :: r <> l.
Proof.
  intros H. apply (f_equal (@List.length A)) in H.
  rewrite length_app in H. cbn [List.length] in H. lia.
Qed.

(** X11.  The SSH traffic of the remote host probe, on every run.  It
    makes one connection attempt, to the target read from the
    configuration.  When that is refused nothing else is sent.  When it
    is accepted, the commands sent are an initial segment of: [top],
    [free], close -- no other command, none twice, and the close only
    after both commands.  A run that prints no warning has sent all
    three. *)
Theorem remote_probe_ssh_discipline (w : world) (db : config)
  (tr tr1 : trace) (r : result dict) :
  _get_remote_system_metrics w db tr = (r, tr1) ->
  exists evs,
    ssh_events tr1 = ssh_events tr ++ evs /\
    (evs = [SshConnect (ssh_target_of db) false] \/
     exists more,
       evs = SshConnect (ssh_target_of db) true :: more /\
       initial_segment more
         [SshExec top_command; SshExec free_command; SshClose]) /\
    (printed tr1 = printed tr ->
     evs = [SshConnect (ssh_target_of db) true;
            SshExec top_command; SshExec free_command; SshClose]).
Proof.
  unfold _get_remote_system_metrics, try_except, remote_body, exec_command,
    connect, mbind, lift, emit, ret.
  repeat match goal with
         | |- context [match ?x with _ => _ end] =>
             lazymatch x with
             | context [match _ with _ => _ end] => fail
             | _ => destruct x
             end
         end;
    intros [= <- <-];
    repeat rewrite <- app_assoc; cbn [app];
    (eexists; split;
     [ rewrite TraceFacts.ssh_events_app; cbn [ssh_events]; reflexivity |]);
    (split;
     [ first [ left; reflexivity
             | right; eexists; split; [reflexivity | eexists; reflexivity] ]
     | rewrite HostFacts.printed_app; cbn [printed];
       first [ intros _; reflexivity
             | intros H; apply app_one_neq in H; destruct H ] ]).
Qed.

Lemma remote_probe_ssh_discipline_witness :
  exists evs,
    ssh_events
      (snd (_get_remote_system_metrics
              (Scenarios.ssh_world (Ok Scenarios.top_95_idle) (Ok ""))
              Scenarios.remote_config []))
    = ssh_events [] ++ evs /\
    (evs = [SshConnect (ssh_target_of Scenarios.remote_config) false] \/
     exists more,
       evs = SshConnect (ssh_target_of Scenarios.remote_config) true :: more /\
       initial_segment more
         [SshExec top_command; SshExec free_command; SshClose]).
Proof.
  destruct (remote_probe_ssh_discipline
              (Scenarios.ssh_world (Ok Scenarios.top_95_idle) (Ok ""))
              Scenarios.remote_config [] _ _ (surjective_pairing _))
    as (evs & S & D & _).
  exists evs. split; [exact S | exact D].
Defined.

End SshFacts.

(* ================================================================= *)
(** ** From the probes to the executive summary *)

Module SummaryFacts.
Import Py Text Run Host Probes Classifier Render Observe.
Local Open Scope string_scope.
Local Open Scope list_scope.

Ltac silent_steps :=
  repeat first
    [ apply HostFacts.silent_ret
    | apply HostFacts.silent_lift
    | apply HostFacts.silent_emit; discriminate
    | apply HostFacts.silent_bind; [| intros ?] ].

Lemma postgres_body_silent (w : world) : silent (postgres_body w).
Proof. unfold postgres_body, get_connection, execute. silent_steps. Qed.

Lemma local_metrics_silent (w : world) : silent (local_metrics w).
Proof. unfold local_metrics. silent_steps. Qed.

Lemma postgres_outcome (w : world) (tr : trace) :
  (exists d tr1,
     postgres_body w tr = (Ok d, tr1) /\
     get_postgres_server_metrics w tr = (Ok d, tr1) /\
     printed tr1 = printed tr) \/
  (exists e tr1,
     postgres_body w tr = (Raise e, tr1) /\
     get_postgres_server_metrics w tr
       = (Ok postgres_fallback, tr1 ++ [Print (WarnPostgresMetrics e)]) /\
     printed (tr1 ++ [Print (WarnPostgresMetrics e)])
       = printed tr ++ [WarnPostgresMetrics e]).
Proof.
  unfold get_postgres_server_metrics, try_except.
  destruct (postgres_body w tr) as [[d | e] tr1] eqn:E;
    pose proof (postgres_body_silent w _ _ _ E) as P.
  - left. exists d, tr1. auto.
  - right. exists e, tr1. split; [reflexivity |]. split; [reflexivity |].
    rewrite HostFacts.printed_app, P. reflexivity.
Qed.

Ltac peel d K :=
  destruct d as [| [? ?] d]; cbn in K; [discriminate K |];
  injection K as -> K.

(** [{**a, **b}] of a host record and a server record: their keys are
    distinct, so the merge is the one followed by the other. *)
Lemma merge_host_server (sys pg : dict) :
  keys sys = keys zero_metrics -> keys pg = keys postgres_fallback ->
  dict_merge sys pg = sys ++ pg.
Proof.
  intros Ks Kp.
  peel sys Ks. peel sys Ks. peel sys Ks. peel sys Ks. peel sys Ks.
  destruct sys; [| discriminate Ks].
  peel pg Kp. peel pg Kp. peel pg Kp. peel pg Kp. peel pg Kp. peel pg Kp.
  destruct pg; [| discriminate Kp].
  reflexivity.
Qed.

Lemma cpu_ram_parts (w : world) (db : config) (tr tr1 : trace) (d : dict) :
  get_cpu_ram_usage w db tr = (Ok d, tr1) ->
  exists sys pg tr0,
    (if _is_localhost_connection db then local_metrics w
     else _get_remote_system_metrics w db) tr = (Ok sys, tr0) /\
    get_postgres_server_metrics w tr0 = (Ok pg, tr1) /\
    keys sys = keys zero_metrics /\
    keys pg = keys postgres_fallback /\
    d = sys ++ pg.
Proof.
  intros E. unfold get_cpu_ram_usage in E.
  apply ProbeFacts.mbind_ok in E. destruct E as (sys & tr0 & S & E).
  apply ProbeFacts.mbind_ok in E. destruct E as (pg & tr0' & P & E).
  injection E as <- <-.
  assert (Ks : keys sys = keys zero_metrics).
  { destruct (_is_localhost_connection db);
      [ exact (ProbeFacts.local_metrics_keys w _ _ _ S)
      | exact (ProbeFacts.remote_metrics_keys w db _ _ _ S) ]. }
  pose proof (ProbeFacts.postgres_metrics_keys w _ _ _ P) as Kp.
  exists sys, pg, tr0. rewrite (merge_host_server _ _ Ks Kp). auto.
Qed.

(** What the host half prints: nothing, or one remote warning after
    which its record is the zero record. *)
Lemma host_half_outcome (w : world) (db : config) (tr tr0 : trace)
  (sys : dict) :
  (if _is_localhost_connection db then local_metrics w
   else _get_remote_system_metrics w db) tr = (Ok sys, tr0) ->
  printed tr0 = printed tr \/
  (exists e, printed tr0 = printed tr ++ [WarnRemoteMetrics e] /\
             sys = zero_metrics /\ _is_localhost_connection db = false).
Proof.
  destruct (_is_localhost_connection db).
  - intros S. left. exact (local_metrics_silent w _ _ _ S).
  - intros S.
    destruct (HostFacts.remote_probe_outcome w db tr)
      as [(d & t & _ & R & P) | (e & t & _ & R & P)];
      rewrite R in S; injection S as <- <-.
    + left. exact P.
    + right. exists e. auto.
Qed.

(** What the server half prints: nothing, or one server warning after
    which its record is the fallback record. *)
Lemma server_half_outcome (w : world) (tr0 tr1 : trace) (pg : dict) :
  get_postgres_server_metrics w tr0 = (Ok pg, tr1) ->
  printed tr1 = printed tr0 \/
  (exists e, printed tr1 = printed tr0 ++ [WarnPostgresMetrics e] /\
             pg = postgres_fallback).
Proof.
  intros S.
  destruct (postgres_outcome w tr0)
    as [(d & t & _ & R & P) | (e & t & _ & R & P)];
    rewrite R in S; injection S as <- <-.
  - left. exact P.
  - right. exists e. auto.
Qed.

(** X12.  The CPU/RAM section is the host record followed by the
    server record, every value as its probe returned it: the merge
    drops and overwrites nothing.  A half that printed a warning
    contributes its fallback: the zero record for the host, the
    "N/A" record for the server. *)
Theorem cpu_ram_is_host_then_server (w : world) (db : config)
  (tr tr1 : trace) (d : dict) :
  get_cpu_ram_usage w db tr = (Ok d, tr1) ->
  exists sys pg tr0,
    (if _is_localhost_connection db then local_metrics w
     else _get_remote_system_metrics w db) tr = (Ok sys, tr0) /\
    get_postgres_server_metrics w tr0 = (Ok pg, tr1) /\
    d = sys ++ pg /\
    (printed tr0 <> printed tr -> sys = zero_metrics) /\
    (printed tr1 <> printed tr0 -> pg = postgres_fallback).
Proof.
  intros E. destruct (cpu_ram_parts _ _ _ _ _ E)
    as (sys & pg & tr0 & S & P & _ & _ & D).
  exists sys, pg, tr0. repeat (split; [assumption |]). split.
  - intros N. destruct (host_half_outcome _ _ _ _ _ S) as [Q | (e & _ & Z & _)];
      [contradiction | exact Z].
  - intros N. destruct (server_half_outcome _ _ _ _ P) as [Q | (e & _ & Z)];
      [contradiction | exact Z].
Qed.

Lemma cpu_ram_is_host_then_server_witness :
  exists sys pg,
    fst (get_cpu_ram_usage Scenarios.idle_database Scenarios.remote_config [])
    = Ok (sys ++ pg) /\
    keys sys = keys zero_metrics.
Proof.
  pose (run := get_cpu_ram_usage Scenarios.idle_database
                                 Scenarios.remote_config []).
  assert (E : run = (Ok (match fst run with Ok d => d | Raise _ => [] end),
                     snd run)) by (vm_compute; reflexivity).
  unfold run in E.
  destruct (cpu_ram_is_host_then_server _ _ _ _ _ E)
    as (sys & pg & tr0 & S & _ & D & _).
  exists sys, pg. split.
  - rewrite E. cbn [fst]. f_equal. exact D.
  - exact (ProbeFacts.remote_metrics_keys _ _ _ _ _ S).
Defined.

(** X13.  A failed probe reads as healthy in the executive summary.
    When the run of the CPU/RAM probe printed the remote warning, the
    summary rows for CPU and RAM are both GOOD; when it printed the
    server warning, the row for the connections is GOOD. *)
Theorem failed_probes_read_as_good (w : world) (db : config)
  (tr tr1 : trace) (d : dict) :
  get_cpu_ram_usage w db tr = (Ok d, tr1) ->
  (forall e rest,
     printed tr1 = printed tr ++ WarnRemoteMetrics e :: rest ->
     summary_cpu_status d = "GOOD" /\ summary_ram_status d = "GOOD") /\
  (forall pre e,
     printed tr1 = printed tr ++ pre ++ [WarnPostgresMetrics e] ->
     summary_connections_status d = "GOOD").
Proof.
  intros E. destruct (cpu_ram_parts _ _ _ _ _ E)
    as (sys & pg & tr0 & S & P & Ks & Kp & ->).
  pose proof (host_half_outcome _ _ _ _ _ S) as HO.
  pose proof (server_half_outcome _ _ _ _ P) as SO.
  split.
  - intros e rest Q.
    destruct HO as [H | (e1 & H & -> & _)].
    + exfalso. destruct SO as [T | (e2 & T & _)]; rewrite T, H in Q.
      * symmetry in Q. exact (SshFacts.app_one_neq _ _ _ Q).
      * apply app_inv_head in Q. discriminate Q.
    + split; reflexivity.
  - intros pre e Q.
    destruct SO as [T | (e2 & T & ->)].
    + exfalso. rewrite T in Q.
      destruct HO as [H | (e1 & H & _)]; rewrite H in Q.
      * rewrite <- (app_nil_r (printed tr)) in Q at 1.
        apply app_inv_head in Q. destruct pre; discriminate Q.
      * apply app_inv_head in Q.
        destruct pre as [| x [| y pre]]; discriminate Q.
    + clear - Ks.
      peel sys Ks. peel sys Ks. peel sys Ks. peel sys Ks. peel sys Ks.
      destruct sys; [| discriminate Ks].
      reflexivity.
Qed.

Lemma failed_probes_read_as_good_witness :
  printed
    (snd (get_cpu_ram_usage Scenarios.database_down
            (Scenarios.with_host "10.0.0.7" Scenarios.remote_config) []))
  = [] ++ [] ++ [WarnPostgresMetrics OperationalError] /\
  exists d,
    fst (get_cpu_ram_usage Scenarios.database_down
           (Scenarios.with_host "10.0.0.7" Scenarios.remote_config) [])
    = Ok d /\
    summary_connections_status d = "GOOD".
Proof.
  pose (run := get_cpu_ram_usage Scenarios.database_down
                 (Scenarios.with_host "10.0.0.7" Scenarios.remote_config) []).
  assert (E : run = (Ok (match fst run with Ok d => d | Raise _ => [] end),
                     snd run)) by (vm_compute; reflexivity).
  assert (Q : printed (snd run)
              = printed [] ++ [] ++ [WarnPostgresMetrics OperationalError])
    by (vm_compute; reflexivity).
  unfold run in E, Q.
  split; [exact Q |].
  eexists. split; [rewrite E; reflexivity |].
  exact (proj2 (failed_probes_read_as_good _ _ _ _ _ E) _ _ Q).
Defined.

Lemma cache_hit_total (w : world) (tr tr1 : trace) (v : pyval)
  (rows : list row) :
  get_cache_hit_ratio w tr = (Ok v, tr1) ->
  db_execute w SqlCacheTotal = Ok rows ->
  exists per_table index_heap,
    v = VDict [("total", fetchone rows); ("per_table", per_table);
               ("index_heap_ratio", index_heap)].
Proof.
  intros E R. unfold get_cache_hit_ratio in E.
  apply ProbeFacts.mbind_ok in E. destruct E as (total & t1 & T & E).
  apply ProbeFacts.mbind_ok in E. destruct E as (per_table & t2 & _ & E).
  apply ProbeFacts.mbind_ok in E. destruct E as (index_heap & t3 & _ & E).
  injection E as <- _.
  exists per_table, index_heap.
  unfold get_total_cache_hit_ratio, get_connection, execute, mbind, emit,
    lift, ret in T.
  rewrite R in T. destruct (db_connect w PCacheTotal); [| discriminate T].
  injection T as <- _. reflexivity.
Qed.

(** X14.  The cache row of the executive summary, from the first row
    of the total-ratio statement.  No row, or a row of fewer than three
    columns, counts as ratio 0 and reads CRITICAL.  A row whose third
    column is NULL -- a database that has served no block yet -- makes
    the summary raise TypeError, so no report is drawn.  A float [f] in
    the third column is classified as [f * 100]. *)
Theorem cache_status_from_total_row (w : world) (tr tr1 : trace)
  (cache : dict) (rows : list row) :
  get_cache_hit_ratio w tr = (Ok (VDict cache), tr1) ->
  db_execute w SqlCacheTotal = Ok rows ->
  (rows = [] -> summary_cache_status cache = Ok "CRITICAL") /\
  (forall r more,
     rows = r :: more -> (List.length r <= 2)%nat ->
     summary_cache_status cache = Ok "CRITICAL") /\
  (forall hits reads rest more,
     rows = (hits :: reads :: VNone :: rest) :: more ->
     summary_cache_status cache = Raise TypeError) /\
  (forall hits reads f rest more,
     rows = (hits :: reads :: VFloat f :: rest) :: more ->
     summary_cache_status cache =
     Ok (_status_higher_is_better (VFloat (float_mul f (float_of_Z 100)))
                                  (NInt 90) (NInt 80))).
Proof.
  intros E R.
  destruct (cache_hit_total _ _ _ _ _ E R) as (pt & ih & [= ->]).
  unfold summary_cache_status, summary_cache_ratio.
  change (dict_get_or _ "total" (VTuple [])) with (fetchone rows).
  assert (L : forall (a b c : pyval) (l : list pyval),
            (2 <? Z.of_nat (List.length (a :: b :: c :: l)))%Z = true).
  { intros. apply Z.ltb_lt. cbn [List.length]. lia. }
  repeat split.
  - intros ->. reflexivity.
  - intros r more -> Hl.
    destruct r as [| a [| b [| c r]]]; [reflexivity .. |].
    cbn [List.length] in Hl. lia.
  - intros hits reads rest more ->.
    cbn [fetchone truthy py_len bind]. rewrite L. reflexivity.
  - intros hits reads f rest more ->.
    cbn [fetchone truthy py_len bind]. rewrite L. reflexivity.
Qed.

Lemma cache_status_from_total_row_witness :
  exists cache,
    fst (get_cache_hit_ratio Scenarios.idle_database []) = Ok (VDict cache) /\
    summary_cache_status cache = Raise TypeError.
Proof.
  pose (run := get_cache_hit_ratio Scenarios.idle_database []).
  assert (E : run = (Ok (VDict (match fst run with
                                | Ok (VDict d) => d
                                | _ => []
                                end)), snd run))
    by (vm_compute; reflexivity).
  unfold run in E.
  eexists. split; [rewrite E; reflexivity |].
  exact (proj1 (proj2 (proj2
           (cache_status_from_total_row _ _ _ _ _ E eq_refl)))
           _ _ _ _ eq_refl).
Defined.

(** X15.  The slow-queries row of the executive summary counts the
    rows of the long-queries statement: CRITICAL from ten rows on,
    WARNING from five to nine, GOOD below five. *)
Theorem slow_queries_status_by_row_count (w : world) (tr tr1 : trace)
  (long_queries : pyval) (rows : list row) :
  get_long_queries w 600 10 tr = (Ok long_queries, tr1) ->
  db_execute w (SqlLongQueries 600 10) = Ok rows ->
  (Z.of_nat (List.length rows) < 2 ^ 53)%Z ->
  summary_slow_queries_status long_queries =
  Ok (if (10 <=? List.length rows)%nat then "CRITICAL"
      else if (5 <=? List.length rows)%nat then "WARNING"
      else "GOOD").
Proof.
  intros E R B. unfold get_long_queries, fetch_all_of, get_connection,
    execute, mbind, emit, lift, ret in E.
  rewrite R in E. destruct (db_connect w PLongQueries); [| discriminate E].
  injection E as <- _.
  unfold summary_slow_queries_status, fetchall, py_len, bind.
  rewrite length_map. f_equal. unfold row in *.
  remember (Z.of_nat (List.length rows)) as n eqn:Hn.
  assert (A : (Z.abs n < 2 ^ 53)%Z).
  { revert B. generalize (2 ^ 53)%Z. intros; lia. }
  unfold _status_count. fold (float_or_zero (VInt n)).
  rewrite (RoundingFacts.float_or_zero_small_int n A).
  unfold num_ge. rewrite !(RoundingFacts.float_of_Z_compare n _ A).
  destruct (Nat.leb_spec 10 (List.length rows)) as [H10 | H10];
    destruct (Nat.leb_spec 5 (List.length rows)) as [H5 | H5];
    destruct (Z.compare_spec n 10); destruct (Z.compare_spec n 5);
    try reflexivity; lia.
Qed.

Lemma slow_queries_status_by_row_count_witness :
  exists long_queries,
    fst (get_long_queries Scenarios.idle_database 600 10 [])
    = Ok long_queries /\
    summary_slow_queries_status long_queries = Ok "GOOD".
Proof.
  pose (run := get_long_queries Scenarios.idle_database 600 10 []).
  assert (E : run = (Ok (match fst run with Ok v => v | Raise _ => VNone end),
                     snd run)) by (vm_compute; reflexivity).
  unfold run in E.
  eexists. split; [rewrite E; reflexivity |].
  refine (slow_queries_status_by_row_count _ _ _ _ [] E eq_refl _).
  vm_compute. reflexivity.
Defined.

Lemma kb_div_ok (z : Z) :
  (Z.abs z < 2 ^ 31)%Z -> int_true_div z 1024 = Ok (rn_div z 1024).
Proof.
  intros H. unfold int_true_div.
  change (1024 =? 0)%Z with false. cbv beta iota.
  destruct (Z.leb_spec (overflow_bound * Z.abs 1024) (Z.abs z))
    as [L | _]; [| reflexivity].
  exfalso. change (Z.abs 1024) with 1024%Z in L.
  assert (O : (2 ^ 31 < overflow_bound)%Z) by (vm_compute; reflexivity).
  revert H L O. generalize overflow_bound (2 ^ 31)%Z. intros; lia.
Qed.

Lemma setting_mb_int (size a b c : pyval) (rest : row) (z : Z) (i : nat) :
  (Z.abs z < 2 ^ 31)%Z ->
  nth_error (size :: a :: b :: c :: rest) i = Some (VInt z) ->
  setting_mb (VTuple (size :: a :: b :: c :: rest)) i =
  Ok (if (z =? 0)%Z then VInt 0 else VFloat (round2 (rn_div z 1024))).
Proof.
  intros B N. unfold setting_mb, item, index. cbn [truthy]. rewrite N.
  cbn [bind truthy]. destruct (z =? 0)%Z; [reflexivity |].
  cbn [negb truediv_int bind]. rewrite (kb_div_ok z B). reflexivity.
Qed.

(** X16.  The server metrics from the rows of the two statements, with
    no warning printed.  A setting of [z] kB (a 32-bit int) is
    reported as [z / 1024] rounded to two places, except that a setting
    of 0 is reported as the int 0; the size and the two counts are
    passed on untouched, whatever they are (a NULL sum stays None).
    When both statements answer with no row, the record is the same as
    the one returned after a failure, but no warning is printed. *)
Theorem server_metrics_from_rows (w : world) (tr : trace) :
  db_connect w PPostgresMetrics = Ok tt ->
  let events := [DbConnect PPostgresMetrics; DbExecute SqlServerSettings;
                 DbExecute SqlActivity] in
  let mb (z : Z) : pyval :=
    if (z =? 0)%Z then VInt 0 else VFloat (round2 (rn_div z 1024)) in
  (forall size sb wm mw rest more conns queries rest' more',
     db_execute w SqlServerSettings
       = Ok ((size :: VInt sb :: VInt wm :: VInt mw :: rest) :: more) ->
     db_execute w SqlActivity = Ok ((conns :: queries :: rest') :: more') ->
     (Z.abs sb < 2 ^ 31)%Z -> (Z.abs wm < 2 ^ 31)%Z ->
     (Z.abs mw < 2 ^ 31)%Z ->
     get_postgres_server_metrics w tr =
     (Ok [("postgres_db_size", size);
          ("postgres_shared_buffers_mb", mb sb);
          ("postgres_work_mem_mb", mb wm);
          ("postgres_maintenance_work_mem_mb", mb mw);
          ("postgres_active_connections", conns);
          ("postgres_active_queries", queries)],
      tr ++ events)) /\
  (db_execute w SqlServerSettings = Ok [] ->
   db_execute w SqlActivity = Ok [] ->
   get_postgres_server_metrics w tr = (Ok postgres_fallback, tr ++ events)).
Proof.
  intros C events mb. split.
  - intros size sb wm mw rest more conns queries rest' more' S A Bs Bw Bm.
    unfold get_postgres_server_metrics, try_except, postgres_body,
      get_connection, execute, mbind, emit, lift, ret.
    rewrite C, S, A. cbn [fetchone].
    rewrite (setting_mb_int size _ _ _ rest sb 1 Bs eq_refl).
    rewrite (setting_mb_int size _ _ _ rest wm 2 Bw eq_refl).
    rewrite (setting_mb_int size _ _ _ rest mw 3 Bm eq_refl).
    cbn [item_or truthy item index nth_error].
    rewrite <- !app_assoc. reflexivity.
  - intros S A.
    unfold get_postgres_server_metrics, try_except, postgres_body,
      get_connection, execute, mbind, emit, lift, ret.
    rewrite C, S, A. cbn [fetchone item_or setting_mb truthy].
    rewrite <- !app_assoc. reflexivity.
Qed.

Lemma server_metrics_from_rows_witness :
  db_connect Scenarios.idle_database PPostgresMetrics = Ok tt /\
  get_postgres_server_metrics Scenarios.idle_database [] =
  (Ok [("postgres_db_size", VStr "7453 kB");
       ("postgres_shared_buffers_mb", VFloat (float_of_Z 16));
       ("postgres_work_mem_mb", VFloat (float_of_Z 4));
       ("postgres_maintenance_work_mem_mb", VInt 0);
       ("postgres_active_connections", VInt 6);
       ("postgres_active_queries", VInt 1)],
   [DbConnect PPostgresMetrics; DbExecute SqlServerSettings;
    DbExecute SqlActivity]).
Proof.
  split; [reflexivity |].
  refine (eq_trans
            (proj1 (server_metrics_from_rows Scenarios.idle_database []
                      eq_refl)
               (VStr "7453 kB") 16384 4096 0 [] [] (VInt 6) (VInt 1) [] []
               eq_refl eq_refl _ _ _) _);
    vm_compute; reflexivity.
Defined.

End SummaryFacts.
